(** * Wildebeest federation core: actor cache, Like handling, collection pages

    A shallow embedding of
      - backend/src/activitypub/actors/index.ts   (fetchActor, getAndCache,
        getActorById, getPersonByEmail, setMastodonId, actorFromRow, actorURL,
        createPerson)
      - backend/src/activitypub/activities/like.ts (handleLikeActivity)
      - functions/api/v1/accounts/[id]/followers.ts (schema, onRequestGet, get)
      - functions/api/v1/accounts/[id]/statuses.ts  (handleRequest,
        getLocalStatuses, getRemoteStatuses)
      - functions/ap/users/[id]/followers/page.ts   (handleRequest)

    Asynchronous functions become computations in a state-and-exception
    monad over a [World] (database tables, console, clock, effect trace).
    A rejected promise is a [Throw]; the writes made before it stay in the
    world, as they do in the storage engine.  URLs are represented by their
    serialised form (href); parsing one is the platform function
    [new_URL]. *)

From Stdlib Require Import String Ascii List ZArith Lia Bool Arith.
From Stdlib Require Import DecimalString DecimalNat DecimalFacts.
From Stdlib Require Import Sorted.
Import ListNotations.
Local Open Scope string_scope.
Local Open Scope list_scope.

Set Implicit Arguments.

(** String concatenation (JavaScript [+] on strings and template literals). *)
Infix "+++" := String.append (at level 60, right associativity).

(* ------------------------------------------------------------------ *)
(** ** JavaScript values and helpers

    A JavaScript string is a [string]: a sequence of code units, so that
    [String.length] is its [length]. *)

Module Js.

(** Truthiness of a possibly-undefined string: [undefined] and the empty
    string are falsy. *)
Definition truthy (v : option string) : bool :=
  match v with
  | Some s => negb (s =? "")%string
  | None => false
  end.

(** [v !== undefined] *)
Definition defined {A : Type} (v : option A) : bool :=
  match v with Some _ => true | None => false end.

(** [v ?? d] where [d] may itself be undefined. *)
Definition nullish {A : Type} (v d : option A) : option A :=
  match v with Some x => Some x | None => d end.

(** [s.substring(0, n)] *)
Definition substring0 (n : nat) (s : string) : string := String.substring 0 n s.

(** Template interpolation of [undefined]. *)
Definition interpolate (v : option string) : string :=
  match v with Some s => s | None => "undefined" end.

Definition string_of_nat (n : nat) : string :=
  NilEmpty.string_of_uint (Nat.to_uint n).

(** *** Number.parseInt with no radix argument *)

Definition is_whitespace (c : ascii) : bool :=
  let n := nat_of_ascii c in
  ((n =? 32) || (n =? 9) || (n =? 10) || (n =? 11) || (n =? 12) || (n =? 13))%nat.

Fixpoint skip_whitespace (s : string) : string :=
  match s with
  | String c r => if is_whitespace c then skip_whitespace r else s
  | EmptyString => s
  end.

Definition digit_value (radix : Z) (c : ascii) : option Z :=
  let n := Z.of_nat (nat_of_ascii c) in
  let v :=
    (if (48 <=? n) && (n <=? 57) then Some (n - 48)
     else if (97 <=? n) && (n <=? 122) then Some (n - 87)
     else if (65 <=? n) && (n <=? 90) then Some (n - 55)
     else None)%Z in
  match v with
  | Some d => if (d <? radix)%Z then Some d else None
  | None => None
  end.

(** Longest prefix of digits; [None] when there is no digit at all. *)
Fixpoint digits (radix : Z) (s : string) (acc : option Z) : option Z :=
  match s with
  | EmptyString => acc
  | String c r =>
      match digit_value radix c with
      | Some d =>
          digits radix r
            (Some (radix * (match acc with Some a => a | None => 0 end) + d)%Z)
      | None => acc
      end
  end.

(** The mathematical integer Number.parseInt reads off its input
    (mathInt, with its sign); [None] when there is no digit to read. *)
Definition parseInt_mathInt (input : string) : option Z :=
  let s := skip_whitespace input in
  let '(negative, s) :=
    match s with
    | String "-" r => (true, r)
    | String "+" r => (false, r)
    | _ => (false, s)
    end in
  let '(radix, s) :=
    match s with
    | String "0" (String "x" r) => (16%Z, r)
    | String "0" (String "X" r) => (16%Z, r)
    | _ => (10%Z, s)
    end in
  match digits radix s None with
  | Some v => Some (if negative then (- v)%Z else v)
  | None => None
  end.

(** The Number for an integer: a Number holds 53 significant bits, and an
    integer with more is rounded to the nearest one that fits, to the even
    one on a tie.  Integers up to 2^53 in magnitude are kept as they are. *)
Definition to_double (z : Z) : Z :=
  let a := Z.abs z in
  let e := (Z.log2 a - 52)%Z in
  if (e <=? 0)%Z then z
  else
    let q := Z.shiftr a e in
    let r := Z.land a (Z.ones e) in
    let half := Z.shiftl 1 (e - 1) in
    let q' := if (half <? r)%Z || ((r =? half)%Z && Z.odd q) then (q + 1)%Z else q in
    (Z.sgn z * Z.shiftl q' e)%Z.

(** The result is [None] for NaN, and otherwise the integer that the
    resulting Number is.  (A magnitude of 2^1024 or more, which is read as
    Infinity, has no counterpart here.) *)
Definition parseInt (input : string) : option Z :=
  option_map to_double (parseInt_mathInt input).

(** [Math.abs(n) || d]: NaN and zero are falsy. *)
Definition abs_or (n : option Z) (d : Z) : Z :=
  match n with
  | Some v => if (Z.abs v =? 0)%Z then d else Z.abs v
  | None => d
  end.

End Js.

(* ------------------------------------------------------------------ *)
(** ** Results of asynchronous calls *)

Inductive Exn : Type :=
| Error (msg : string)          (* throw new Error(msg) *)
| TypeError (msg : string)      (* new URL(...) on an invalid input, fetch failing *)
| SyntaxError (msg : string)    (* res.json() on a malformed body *)
| ConstraintError (msg : string) (* the storage engine rejecting a statement *).

Inductive Res (A : Type) : Type :=
| Ok (a : A)
| Throw (e : Exn).

Arguments Ok {A} a.
Arguments Throw {A} e.

Definition res_bind {A B : Type} (r : Res A) (k : A -> Res B) : Res B :=
  match r with
  | Ok a => k a
  | Throw e => Throw e
  end.

Declare Scope res_scope.
Delimit Scope res_scope with res.
Notation "x <- r ;; k" := (res_bind r (fun x => k))
  (at level 61, r at next level, right associativity) : res_scope.

Definition is_ok {A : Type} (r : Res A) : bool :=
  match r with Ok _ => true | Throw _ => false end.

(* ------------------------------------------------------------------ *)
(** ** Data model *)

(** An image reference ([icon], [image]). *)
Record Image : Type := {
  image_type : option string;
  image_mediaType : option string;
  image_url : string;
  image_id : option string
}.

(** The JSON document of an actor: what a remote server returns
    ([Remote<Actor>]) and what the [properties] column stores
    ([PersonProperties]).  A missing key is [None]. *)
Record Doc : Type := {
  doc_id : option string;
  doc_type : option string;
  doc_name : option string;
  doc_summary : option string;
  doc_preferredUsername : option string;
  doc_icon : option Image;
  doc_image : option Image;
  doc_inbox : option string;
  doc_outbox : option string;
  doc_following : option string;
  doc_followers : option string;
  doc_alsoKnownAs : option (list string)
}.

(** Identifiers handed out by generateMastodonId: creation time and a
    sequence number. *)
Definition MastodonId : Type := (nat * nat)%type.

(** A row of the [actors] table, as [SELECT *] returns it.
    [row_original_actor_id] is only present in joined result sets. *)
Record ActorRow : Type := {
  row_id : string;
  row_type : string;
  row_email : option string;
  row_pubkey : option string;
  row_cdate : nat;
  row_properties : Doc;
  row_is_admin : option Z;
  row_mastodon_id : option MastodonId;
  row_original_actor_id : option string
}.

Record PublicKey : Type := {
  publicKey_id : string;
  publicKeyPem : string
}.

(** interface Actor *)
Record Actor : Type := {
  actor_type : string;
  actor_id : string;
  actor_url : string;
  actor_published : nat;
  actor_icon : Image;
  actor_image : Image;
  actor_summary : option string;
  actor_name : option string;
  actor_preferredUsername : option string;
  inbox : string;
  outbox : string;
  following : string;
  followers : string;
  actor_discoverable : bool;
  actor_publicKey : option PublicKey;
  actor_alsoKnownAs : option (list string);
  actor_isAdmin : bool;            (* [isAdminSymbol] *)
  actor_mastodonId : option MastodonId  (* [mastodonIdSymbol] *)
}.

(** Modelled from the spec: the object cache (objects module and its table)
    is not among the sources.  Section 4.3: a cached object has a canonical
    identifier and records both the original authoring actor
    ([originalActorIdSymbol]) and the actor that delivered it. *)
Record ApObject : Type := {
  object_id : string;
  object_type : string;
  object_originalActorId : option string;
  object_deliveredBy : string;
  object_inReplyTo : option string
}.

(** Modelled from the spec: the tables written by insertLike and
    createNotification (section 3: a Like edge is a (subject, object) pair;
    a notification is (kind, recipient, originating actor, subject)). *)
Record FavouriteRow : Type := {
  favourite_actor_id : string;
  favourite_object_id : string
}.

Record NotificationRow : Type := {
  notification_id : nat;
  notification_type : string;
  notification_actor_id : string;
  notification_from_actor_id : string;
  notification_object_id : string
}.

(** Modelled from the spec: a Follow edge (actor -> target actor). *)
Record FollowRow : Type := {
  follow_actor_id : string;
  follow_target_actor_id : string
}.

(** A row of [outbox_objects], with the columns statuses.ts reads. *)
Record OutboxRow : Type := {
  outbox_actor_id : string;
  outbox_object_id : string;
  outbox_target : string;
  outbox_cdate : nat;
  outbox_published_date : nat
}.

Record Database : Type := {
  actors : list ActorRow;
  peers : list string;
  objects : list ApObject;
  actor_favourites : list FavouriteRow;
  actor_notifications : list NotificationRow;
  actor_following : list FollowRow;
  outbox_objects : list OutboxRow;
  id_sequences : nat
}.

(** Effects of the Like handler, in the order the storage engine or the push
    transport performs them. *)
Inductive Event : Type :=
| NotificationCreated (id : nat)
| LikeStored (actorId objectId : string)
| PushRequested (id : nat).

Record World : Type := {
  db : Database;
  console : list string;   (* console.warn, oldest first *)
  clock : nat;
  trace : list Event       (* oldest first *)
}.

Definition set_db (d : Database) (w : World) : World :=
  {| db := d; console := console w; clock := clock w; trace := trace w |}.

Definition set_actors (l : list ActorRow) (d : Database) : Database :=
  {| actors := l; peers := peers d; objects := objects d;
     actor_favourites := actor_favourites d;
     actor_notifications := actor_notifications d;
     actor_following := actor_following d;
     outbox_objects := outbox_objects d; id_sequences := id_sequences d |}.

Definition set_peers (l : list string) (d : Database) : Database :=
  {| actors := actors d; peers := l; objects := objects d;
     actor_favourites := actor_favourites d;
     actor_notifications := actor_notifications d;
     actor_following := actor_following d;
     outbox_objects := outbox_objects d; id_sequences := id_sequences d |}.

Definition set_actor_favourites (l : list FavouriteRow) (d : Database) : Database :=
  {| actors := actors d; peers := peers d; objects := objects d;
     actor_favourites := l;
     actor_notifications := actor_notifications d;
     actor_following := actor_following d;
     outbox_objects := outbox_objects d; id_sequences := id_sequences d |}.

Definition set_actor_notifications (l : list NotificationRow) (d : Database) : Database :=
  {| actors := actors d; peers := peers d; objects := objects d;
     actor_favourites := actor_favourites d;
     actor_notifications := l;
     actor_following := actor_following d;
     outbox_objects := outbox_objects d; id_sequences := id_sequences d |}.

Definition set_id_sequences (n : nat) (d : Database) : Database :=
  {| actors := actors d; peers := peers d; objects := objects d;
     actor_favourites := actor_favourites d;
     actor_notifications := actor_notifications d;
     actor_following := actor_following d;
     outbox_objects := outbox_objects d; id_sequences := n |}.

(* ------------------------------------------------------------------ *)
(** ** The monad of asynchronous computations *)

Definition M (A : Type) : Type := World -> Res A * World.

Definition ret {A : Type} (a : A) : M A := fun w => (Ok a, w).

Definition throw {A : Type} (e : Exn) : M A := fun w => (Throw e, w).

Definition bind {A B : Type} (m : M A) (k : A -> M B) : M B :=
  fun w =>
    match m w with
    | (Ok a, w') => k a w'
    | (Throw e, w') => (Throw e, w')
    end.

Definition lift {A : Type} (r : Res A) : M A := fun w => (r, w).

Declare Scope async_scope.
Delimit Scope async_scope with async.
Notation "x <- m ;; k" := (bind m (fun x => k))
  (at level 61, m at next level, right associativity) : async_scope.
Notation "m ;;; k" := (bind m (fun _ => k))
  (at level 61, right associativity) : async_scope.
Local Open Scope async_scope.

(** [try { body } catch (err) { handler(err) }] *)
Definition try_catch {A : Type} (body : M A) (handler : Exn -> M A) : M A :=
  fun w =>
    match body w with
    | (Ok a, w') => (Ok a, w')
    | (Throw e, w') => handler e w'
    end.

Definition console_warn (msg : string) : M unit :=
  fun w => (Ok tt, {| db := db w; console := console w ++ [msg];
                      clock := clock w; trace := trace w |}).

Definition emit (e : Event) : M unit :=
  fun w => (Ok tt, {| db := db w; console := console w;
                      clock := clock w; trace := trace w ++ [e] |}).

(** [new Date()]: every reading of the clock is later than the one before. *)
Definition Date_now : M nat :=
  fun w => (Ok (clock w), {| db := db w; console := console w;
                             clock := S (clock w); trace := trace w |}).

Definition get_db : M Database := fun w => (Ok (db w), w).

Definition modify_db (f : Database -> Database) : M unit :=
  fun w => (Ok tt, set_db (f (db w)) w).

(* ------------------------------------------------------------------ *)
(** ** The platform and the parts of the repository taken as parameters *)

(** What [fetch] resolves to: [res.ok], [res.status] and the parsed body
    ([None] when [res.json()] rejects). *)
Record Response : Type := {
  res_ok : bool;
  res_status : nat;
  res_body : option Doc
}.

Record Platform : Type := {
  (** [new URL(s)]: the href, or [None] when the constructor throws. *)
  new_URL : string -> option string;
  (** [new URL(input, base)] *)
  new_URL_base : string -> string -> option string;
  (** [url.hostname] and [url.host] of a parsed URL *)
  URL_hostname : string -> string;
  URL_host : string -> string;
  (** The remote servers: [None] when [fetch] itself rejects. *)
  fetch : string -> option Response;
  (** sanitizeContent and getTextContent of the objects module. *)
  sanitizeContent : string -> string;
  getTextContent : string -> string;
  (** Whether the [actors] table (whose schema is not among the sources)
      declares its [id] column unique. *)
  actors_id_unique : bool;
  (** config/accounts: defaultImages *)
  defaultImages_avatar : string;
  defaultImages_header : string;
  (** Which of two statements issued together the storage engine performs
      first: [true] when the one issued first goes first. *)
  issue_order : bool;
  (** The push transport: whether delivering notification [n] to a
      recipient succeeds. *)
  push_delivered : string -> nat -> bool
}.

(** URL parsing is idempotent: the serialised form of a URL parses to
    itself. *)
Definition new_URL_idempotent (P : Platform) : Prop :=
  forall s href, new_URL P s = Some href -> new_URL P href = Some href.

(* ------------------------------------------------------------------ *)
(** ** backend/src/activitypub/actors/index.ts *)

Module Actors.
Section WithPlatform.

Variable P : Platform.

Definition PERSON : string := "Person".

(** [new URL(v)], where an undefined [v] is first converted to a string. *)
Definition URL (v : option string) : Res string :=
  match new_URL P (Js.interpolate v) with
  | Some href => Ok href
  | None => Throw (TypeError "Invalid URL")
  end.

Definition URL_with_base (input base : string) : Res string :=
  match new_URL_base P input base with
  | Some href => Ok href
  | None => Throw (TypeError "Invalid URL")
  end.

(** [actorURL]: the argument is either an object with a
    [perferredUsername] (sic) or a handle with a [localPart].  A caller
    that hands it a string instead makes the test
    ['perferredUsername' in obj] throw: the [in] operator does not take a
    primitive on its right. *)
Inductive ActorURLArg : Type :=
| WithUsername (perferredUsername : string)
| WithLocalPart (localPart : string)
| Primitive (value : string).

Definition actorURL (domain : string) (obj : ActorURLArg) : Res string :=
  match obj with
  | WithUsername u => URL_with_base ("/ap/users/" +++ u) ("https://" +++ domain)
  | WithLocalPart l => URL_with_base ("/ap/users/" +++ l) ("https://" +++ domain)
  | Primitive v =>
      Throw (TypeError ("Cannot use 'in' operator to search for 'perferredUsername' in "
                        +++ v))
  end.

(** [if (s.length > limit) s = s.substring(0, limit)] *)
Definition clamp (limit : nat) (s : string) : string :=
  if (limit <? String.length s)%nat then Js.substring0 limit s else s.

(** [if (v !== undefined) v = new URL(v)] *)
Definition URL_if_defined (v : option string) : Res (option string) :=
  match v with
  | Some s => (href <- URL (Some s) ;; Ok (Some href))%res
  | None => Ok None
  end.

Definition fetchActor (url : string) : M Doc :=
  match fetch P url with
  | None => throw (TypeError "fetch failed")
  | Some res =>
      if negb (res_ok res) then
        throw (Error (url +++ " returned: " +++ Js.string_of_nat (res_status res)))
      else
        match res_body res with
        | None => throw (SyntaxError "Unexpected token")
        | Some actor =>
            id <- lift (URL (doc_id actor)) ;;
            let summary :=
              if Js.truthy (doc_summary actor)
              then option_map (fun s => clamp 500 (sanitizeContent P s)) (doc_summary actor)
              else doc_summary actor in
            let name :=
              if Js.truthy (doc_name actor)
              then option_map (fun s => clamp 30 (getTextContent P s)) (doc_name actor)
              else doc_name actor in
            let preferredUsername :=
              if Js.truthy (doc_preferredUsername actor)
              then option_map (fun s => clamp 30 (getTextContent P s))
                     (doc_preferredUsername actor)
              else doc_preferredUsername actor in
            inbox <- lift (URL_if_defined (doc_inbox actor)) ;;
            following <- lift (URL_if_defined (doc_following actor)) ;;
            followers <- lift (URL_if_defined (doc_followers actor)) ;;
            outbox <- lift (URL_if_defined (doc_outbox actor)) ;;
            ret {| doc_id := Some id;
                   doc_type := doc_type actor;
                   doc_name := name;
                   doc_summary := summary;
                   doc_preferredUsername := preferredUsername;
                   doc_icon := doc_icon actor;
                   doc_image := doc_image actor;
                   doc_inbox := inbox;
                   doc_outbox := outbox;
                   doc_following := following;
                   doc_followers := followers;
                   doc_alsoKnownAs := doc_alsoKnownAs actor |}
        end
  end.

(** The endpoint stored in the properties, or the default the source
    builds from the actor's identifier. *)
Definition endpoint (stored : option string) (id suffix : string) : string :=
  match stored with
  | Some e => e
  | None => id +++ suffix
  end.

(** The properties are the parsed [row.properties]; the creation date of a
    row is a valid time, so that formatting it does not throw. *)
Definition actorFromRow (row : ActorRow) : Res Actor :=
  (let properties := row_properties row in
   icon <- match doc_icon properties with
           | Some i => Ok i
           | None =>
               url <- URL (Some (defaultImages_avatar P)) ;;
               id <- URL (Some (row_id row +++ "#icon")) ;;
               Ok {| image_type := Some "Image"; image_mediaType := Some "image/jpeg";
                     image_url := url; image_id := Some id |}
           end ;;
   image <- match doc_image properties with
            | Some i => Ok i
            | None =>
                url <- URL (Some (defaultImages_header P)) ;;
                id <- URL (Some (row_id row +++ "#image")) ;;
                Ok {| image_type := Some "Image"; image_mediaType := Some "image/jpeg";
                      image_url := url; image_id := Some id |}
            end ;;
   let preferredUsername := doc_preferredUsername properties in
   let name := Js.nullish (doc_name properties) preferredUsername in
   let publicKey :=
     match row_pubkey row with
     | Some pem => Some {| publicKey_id := row_id row +++ "#main-key"; publicKeyPem := pem |}
     | None => None
     end in
   id <- URL (Some (row_id row)) ;;
   domain <- (if Js.truthy (row_original_actor_id row)
              then (o <- URL (row_original_actor_id row) ;; Ok (URL_hostname P o))
              else Ok (URL_hostname P id)) ;;
   url <- URL_with_base ("@" +++ Js.interpolate preferredUsername) ("https://" +++ domain) ;;
   Ok {| actor_type := row_type row;
         actor_id := id;
         actor_url := url;
         actor_published := row_cdate row;
         actor_icon := icon;
         actor_image := image;
         actor_summary := doc_summary properties;
         actor_name := name;
         actor_preferredUsername := preferredUsername;
         inbox := endpoint (doc_inbox properties) id "/inbox";
         outbox := endpoint (doc_outbox properties) id "/outbox";
         following := endpoint (doc_following properties) id "/following";
         followers := endpoint (doc_followers properties) id "/followers";
         actor_discoverable := true;
         actor_publicKey := publicKey;
         actor_alsoKnownAs := doc_alsoKnownAs properties;
         actor_isAdmin := match row_is_admin row with
                          | Some 1%Z => true
                          | _ => false
                          end;
         actor_mastodonId := row_mastodon_id row |})%res.

(** *** Storage statements *)

(** Modelled from the spec: generateMastodonId is not among the sources.
    Section 4.1: identifiers are ordered by creation time and made unique
    by a monotonic counter. *)
Definition generateMastodonId (table : string) (now : nat) : M MastodonId :=
  fun w =>
    (Ok (now, id_sequences (db w)),
     set_db (set_id_sequences (S (id_sequences (db w))) (db w)) w).

Definition with_mastodon_id (m : option MastodonId) (row : ActorRow) : ActorRow :=
  {| row_id := row_id row; row_type := row_type row; row_email := row_email row;
     row_pubkey := row_pubkey row; row_cdate := row_cdate row;
     row_properties := row_properties row; row_is_admin := row_is_admin row;
     row_mastodon_id := m; row_original_actor_id := row_original_actor_id row |}.

(** [UPDATE actors SET mastodon_id = ? WHERE id = ?] *)
Definition update_mastodon_id (m : MastodonId) (id : string) (rows : list ActorRow)
  : list ActorRow :=
  map (fun r => if (row_id r =? id)%string then with_mastodon_id (Some m) r else r) rows.

Definition setMastodonId (actorId : string) (cdate : nat) : M MastodonId :=
  mastodonId <- generateMastodonId "actors" cdate ;;
  modify_db (fun d => set_actors (update_mastodon_id mastodonId actorId (actors d)) d) ;;;
  ret mastodonId.

(** [SELECT * FROM actors WHERE ...] *)
Definition select_actors (cond : ActorRow -> bool) : M (list ActorRow) :=
  fun w => (Ok (filter cond (actors (db w))), w).

Definition has_id (id : string) (r : ActorRow) : bool := (row_id r =? id)%string.

(** [INSERT INTO actors (id, type, cdate, properties, mastodon_id)
    VALUES (?, ?, ?, ?, ?) RETURNING type]: a plain insert, rejected by
    the storage engine when the identifier is declared unique and already
    present. *)
Definition insert_actor (id type : string) (cdate : nat) (properties : Doc)
    (mastodonId : MastodonId) : M string :=
  fun w =>
    if actors_id_unique P && existsb (has_id id) (actors (db w)) then
      (Throw (ConstraintError "UNIQUE constraint failed: actors.id"), w)
    else
      (Ok type,
       set_db (set_actors
                 (actors (db w) ++
                  [{| row_id := id; row_type := type; row_email := None;
                      row_pubkey := None; row_cdate := cdate;
                      row_properties := properties; row_is_admin := None;
                      row_mastodon_id := Some mastodonId;
                      row_original_actor_id := None |}])
                 (db w)) w).

(** Modelled from the spec: addPeer is not among the sources.  Section
    4.2: registering the origin host is an idempotent upsert. *)
Definition addPeer (domain : string) : M unit :=
  modify_db (fun d =>
    if existsb (String.eqb domain) (peers d) then d
    else set_peers (peers d ++ [domain]) d).

(** *** getActorById, getPersonByEmail, getAndCache *)

Definition row_with_mastodon_id (row : ActorRow) : M ActorRow :=
  match row_mastodon_id row with
  | Some m => ret row
  | None =>
      m <- setMastodonId (row_id row) (row_cdate row) ;;
      ret (with_mastodon_id (Some m) row)
  end.

Definition getActorById (id : string) : M (option Actor) :=
  results <- select_actors (has_id id) ;;
  match results with
  | [] => ret None
  | row :: _ =>
      row' <- row_with_mastodon_id row ;;
      actor <- lift (actorFromRow row') ;;
      ret (Some actor)
  end.

Definition getPersonByEmail (email : string) : M (option Actor) :=
  results <- select_actors (fun r =>
               match row_email r with
               | Some e => (e =? email)%string && (row_type r =? PERSON)%string
               | None => false
               end) ;;
  match results with
  | [] => ret None
  | row :: _ =>
      row' <- row_with_mastodon_id row ;;
      actor <- lift (actorFromRow row') ;;
      ret (Some actor)
  end.

(** The part of getAndCache after the remote document has been fetched:
    validation, insertion and peer registration.  [actor.id] is by then the
    URL object fetchActor stored, which is truthy whenever it is there. *)
Definition cache_fetched (actor : Doc) : M Actor :=
  match doc_id actor with
  | Some id =>
      if negb (Js.truthy (doc_type actor)) || negb (Js.defined (doc_id actor)) then
        throw (Error "missing fields on Actor")
      else
        let type := Js.interpolate (doc_type actor) in
        now <- Date_now ;;
        mastodonId <- generateMastodonId "actors" now ;;
        row_type <- insert_actor id type now actor mastodonId ;;
        addPeer (URL_host P id) ;;;
        lift (actorFromRow
                {| row_id := id; row_type := row_type; row_email := None;
                   row_pubkey := None; row_cdate := now; row_properties := actor;
                   row_is_admin := None; row_mastodon_id := Some mastodonId;
                   row_original_actor_id := None |})
  | None => throw (Error "missing fields on Actor")
  end.

(** Get and cache the Actor locally *)
Definition getAndCache (url : string) : M Actor :=
  cached <- getActorById url ;;
  match cached with
  | Some actor => ret actor
  | None =>
      actor <- fetchActor url ;;
      cache_fetched actor
  end.

End WithPlatform.
End Actors.

(* ------------------------------------------------------------------ *)
(** ** backend/src/activitypub/activities/like.ts *)

Module Like.
Section WithPlatform.

Variable P : Platform.

(** A Like activity.  [like_actor] and [like_object] are the references
    the activity carries; getAPId (objects module, not among the sources)
    gives the identifier of a reference, and references are represented
    here by that identifier. *)
Record LikeActivity : Type := {
  like_id : string;
  like_actor : string;
  like_object : string
}.

Definition getAPId (reference : string) : string := reference.

Definition has_object_id (id : string) (o : ApObject) : bool :=
  (object_id o =? id)%string.

(** Modelled from the spec: getObjectById is not among the sources.
    Section 4.3: the object cache is looked up by canonical identifier;
    the lookup reads and does not fetch. *)
Definition getObjectById (id : string) : M (option ApObject) :=
  fun w => (Ok (find (has_object_id id) (objects (db w))), w).

Definition is_notification (type actorId fromActorId objectId : string)
    (n : NotificationRow) : bool :=
  (notification_type n =? type)%string
  && (notification_actor_id n =? actorId)%string
  && (notification_from_actor_id n =? fromActorId)%string
  && (notification_object_id n =? objectId)%string.

(** Modelled from the spec: createNotification is not among the sources.
    Section 4.5: emit(kind, recipient, origin, subject) persists the
    notification row and returns its identifier.  Section 3: a
    notification is created once and must not be duplicated when its
    activity is redelivered; there is never a second one for the same
    (kind, recipient, originating actor, subject).  So a call that finds
    the row of its tuple returns that row's identifier and persists
    nothing.  The event records that the statement was performed. *)
Definition createNotification (type : string) (actor fromActor : Actor)
    (obj : ApObject) : M nat :=
  d <- get_db ;;
  id <- match find (is_notification type (actor_id actor) (actor_id fromActor)
                      (object_id obj)) (actor_notifications d) with
        | Some n => ret (notification_id n)
        | None =>
            let id := S (List.length (actor_notifications d)) in
            modify_db (fun d =>
              set_actor_notifications
                (actor_notifications d ++
                 [{| notification_id := id;
                     notification_type := type;
                     notification_actor_id := actor_id actor;
                     notification_from_actor_id := actor_id fromActor;
                     notification_object_id := object_id obj |}]) d) ;;;
            ret id
        end ;;
  emit (NotificationCreated id) ;;;
  ret id.

Definition is_like (actorId objectId : string) (f : FavouriteRow) : bool :=
  (favourite_actor_id f =? actorId)%string && (favourite_object_id f =? objectId)%string.

(** Modelled from the spec: insertLike is not among the sources.  Section
    4.4: the insertion of a Like edge (subject, object) is a no-op when
    the edge already exists. *)
Definition insertLike (actor : Actor) (obj : ApObject) : M unit :=
  modify_db (fun d =>
    if existsb (is_like (actor_id actor) (object_id obj)) (actor_favourites d) then d
    else set_actor_favourites
           (actor_favourites d ++
            [{| favourite_actor_id := actor_id actor;
                favourite_object_id := object_id obj |}]) d) ;;;
  emit (LikeStored (actor_id actor) (object_id obj)).

(** Modelled from the spec: sendLikeNotification is not among the
    sources.  Section 4.5: the push request is best effort, with its own
    error handling: a failed delivery is logged and not raised. *)
Definition sendLikeNotification (fromActor actor : Actor) (notificationId : nat)
  : M unit :=
  emit (PushRequested notificationId) ;;;
  if push_delivered P (actor_id actor) notificationId then ret tt
  else console_warn "failed to send push notification".

(** [Promise.all([p, q])]: both are started; the storage engine performs
    their statements in the order the platform chooses.  The result
    rejects when either does, after both have run. *)
Definition Promise_all2 {A B : Type} (p : M A) (q : M B) : M (A * B) :=
  fun w =>
    if issue_order P then
      let (ra, w1) := p w in
      let (rb, w2) := q w1 in
      (match ra, rb with
       | Ok a, Ok b => Ok (a, b)
       | Throw e, _ => Throw e
       | _, Throw e => Throw e
       end, w2)
    else
      let (rb, w1) := q w in
      let (ra, w2) := p w1 in
      (match rb, ra with
       | Ok b, Ok a => Ok (a, b)
       | Throw e, _ => Throw e
       | _, Throw e => Throw e
       end, w2).

Definition handleLikeActivity (activity : LikeActivity) : M unit :=
  let objectId := getAPId (like_object activity) in
  let actorId := getAPId (like_actor activity) in
  obj <- getObjectById objectId ;;
  match obj with
  | None => console_warn "unknown object"
  | Some obj =>
      if negb (Js.truthy (object_originalActorId obj)) then
        console_warn "unknown object"
      else
        fromActor <- Actors.getAndCache P actorId ;;
        originalActorId <- lift (Actors.URL P (object_originalActorId obj)) ;;
        targetActor <- Actors.getActorById P originalActorId ;;
        match targetActor with
        | None => console_warn "object actor not found"
        | Some targetActor =>
            r <- Promise_all2
                   (* Notify the user *)
                   (createNotification "favourite" targetActor fromActor obj)
                   (* Store the like for counting *)
                   (insertLike fromActor obj) ;;
            let notifId := fst r in
            sendLikeNotification fromActor targetActor notifId
        end
  end.

End WithPlatform.
End Like.

(* ------------------------------------------------------------------ *)
(** ** Collection pages: shared definitions *)

(** utils/handle, utils/parse: a parsed account handle. *)
Record Handle : Type := {
  handle_localPart : string;
  handle_domain : option string
}.

(** [for (const x of xs) { out.push(await f(x)) }]: stops at the first
    rejection. *)
Fixpoint for_each {A B : Type} (f : A -> M B) (xs : list A) : M (list B) :=
  match xs with
  | [] => ret []
  | x :: rest =>
      y <- f x ;;
      ys <- for_each f rest ;;
      ret (y :: ys)
  end.

(** [LIMIT limit OFFSET offset]: a negative limit is no limit, a negative
    offset is no offset. *)
Definition sql_limit_offset {A : Type} (limit offset : Z) (rows : list A) : list A :=
  let rows := skipn (Z.to_nat offset) rows in
  if (limit <? 0)%Z then rows else firstn (Z.to_nat limit) rows.

(* ------------------------------------------------------------------ *)
(** ** functions/api/v1/accounts/[id]/followers.ts *)

Module Followers.
Section WithPlatform.

Variable P : Platform.

(** Types and functions of the repository that are not among the sources:
    the client view of an account and its two loaders (mastodon/account),
    actorToHandle (utils/handle), isLocalAccount (accounts/getAccount),
    getActorByMastodonId, getFollowers and loadActors (actors/follow). *)
Variable MastodonAccount : Type.
Variable loadLocalMastodonAccount : Actor -> M MastodonAccount.
Variable loadExternalMastodonAccount : Actor -> Handle -> M MastodonAccount.
Variable actorToHandle : Actor -> Handle.
Variable isLocalAccount : string -> Handle -> bool.
Variable getActorByMastodonId : string -> M (option Actor).
Variable getFollowers : Actor -> Z -> M (list string).
Variable loadActors : list string -> M (list Actor).

(** The value a request gives for [limit]: nothing, an integer, or
    anything else (a non-integral number, a string, ...). *)
Inductive Param : Type :=
| Absent
| Integer (z : Z)
| Invalid.

(** [z.object({ limit: z.number().int().min(1).max(80).default(40) })]:
    the parsed parameters, or [None] when validation fails. *)
Definition schema (limit : Param) : option Z :=
  match limit with
  | Absent => Some 40%Z
  | Integer z => if (1 <=? z)%Z && (z <=? 80)%Z then Some z else None
  | Invalid => None
  end.

Record Request : Type := {
  request_hostname : string;      (* new URL(request.url).hostname *)
  request_limit : Param
}.

(** readParams (utils) validates the request's parameters against the
    schema. *)
Definition readParams (request : Request) : option Z := schema (request_limit request).

Inductive ApiResponse : Type :=
| ResourceNotFound (name value : string)
| JsonResponse (accounts : list MastodonAccount).

Definition follows (target : string) (f : FollowRow) : bool :=
  (follow_target_actor_id f =? target)%string.

(** Modelled from the spec: getFollowerIds (mastodon/follow) is not among
    the sources.  Section 4.6: the followers of a local actor in
    insertion order, at most the page size when one is given. *)
Definition getFollowerIds (actor : Actor) (limit : option Z) : M (list string) :=
  fun w =>
    let ids := map follow_actor_id
                 (filter (follows (actor_id actor)) (actor_following (db w))) in
    (Ok (match limit with
         | Some n => sql_limit_offset n 0 ids
         | None => ids
         end), w).

(** [err.message] *)
Definition exn_message (e : Exn) : string :=
  match e with
  | Error m | TypeError m | SyntaxError m | ConstraintError m => m
  end.

(** [await Promise.all(promises)] over promises that only read. *)
Definition Promise_all {A : Type} (promises : list (M A)) : M (list A) :=
  for_each (fun p => p) promises.

Definition get (domain : string) (actor : Actor) (limit : Z) : M ApiResponse :=
  if isLocalAccount domain (actorToHandle actor) then
    followerIds <- getFollowerIds actor (Some limit) ;;
    promises <- for_each (fun id =>
        try_catch
          (url <- lift (Actors.URL P (Some id)) ;;
           follower <- Actors.getAndCache P url ;;
           let handle := actorToHandle follower in
           if isLocalAccount domain handle then
             ret (loadLocalMastodonAccount follower)
           else
             ret (loadExternalMastodonAccount follower handle))
          (fun err =>
             console_warn ("failed to retrieve follower (" +++ id +++ "): "
                           +++ exn_message err) ;;;
             throw err)) followerIds ;;
    accounts <- Promise_all promises ;;
    ret (JsonResponse accounts)
  else
    ids <- getFollowers actor limit ;;
    followers <- loadActors ids ;;
    let promises :=
      map (fun follower =>
             let handle := actorToHandle follower in
             if isLocalAccount domain handle then
               loadLocalMastodonAccount follower
             else
               loadExternalMastodonAccount actor handle) followers in
    accounts <- Promise_all promises ;;
    ret (JsonResponse accounts).

Definition handleRequest (domain : string) (id : string) (limit : Z) : M ApiResponse :=
  actor <- getActorByMastodonId id ;;
  match actor with
  | None => ret (ResourceNotFound "id" id)
  | Some actor => get domain actor limit
  end.

(** [id] is [None] when the route parameter is not a single string. *)
Definition onRequestGet (id : option string) (request : Request) : M ApiResponse :=
  match id with
  | None => ret (ResourceNotFound "id" "")
  | Some id =>
      match readParams request with
      | None => throw (Error "failed to read params")
      | Some limit => handleRequest (request_hostname request) id limit
      end
  end.

End WithPlatform.
End Followers.

(* ------------------------------------------------------------------ *)
(** ** functions/api/v1/accounts/[id]/statuses.ts *)

Module Statuses.
Section WithPlatform.

Variable P : Platform.

(** The client view of a status (types), not among the sources. *)
Variable MastodonStatus : Type.

(** An activity of a remote outbox. *)
Record Activity : Type := {
  activity_type : string;
  activity_actor : string;
  activity_object : ApObject
}.

(** A row of the statuses query: the object joined with its outbox entry
    and the publishing actor. *)
Record StatusRow : Type := {
  status_object : ApObject;
  status_actor : ActorRow;
  status_outbox : OutboxRow
}.

(** Functions of the repository that are not among the sources. *)
Variable parseHandle : string -> Handle.
Variable adjustLocalHostDomain : string -> string.
Variable toMastodonStatusFromRow : string -> StatusRow -> M (option MastodonStatus).
Variable toMastodonStatusFromObject : ApObject -> string -> M (option MastodonStatus).
Variable queryAcctLink : string -> string -> M (option string).
Variable outbox_get : Actor -> Z -> M (list Activity).
Variable cacheObject : string -> ApObject -> string -> string -> M (option ApObject).
Variable objects_get : string -> M ApObject.

(** The client view of an account and its loader (mastodon/account), as
    statuses.ts calls it. *)
Variable MastodonAccount : Type.
Variable loadExternalMastodonAccount : string -> Actor -> M MastodonAccount.

Definition PUBLIC_GROUP : string := "https://www.w3.org/ns/activitystreams#Public".

Definition DEFAULT_LIMIT : Z := 20.

Record Request : Type := {
  request_hostname : string;                    (* new URL(request.url).hostname *)
  request_searchParams : list (string * string)
}.

(** [url.searchParams.get(name)]: the first value, or null. *)
Definition searchParams_get (request : Request) (name : string) : option string :=
  match find (fun kv => (fst kv =? name)%string) (request_searchParams request) with
  | Some kv => Some (snd kv)
  | None => None
  end.

Inductive Response : Type :=
| Json (statuses : list MastodonStatus)        (* 200, JSON body *)
| Empty (status : nat)                         (* new Response('', { status }) *)
| StatusNotFound (id : string).                (* errors.statusNotFound(id) *)

(** The page size and the offset read by handleRequest. *)
Definition request_limit (request : Request) : Z :=
  Js.abs_or
    (Js.parseInt (match searchParams_get request "limit" with
                  | Some s => s
                  | None => "0"
                  end))
    DEFAULT_LIMIT.

Definition request_offset (request : Request) : option Z :=
  Js.parseInt (match searchParams_get request "offset" with
               | Some s => s
               | None => "0"
               end).

(** [ORDER BY published_date DESC] *)
Fixpoint insert_by_date (r : StatusRow) (sorted : list StatusRow) : list StatusRow :=
  match sorted with
  | [] => [r]
  | s :: rest =>
      if (outbox_published_date (status_outbox s) <? outbox_published_date (status_outbox r))%nat
      then r :: s :: rest
      else s :: insert_by_date r rest
  end.

Definition order_by_published_date_desc (rows : list StatusRow) : list StatusRow :=
  fold_right insert_by_date [] rows.

(** The rows of QUERY before LIMIT and OFFSET. *)
Definition statuses_rows (d : Database) (withReplies : bool) (actorId : string)
    (afterCdate : nat) : list StatusRow :=
  order_by_published_date_desc
    (flat_map (fun o =>
       flat_map (fun obj =>
         map (fun a => {| status_object := obj; status_actor := a; status_outbox := o |})
             (filter (Actors.has_id (outbox_actor_id o)) (actors d)))
         (filter (fun obj =>
                    (object_id obj =? outbox_object_id o)%string
                    && (object_type obj =? "Note")%string
                    && (withReplies || negb (Js.defined (object_inReplyTo obj))))
                 (objects d)))
       (filter (fun o =>
                  (outbox_target o =? PUBLIC_GROUP)%string
                  && (outbox_actor_id o =? actorId)%string
                  && (afterCdate <? outbox_cdate o)%nat)
               (outbox_objects d))).

(** Running QUERY: the statement fails when the offset is not an
    integer (NaN). *)
Definition run_query (withReplies : bool) (actorId : string) (afterCdate : nat)
    (limit : Z) (offset : option Z) : M (list StatusRow) :=
  match offset with
  | None => throw (Error "SQL error: datatype mismatch")
  | Some offset =>
      fun w => (Ok (sql_limit_offset limit offset
                      (statuses_rows (db w) withReplies actorId afterCdate)), w)
  end.

(** The loop that converts rows and keeps the non-null statuses. *)
Fixpoint collect_statuses (domain : string) (results : list StatusRow)
  : M (list MastodonStatus) :=
  match results with
  | [] => ret []
  | row :: rest =>
      status <- toMastodonStatusFromRow domain row ;;
      out <- collect_statuses domain rest ;;
      ret (match status with
           | Some s => s :: out
           | None => out
           end)
  end.

(** statuses.ts hands the string [handle.localPart], not the handle, to
    actorURL. *)
Definition getLocalStatuses (request : Request) (handle : Handle) (offset : option Z)
    (withReplies : bool) (limit : Z) : M Response :=
  let domain := request_hostname request in
  actorId <- lift (Actors.actorURL P (adjustLocalHostDomain domain)
                     (Actors.Primitive (handle_localPart handle))) ;;
  let isPinned :=
    match searchParams_get request "pinned" with
    | Some v => (v =? "true")%string
    | None => false
    end in
  if isPinned then ret (Json [])
  else
    let query afterCdate :=
      results <- run_query withReplies actorId afterCdate limit offset ;;
      out <- collect_statuses domain results ;;
      ret (Json out) in
    match searchParams_get request "max_id" with
    | Some maxId =>
        d <- get_db ;;
        match find (fun o => (outbox_object_id o =? maxId)%string) (outbox_objects d) with
        | None => ret (StatusNotFound maxId)
        | Some row => query (outbox_cdate row)
        end
    | None => query 0
    end.

Definition isNote (obj : ApObject) : bool := (object_type obj =? "Note")%string.

Definition status_of_activity (domain : string) (activity : Activity)
  : M (option MastodonStatus) :=
  let actorId := Like.getAPId (activity_actor activity) in
  let objectId := Like.getAPId (object_id (activity_object activity)) in
  if (activity_type activity =? "Create")%string then
    res <- cacheObject domain (activity_object activity) actorId objectId ;;
    match res with
    | Some obj => toMastodonStatusFromObject obj domain
    | None => throw (TypeError "Cannot read properties of null")
    end
  else if (activity_type activity =? "Announce")%string then
    localObject <- Like.getObjectById objectId ;;
    obj <- match localObject with
           | None =>
               try_catch
                 (remoteObject <- objects_get objectId ;;
                  cacheObject domain remoteObject actorId objectId)
                 (fun err =>
                    console_warn ("failed to retrieve object " +++ objectId +++ ": "
                                  +++ Followers.exn_message err) ;;;
                    ret None)
           | Some o => ret (Some o)
           end ;;
    match obj with
    | None => ret None
    | Some obj =>
        if negb (isNote obj) then
          console_warn ("object type is not 'Note' " +++ object_type obj) ;;;
          ret None
        else toMastodonStatusFromObject obj domain
    end
  else
    console_warn ("unsupported activity type: " +++ activity_type activity) ;;;
    ret None.

Definition getRemoteStatuses (request : Request) (localPart domain : string) (limit : Z)
  : M Response :=
  let isPinned :=
    match searchParams_get request "pinned" with
    | Some v => (v =? "true")%string
    | None => false
    end in
  if isPinned then ret (Json [])
  else
    let acct := localPart +++ "@" +++ domain in
    link <- queryAcctLink domain acct ;;
    match link with
    | None => console_warn "link is null" ;;; ret (Empty 404)
    | Some link =>
        actor <- Actors.getAndCache P link ;;
        activities <- outbox_get actor limit ;;
        (* TODO: use account *)
        loadExternalMastodonAccount acct actor ;;;
        statuses <- for_each (status_of_activity (request_hostname request)) activities ;;
        ret (Json (flat_map (fun s => match s with Some x => [x] | None => [] end) statuses))
    end.

Definition handleRequest (request : Request) (id : string) : M Response :=
  let handle := parseHandle id in
  let domain := request_hostname request in
  let offset := request_offset request in
  let limit := request_limit request in
  let withReplies :=
    option_map (fun v => (v =? "true")%string) (searchParams_get request "with-replies") in
  let excludeReplies :=
    option_map (fun v => (v =? "true")%string) (searchParams_get request "exclude_replies") in
  match handle_domain handle with
  | None =>
      getLocalStatuses request handle offset
        (match Js.nullish withReplies excludeReplies with Some b => b | None => false end)
        limit
  | Some d =>
      if (d =? domain)%string then
        getLocalStatuses request handle offset
          (match Js.nullish withReplies excludeReplies with Some b => b | None => false end)
          limit
      else
        getRemoteStatuses request (handle_localPart handle) d limit
  end.

End WithPlatform.
End Statuses.

(* ------------------------------------------------------------------ *)
(** ** backend/src/activitypub/actors/index.ts: createPerson *)

Module Person.

(** utils/key-ops, not among the sources: the key pair of a user, its
    private key wrapped with the key-encryption key. *)
Record UserKeyPair : Type := {
  wrappedPrivKey : list Byte.byte;
  salt : list Byte.byte;
  pubKey : string
}.

(** The columns [privkey] and [privkey_salt] of an actor row: createPerson
    writes them and no function above reads them, so they are kept beside
    the rows rather than in [ActorRow]. *)
Record KeyRow : Type := {
  key_actor_id : string;
  key_privkey : list Byte.byte;
  key_privkey_salt : list Byte.byte
}.

(** The database with these columns and the [actor_preferences] table. *)
Record Store : Type := {
  store_world : World;
  actor_keys : list KeyRow;
  actor_preferences : list string
}.

(** Computations over the store. *)
Definition St (A : Type) : Type := Store -> Res A * Store.

Definition st_bind {A B : Type} (m : St A) (k : A -> St B) : St B :=
  fun s =>
    match m s with
    | (Ok a, s') => k a s'
    | (Throw e, s') => (Throw e, s')
    end.

Definition st_lift {A : Type} (r : Res A) : St A := fun s => (r, s).

(** A computation that only uses the tables of the world. *)
Definition in_world {A : Type} (m : M A) : St A :=
  fun s =>
    let (r, w) := m (store_world s) in
    (r, {| store_world := w; actor_keys := actor_keys s;
           actor_preferences := actor_preferences s |}).

Declare Scope store_scope.
Delimit Scope store_scope with store.
Notation "x <- m ;; k" := (st_bind m (fun x => k))
  (at level 61, m at next level, right associativity) : store_scope.
Notation "m ;;; k" := (st_bind m (fun _ => k))
  (at level 61, right associativity) : store_scope.

(** [s.split('@')[0]] *)
Fixpoint split_head (s : string) : string :=
  match s with
  | String c r => if Ascii.eqb c "@" then "" else String c (split_head r)
  | EmptyString => ""
  end.

Section WithPlatform.

Variable P : Platform.

(** generateUserKey (utils/key-ops): the key pair a call resolves to. *)
Variable generateUserKey : string -> Res UserKeyPair.

(** [INSERT INTO actors(id, type, cdate, email, pubkey, privkey,
    privkey_salt, properties, is_admin, mastodon_id) VALUES(...)
    RETURNING *]: a plain insert, rejected by the storage engine when the
    identifier is declared unique and already present. *)
Definition insert_person (row : ActorRow) (privkey salt : list Byte.byte) : St ActorRow :=
  fun s =>
    let w := store_world s in
    if actors_id_unique P && existsb (Actors.has_id (row_id row)) (actors (db w)) then
      (Throw (ConstraintError "UNIQUE constraint failed: actors.id"), s)
    else
      (Ok row,
       {| store_world := set_db (set_actors (actors (db w) ++ [row]) (db w)) w;
          actor_keys := actor_keys s ++
                        [{| key_actor_id := row_id row; key_privkey := privkey;
                            key_privkey_salt := salt |}];
          actor_preferences := actor_preferences s |}).

(** [INSERT INTO actor_preferences(id) VALUES(?)] *)
Definition insert_preferences (id : string) : St unit :=
  fun s =>
    (Ok tt, {| store_world := store_world s; actor_keys := actor_keys s;
               actor_preferences := actor_preferences s ++ [id] |}).

(** The properties after createPerson has filled in what the caller left
    undefined. *)
Definition person_properties (properties : Doc) (preferredUsername id : string) : Doc :=
  {| doc_id := doc_id properties;
     doc_type := doc_type properties;
     doc_name := doc_name properties;
     doc_summary := doc_summary properties;
     doc_preferredUsername := Some preferredUsername;
     doc_icon := doc_icon properties;
     doc_image := doc_image properties;
     doc_inbox := Some (Actors.endpoint (doc_inbox properties) id "/inbox");
     doc_outbox := Some (Actors.endpoint (doc_outbox properties) id "/outbox");
     doc_following := Some (Actors.endpoint (doc_following properties) id "/following");
     doc_followers := Some (Actors.endpoint (doc_followers properties) id "/followers");
     doc_alsoKnownAs := doc_alsoKnownAs properties |}.

(** Create a local user.  The wrapped key and the salt are stored as the
    same bytes on every platform, in a platform-dependent container; a
    [preferredUsername] is a string by its type here. *)
Definition createPerson (domain userKEK email : string) (properties : Doc)
    (admin : bool) : St Actor :=
  (userKeyPair <- st_lift (generateUserKey userKEK) ;;
   let privkey := wrappedPrivKey userKeyPair in
   let salt := salt userKeyPair in
   let preferredUsername :=
     match doc_preferredUsername properties with
     | Some u => u
     | None => split_head email
     end in
   id <- st_lift (Actors.actorURL P domain (Actors.WithUsername preferredUsername)) ;;
   let properties := person_properties properties preferredUsername id in
   now <- in_world Date_now ;;
   mastodonId <- in_world (Actors.generateMastodonId "actors" now) ;;
   row <- insert_person
            {| row_id := id; row_type := Actors.PERSON; row_email := Some email;
               row_pubkey := Some (pubKey userKeyPair); row_cdate := now;
               row_properties := properties;
               row_is_admin := if admin then Some 1%Z else None;
               row_mastodon_id := Some mastodonId;
               row_original_actor_id := None |}
            privkey salt ;;
   insert_preferences id ;;;
   st_lift (Actors.actorFromRow P row))%store.

End WithPlatform.
End Person.

(* ------------------------------------------------------------------ *)
(** ** functions/ap/users/[id]/followers/page.ts *)

Module FollowersPage.
Section WithPlatform.

Variable P : Platform.

(** utils/handle, not among the sources. *)
Variable parseHandle : string -> Handle.
Variable isLocalHandle : Handle -> bool.

(** The page that is serialised into the response. *)
Record OrderedCollectionPage : Type := {
  page_id : string;
  page_type : string;
  page_partOf : string;
  page_orderedItems : list string;
  page_prev : string
}.

Inductive Response : Type :=
| Empty (status : nat)                     (* new Response('', { status }) *)
| Json (out : OrderedCollectionPage).      (* 200, JSON body *)

Definition handleRequest (domain id : string) : M Response :=
  let handle := parseHandle id in
  if negb (isLocalHandle handle) then ret (Empty 403)
  else
    actorId <- lift (Actors.actorURL P domain
                       (Actors.WithLocalPart (handle_localPart handle))) ;;
    actor <- Actors.getActorById P actorId ;;
    match actor with
    | None => ret (Empty 404)
    | Some actor =>
        followers_ids <- Followers.getFollowerIds actor None ;;
        id <- lift (Actors.URL P (Some (followers actor +++ "/page"))) ;;
        ret (Json {| page_id := id;
                     page_type := "OrderedCollectionPage";
                     page_partOf := followers actor;
                     page_orderedItems := followers_ids;
                     page_prev := "https://example.com/todo" |})
    end.

End WithPlatform.
End FollowersPage.

(* ------------------------------------------------------------------ *)
(** ** Notions used to state the properties *)

(** The persisted actor rows whose identifier is [id]. *)
Definition rows_for (id : string) (d : Database) : list ActorRow :=
  filter (Actors.has_id id) (actors d).

(** The Like edges of a (subject, object) pair, and the notifications of a
    (kind, recipient, origin, subject) tuple. *)
Definition likes_of (actorId objectId : string) (d : Database) : list FavouriteRow :=
  filter (Like.is_like actorId objectId) (actor_favourites d).

Definition notifications_of (type actorId fromActorId objectId : string) (d : Database)
  : list NotificationRow :=
  filter (Like.is_notification type actorId fromActorId objectId) (actor_notifications d).


(** [X] is a canonical identifier: it is a URL in serialised form, and the
    document the remote server has for it declares [X] as its [id]. *)
Definition canonical (P : Platform) (X : string) : Prop :=
  new_URL P X = Some X /\
  forall res doc,
    fetch P X = Some res -> res_ok res = true -> res_body res = Some doc ->
    new_URL P (Js.interpolate (doc_id doc)) = Some X.

(** A row is published no later than the one before it. *)
Definition not_newer (a b : Statuses.StatusRow) : Prop :=
  outbox_published_date (Statuses.status_outbox b)
    <= outbox_published_date (Statuses.status_outbox a).

(** The remote fetch for [url] fails, or the fetched document lacks a type
    or an identifier. *)
Definition resolution_fails (P : Platform) (url : string) : Prop :=
  exists res,
    fetch P url = Some res /\
    (res_ok res = false \/
     exists doc, res_body res = Some doc /\ (doc_type doc = None \/ doc_id doc = None)).

(** What fetchActor does to a text field: untouched when absent or empty,
    otherwise sanitised by [f] and cut to [limit] characters. *)
Definition clamped (limit : nat) (f : string -> string)
    (before after : option string) : Prop :=
  match before with
  | None => after = None
  | Some s =>
      if (s =? "")%string then after = Some s
      else exists t,
          after = Some t /\
          String.length t <= limit /\
          (limit < String.length (f s) ->
             t = Js.substring0 limit (f s) /\ String.length t = limit) /\
          (String.length (f s) <= limit -> t = f s)
  end.

(** The effect of [row_with_mastodon_id]: a row without a sequential
    identifier is given one, in the table as in the value returned. *)
Definition backfill (row : ActorRow) (w : World) : ActorRow * World :=
  match row_mastodon_id row with
  | Some _ => (row, w)
  | None =>
      let m := (row_cdate row, id_sequences (db w)) in
      (Actors.with_mastodon_id (Some m) row,
       set_db (set_actors (Actors.update_mastodon_id m (row_id row) (actors (db w)))
                 (set_id_sequences (S (id_sequences (db w))) (db w))) w)
  end.

(** [row] is the row a lookup of [X] finds, and it has its sequential
    identifier. *)
Definition resolved (X : string) (row : ActorRow) (w : World) : Prop :=
  exists rest, rows_for X (db w) = row :: rest /\ row_mastodon_id row <> None.

(** The tables and logs that the actor cache does not touch. *)
Definition outside_cache_kept (w w' : World) : Prop :=
  objects (db w') = objects (db w) /\
  actor_favourites (db w') = actor_favourites (db w) /\
  actor_notifications (db w') = actor_notifications (db w) /\
  actor_following (db w') = actor_following (db w) /\
  outbox_objects (db w') = outbox_objects (db w) /\
  console w' = console w /\
  trace w' = trace w.

(** An actor value returned by one of the functions of actors/index.ts
    that build actors from rows. *)
Inductive returned (P : Platform) (a : Actor) : Prop :=
| from_actorFromRow (row : ActorRow) :
    Actors.actorFromRow P row = Ok a -> returned P a
| from_getActorById (id : string) (w w' : World) :
    Actors.getActorById P id w = (Ok (Some a), w') -> returned P a
| from_getPersonByEmail (email : string) (w w' : World) :
    Actors.getPersonByEmail P email w = (Ok (Some a), w') -> returned P a
| from_getAndCache (url : string) (w w' : World) :
    Actors.getAndCache P url w = (Ok a, w') -> returned P a.

(** The last part of handleLikeActivity: the two statements issued
    together, then the push request. *)
Definition notify_and_store (P : Platform) (fromActor targetActor : Actor)
    (obj : ApObject) : M unit :=
  (r <- Like.Promise_all2 P
          (Like.createNotification "favourite" targetActor fromActor obj)
          (Like.insertLike fromActor obj) ;;
   let notifId := fst r in
   Like.sendLikeNotification P fromActor targetActor notifId)%async.

(** In a trace, every notification row is created after a Like edge was
    stored. *)
Definition edge_before_notification (t : list Event) : Prop :=
  forall before id after,
    t = before ++ NotificationCreated id :: after ->
    exists actorId objectId, In (LikeStored actorId objectId) before.

(** The effects of one applied Like, in the order the platform performs
    them. *)
Definition like_effects (P : Platform) (id : nat) (actorId objectId : string)
  : list Event :=
  (if issue_order P
   then [NotificationCreated id; LikeStored actorId objectId]
   else [LikeStored actorId objectId; NotificationCreated id])
  ++ [PushRequested id].

(** *** Overlapping calls of getAndCache

    A call is suspended at each [await]; between two of them another call
    may run.  A task is a call of getAndCache at one of its suspension
    points: before the lookup, after a miss, after the fetch, finished. *)
Module Overlap.

Inductive Task : Type :=
| Lookup (url : string)
| Fetch (url : string)
| Insert (actor : Doc)
| Finished (r : Res Actor).

Definition step (P : Platform) (t : Task) (w : World) : Task * World :=
  match t with
  | Lookup url =>
      match Actors.getActorById P url w with
      | (Ok (Some a), w') => (Finished (Ok a), w')
      | (Ok None, w') => (Fetch url, w')
      | (Throw e, w') => (Finished (Throw e), w')
      end
  | Fetch url =>
      match Actors.fetchActor P url w with
      | (Ok actor, w') => (Insert actor, w')
      | (Throw e, w') => (Finished (Throw e), w')
      end
  | Insert actor =>
      let (r, w') := Actors.cache_fetched P actor w in (Finished r, w')
  | Finished r => (Finished r, w)
  end.

Fixpoint replace_nth {A : Type} (i : nat) (x : A) (l : list A) : list A :=
  match l, i with
  | [], _ => []
  | _ :: rest, 0 => x :: rest
  | y :: rest, S j => y :: replace_nth j x rest
  end.

(** Runs the tasks in the order of the schedule: each entry names the
    task that takes the next step. *)
Fixpoint run (P : Platform) (schedule : list nat) (tasks : list Task) (w : World)
  : list Task * World :=
  match schedule with
  | [] => (tasks, w)
  | i :: rest =>
      match nth_error tasks i with
      | Some t =>
          let (t', w') := step P t w in
          run P rest (replace_nth i t' tasks) w'
      | None => run P rest tasks w
      end
  end.

End Overlap.


(* ------------------------------------------------------------------ *)
(** ** A concrete platform and concrete worlds *)

Module Demo.

Definition alice : string := "https://remote.example/users/alice".
Definition bob : string := "https://social.example/ap/users/bob".
Definition relay : string := "https://relay.example/actor".
Definition note : string := "https://social.example/ap/o/1".

Definition alice_doc : Doc :=
  {| doc_id := Some alice; doc_type := Some "Person"; doc_name := Some "Alice";
     doc_summary := None; doc_preferredUsername := Some "alice";
     doc_icon := None; doc_image := None;
     doc_inbox := None; doc_outbox := None; doc_following := None;
     doc_followers := None; doc_alsoKnownAs := None |}.

(** A document with no [type]. *)
Definition untyped_doc : Doc :=
  {| doc_id := Some "https://remote.example/users/carol"; doc_type := None;
     doc_name := None; doc_summary := None; doc_preferredUsername := None;
     doc_icon := None; doc_image := None;
     doc_inbox := None; doc_outbox := None; doc_following := None;
     doc_followers := None; doc_alsoKnownAs := None |}.

Definition long_summary : string :=
  String.concat "" (repeat "0123456789" 60).

Definition long_username : string :=
  String.concat "" (repeat "abcdefghij" 4).

Definition dave_doc : Doc :=
  {| doc_id := Some "https://remote.example/users/dave"; doc_type := Some "Person";
     doc_name := Some "Dave";
     doc_summary := Some long_summary; doc_preferredUsername := Some long_username;
     doc_icon := None; doc_image := None;
     doc_inbox := None; doc_outbox := None; doc_following := None;
     doc_followers := None; doc_alsoKnownAs := None |}.

Definition remote (url : string) : option Response :=
  if (url =? alice)%string then
    Some {| res_ok := true; res_status := 200; res_body := Some alice_doc |}
  else if (url =? "https://remote.example/users/carol")%string then
    Some {| res_ok := true; res_status := 200; res_body := Some untyped_doc |}
  else if (url =? "https://remote.example/users/dave")%string then
    Some {| res_ok := true; res_status := 200; res_body := Some dave_doc |}
  else
    Some {| res_ok := false; res_status := 404; res_body := None |}.

(** Identifiers are kept in serialised form: parsing accepts the https
    URLs and returns them as they are. *)
Definition parse (s : string) : option string :=
  if String.prefix "https://" s then Some s else None.

Fixpoint until_slash (s : string) : string :=
  match s with
  | String c r => if Ascii.eqb c "/" then "" else String c (until_slash r)
  | EmptyString => ""
  end.

Definition host_of (href : string) : string :=
  until_slash (String.substring 8 (String.length href - 8) href).

Definition platform (unique in_order pushes : bool) : Platform :=
  {| new_URL := parse;
     new_URL_base := fun input base =>
       parse (if String.prefix "/" input then base +++ input else base +++ "/" +++ input);
     URL_hostname := host_of;
     URL_host := host_of;
     fetch := remote;
     sanitizeContent := fun s => s;
     getTextContent := fun s => s;
     actors_id_unique := unique;
     defaultImages_avatar := "https://social.example/avatar.jpg";
     defaultImages_header := "https://social.example/header.jpg";
     issue_order := in_order;
     push_delivered := fun _ _ => pushes |}.

Definition empty_db : Database :=
  {| actors := []; peers := []; objects := []; actor_favourites := [];
     actor_notifications := []; actor_following := []; outbox_objects := [];
     id_sequences := 0 |}.

Definition empty_world : World :=
  {| db := empty_db; console := []; clock := 1000; trace := [] |}.

Definition bob_row : ActorRow :=
  {| row_id := bob; row_type := "Person"; row_email := Some "bob@social.example";
     row_pubkey := Some "PEM"; row_cdate := 10;
     row_properties :=
       {| doc_id := None; doc_type := None; doc_name := Some "Bob";
          doc_summary := None; doc_preferredUsername := Some "bob";
          doc_icon := None; doc_image := None;
          doc_inbox := None; doc_outbox := Some (bob +++ "/out");
          doc_following := None; doc_followers := None; doc_alsoKnownAs := None |};
     row_is_admin := None; row_mastodon_id := Some (10, 0);
     row_original_actor_id := None |}.

(** Bob's note, delivered to this server by a relay. *)
Definition bob_note : ApObject :=
  {| object_id := note; object_type := "Note";
     object_originalActorId := Some bob; object_deliveredBy := relay;
     object_inReplyTo := None |}.

(** A local actor (Bob) whose note is cached. *)
Definition world : World :=
  {| db := {| actors := [bob_row]; peers := []; objects := [bob_note];
              actor_favourites := []; actor_notifications := [];
              actor_following := []; outbox_objects := []; id_sequences := 1 |};
     console := []; clock := 1000; trace := [] |}.

(** Alice likes Bob's note. *)
Definition like : Like.LikeActivity :=
  {| Like.like_id := "https://remote.example/likes/1";
     Like.like_actor := alice;
     Like.like_object := note |}.

(** A Like of an object that is not cached. *)
Definition like_unknown : Like.LikeActivity :=
  {| Like.like_id := "https://remote.example/likes/2";
     Like.like_actor := alice;
     Like.like_object := "https://elsewhere.example/o/404" |}.

(** *** Collection pages *)

Definition actorToHandle (a : Actor) : Handle :=
  {| handle_localPart := Js.interpolate (actor_preferredUsername a);
     handle_domain := Some (host_of (actor_id a)) |}.

Definition isLocalAccount (domain : string) (h : Handle) : bool :=
  match handle_domain h with
  | Some d => (d =? domain)%string
  | None => true
  end.

(** Bob is the only actor with a sequential identifier known to clients. *)
Definition getActorByMastodonId (id : string) : M (option Actor) :=
  if (id =? "10-0")%string then Actors.getActorById (platform true true true) bob
  else ret None.

Definition followers_request (limit : Followers.Param) : Followers.Request :=
  {| Followers.request_hostname := "social.example"; Followers.request_limit := limit |}.

(** The client view of an account, reduced to the actor's identifier. *)
Definition followers_onRequestGet (limit : Followers.Param)
  : M (Followers.ApiResponse string) :=
  Followers.onRequestGet (platform true true true)
    (fun a => ret (actor_id a)) (fun a _ => ret (actor_id a))
    actorToHandle isLocalAccount
    getActorByMastodonId (fun _ _ => ret []) (fun _ => ret [])
    (Some "10-0") (followers_request limit).

(** Bob has published [n] notes. *)
Definition note_of (i : nat) : ApObject :=
  {| object_id := "https://social.example/ap/o/" +++ Js.string_of_nat i;
     object_type := "Note";
     object_originalActorId := Some bob; object_deliveredBy := bob;
     object_inReplyTo := None |}.

Definition outbox_of (i : nat) : OutboxRow :=
  {| outbox_actor_id := bob;
     outbox_object_id := "https://social.example/ap/o/" +++ Js.string_of_nat i;
     outbox_target := Statuses.PUBLIC_GROUP;
     outbox_cdate := S i; outbox_published_date := S i |}.

Definition world_with_notes (n : nat) : World :=
  {| db := {| actors := [bob_row]; peers := [];
              objects := map note_of (seq 0 n);
              actor_favourites := []; actor_notifications := [];
              actor_following := []; outbox_objects := map outbox_of (seq 0 n);
              id_sequences := 1 |};
     console := []; clock := 1000; trace := [] |}.

Definition statuses_request (limit : string) : Statuses.Request :=
  {| Statuses.request_hostname := "social.example";
     Statuses.request_searchParams := [("limit", limit)] |}.

(** The client view of a status, reduced to the object's identifier. *)
Definition statuses_handleRequest (limit : string) : M (Statuses.Response string) :=
  Statuses.handleRequest (platform true true true)
    (fun id => {| handle_localPart := id; handle_domain := None |})
    (fun domain => domain)
    (fun _ row => ret (Some (object_id (Statuses.status_object row))))
    (fun obj _ => ret (Some (object_id obj)))
    (fun _ _ => ret None)
    (fun _ _ => ret [])
    (fun _ obj _ _ => ret (Some obj))
    (fun _ => throw (Error "not found"))
    (fun acct _ => ret acct)
    (statuses_request limit) "bob".

End Demo.

(* ------------------------------------------------------------------ *)
(** ** Further concrete worlds *)

Module Cases.

Definition carol : string := "https://social.example/ap/users/carol".

(** An old local actor: no sequential identifier, no endpoint stored. *)
Definition carol_row : ActorRow :=
  {| row_id := carol; row_type := "Person"; row_email := Some "carol@social.example";
     row_pubkey := Some "PEM-C"; row_cdate := 5;
     row_properties :=
       {| doc_id := None; doc_type := None; doc_name := None;
          doc_summary := None; doc_preferredUsername := Some "carol";
          doc_icon := None; doc_image := None;
          doc_inbox := None; doc_outbox := None;
          doc_following := None; doc_followers := None; doc_alsoKnownAs := None |};
     row_is_admin := Some 1%Z; row_mastodon_id := None;
     row_original_actor_id := None |}.

Definition legacy_world : World :=
  {| db := {| actors := [Demo.bob_row; carol_row]; peers := []; objects := [Demo.bob_note];
              actor_favourites := []; actor_notifications := [];
              actor_following := []; outbox_objects := []; id_sequences := 1 |};
     console := []; clock := 1000; trace := [] |}.

(** The remote server of Erin serves her actor under a second address:
    the document found there declares her first address as its id. *)
Definition erin : string := "https://remote.example/users/erin".
Definition erin_alias : string := "https://remote.example/@erin".

Definition erin_doc : Doc :=
  {| doc_id := Some erin; doc_type := Some "Person"; doc_name := None;
     doc_summary := None; doc_preferredUsername := Some "erin";
     doc_icon := None; doc_image := None;
     doc_inbox := Some "https://remote.example/users/erin/inbox";
     doc_outbox := None; doc_following := None;
     doc_followers := None; doc_alsoKnownAs := None |}.

Definition remote (url : string) : option Response :=
  if (url =? erin)%string || (url =? erin_alias)%string then
    Some {| res_ok := true; res_status := 200; res_body := Some erin_doc |}
  else Demo.remote url.

Definition platform (unique : bool) : Platform :=
  {| new_URL := Demo.parse;
     new_URL_base := fun input base =>
       Demo.parse (if String.prefix "/" input then base +++ input
                   else base +++ "/" +++ input);
     URL_hostname := Demo.host_of;
     URL_host := Demo.host_of;
     fetch := remote;
     sanitizeContent := fun s => s;
     getTextContent := fun s => s;
     actors_id_unique := unique;
     defaultImages_avatar := "https://social.example/avatar.jpg";
     defaultImages_header := "https://social.example/header.jpg";
     issue_order := true;
     push_delivered := fun _ _ => true |}.

(** A Like of Bob's note by an actor whose server answers 404. *)
Definition like_by_unknown : Like.LikeActivity :=
  {| Like.like_id := "https://gone.example/likes/1";
     Like.like_actor := "https://gone.example/users/zed";
     Like.like_object := Demo.note |}.

(** A note by Frank, who is not cached, and Alice's Like of it. *)
Definition frank : string := "https://elsewhere.example/users/frank".

Definition frank_note : ApObject :=
  {| object_id := "https://elsewhere.example/o/7"; object_type := "Note";
     object_originalActorId := Some frank; object_deliveredBy := Demo.relay;
     object_inReplyTo := None |}.

Definition world_with_frank_note : World :=
  {| db := {| actors := [Demo.bob_row]; peers := []; objects := [Demo.bob_note; frank_note];
              actor_favourites := []; actor_notifications := [];
              actor_following := []; outbox_objects := []; id_sequences := 1 |};
     console := []; clock := 1000; trace := [] |}.

Definition like_frank_note : Like.LikeActivity :=
  {| Like.like_id := "https://remote.example/likes/3";
     Like.like_actor := Demo.alice;
     Like.like_object := "https://elsewhere.example/o/7" |}.

(** Bob is followed by an actor whose server answers 404. *)
Definition world_with_follower : World :=
  {| db := {| actors := [Demo.bob_row]; peers := []; objects := [Demo.bob_note];
              actor_favourites := []; actor_notifications := [];
              actor_following :=
                [{| follow_actor_id := "https://gone.example/users/zed";
                    follow_target_actor_id := Demo.bob |}];
              outbox_objects := []; id_sequences := 1 |};
     console := []; clock := 1000; trace := [] |}.

Definition statuses_request (searchParams : list (string * string)) : Statuses.Request :=
  {| Statuses.request_hostname := "social.example";
     Statuses.request_searchParams := searchParams |}.

(** A handle is a local part; every handle is local. *)
Definition parseHandle (id : string) : Handle :=
  {| handle_localPart := id; handle_domain := None |}.

Definition isLocalHandle (h : Handle) : bool := negb (Js.defined (handle_domain h)).

(** The client view of a status, reduced to the object's identifier. *)
Definition statuses_handleRequest (searchParams : list (string * string))
  : M (Statuses.Response string) :=
  Statuses.handleRequest (Demo.platform true true true)
    parseHandle
    (fun domain => domain)
    (fun _ row => ret (Some (object_id (Statuses.status_object row))))
    (fun obj _ => ret (Some (object_id obj)))
    (fun _ _ => ret None)
    (fun _ _ => ret [])
    (fun _ obj _ _ => ret (Some obj))
    (fun _ => throw (Error "not found"))
    (fun acct _ => ret acct)
    (statuses_request searchParams) "bob".

(** A remote account whose outbox holds as many activities as it is asked
    for. *)
Definition created (i : nat) : Statuses.Activity :=
  {| Statuses.activity_type := "Create";
     Statuses.activity_actor := Demo.alice;
     Statuses.activity_object :=
       {| object_id := "https://remote.example/o/" +++ Js.string_of_nat i;
          object_type := "Note";
          object_originalActorId := Some Demo.alice; object_deliveredBy := Demo.alice;
          object_inReplyTo := None |} |}.

Definition remote_statuses_handleRequest (searchParams : list (string * string))
  : M (Statuses.Response string) :=
  Statuses.handleRequest (Demo.platform true true true)
    (fun _ => {| handle_localPart := "alice"; handle_domain := Some "remote.example" |})
    (fun domain => domain)
    (fun _ row => ret (Some (object_id (Statuses.status_object row))))
    (fun obj _ => ret (Some (object_id obj)))
    (fun _ _ => ret (Some Demo.alice))
    (fun _ limit => ret (map created (seq 0 (Z.to_nat limit))))
    (fun _ obj _ _ => ret (Some obj))
    (fun _ => throw (Error "not found"))
    (fun acct _ => ret acct)
    (statuses_request searchParams) "alice@remote.example".

(** Creating local users. *)
Definition keys : Person.UserKeyPair :=
  {| Person.wrappedPrivKey := [Byte.x01; Byte.x02]; Person.salt := [Byte.x03];
     Person.pubKey := "PEM-D" |}.

Definition generateUserKey (userKEK : string) : Res Person.UserKeyPair := Ok keys.

Definition no_properties : Doc :=
  {| doc_id := None; doc_type := None; doc_name := None;
     doc_summary := None; doc_preferredUsername := None;
     doc_icon := None; doc_image := None;
     doc_inbox := None; doc_outbox := None; doc_following := None;
     doc_followers := None; doc_alsoKnownAs := None |}.

Definition store : Person.Store :=
  {| Person.store_world := Demo.world; Person.actor_keys := [];
     Person.actor_preferences := [] |}.

Definition createPerson (email : string) (admin : bool) : Person.St Actor :=
  Person.createPerson (Demo.platform true true true) generateUserKey
    "social.example" "kek" email no_properties admin.

End Cases.

(** The serialised form of a URL built from an input and a base parses to
    itself. *)
Definition new_URL_base_serialised (P : Platform) : Prop :=
  forall input base href, new_URL_base P input base = Some href -> new_URL P href = Some href.

(** The username createPerson gives a user: the one asked for, or the part
    of the email address before the first [@]. *)
Definition person_username (properties : Doc) (email : string) : string :=
  match doc_preferredUsername properties with
  | Some u => u
  | None => Person.split_head email
  end.

(** The row createPerson inserts. *)
Definition person_row (keys : Person.UserKeyPair) (id email : string) (properties : Doc)
    (admin : bool) (w : World) : ActorRow :=
  {| row_id := id; row_type := Actors.PERSON; row_email := Some email;
     row_pubkey := Some (Person.pubKey keys); row_cdate := clock w;
     row_properties :=
       Person.person_properties properties (person_username properties email) id;
     row_is_admin := if admin then Some 1%Z else None;
     row_mastodon_id := Some (clock w, id_sequences (db w));
     row_original_actor_id := None |}.

(** No stored actor has the email address [email]. *)
Definition email_unused (email : string) (d : Database) : Prop :=
  forall r, In r (actors d) -> row_email r <> Some email.

(* ================================================================== *)
(** * Properties *)

Local Open Scope nat_scope.

Unset Implicit Arguments.

(** ** Reasoning about computations *)

Lemma bind_inv {A B : Type} (m : M A) (k : A -> M B) (w w' : World) (r : Res B) :
  bind m k w = (r, w') ->
  (exists a w1, m w = (Ok a, w1) /\ k a w1 = (r, w')) \/
  (exists e, m w = (Throw e, w') /\ r = Throw e).
Proof.
  unfold bind. destruct (m w) as [[a | e] w1]; intros H.
  - left. exists a, w1. split; [reflexivity | exact H].
  - right. exists e. inversion H; subst. split; reflexivity.
Qed.

Lemma bind_ok {A B : Type} (m : M A) (k : A -> M B) (w w1 : World) (a : A) :
  m w = (Ok a, w1) -> bind m k w = k a w1.
Proof. intros H. unfold bind. rewrite H. reflexivity. Qed.

Lemma bind_throw {A B : Type} (m : M A) (k : A -> M B) (w w1 : World) (e : Exn) :
  m w = (Throw e, w1) -> bind m k w = (Throw e, w1).
Proof. intros H. unfold bind. rewrite H. reflexivity. Qed.

Lemma res_bind_inv {A B : Type} (r : Res A) (k : A -> Res B) (b : B) :
  res_bind r k = Ok b -> exists a, r = Ok a /\ k a = Ok b.
Proof.
  destruct r as [a | e]; simpl; intros H; [exists a; auto | discriminate].
Qed.

Lemma lift_inv {A : Type} (r r' : Res A) (w w' : World) :
  lift r w = (r', w') -> r' = r /\ w' = w.
Proof. unfold lift. intros H. inversion H. auto. Qed.

(** Splits a hypothesis [bind m k w = (r, w')] into its two outcomes. *)
Ltac bind_cases H a w1 Hm :=
  apply bind_inv in H;
  destruct H as [(a & w1 & Hm & H) | (?e & Hm & ?Hr)].

(** ** Strings *)

Lemma substring0_length (n : nat) (s : string) :
  String.length (Js.substring0 n s) = Nat.min n (String.length s).
Proof.
  unfold Js.substring0. revert n.
  induction s as [| c s IH]; intros [| n]; simpl; auto.
Qed.

Lemma clamp_length (limit : nat) (s : string) :
  String.length (Actors.clamp limit s) <= limit.
Proof.
  unfold Actors.clamp. destruct (Nat.ltb_spec limit (String.length s)).
  - rewrite substring0_length. lia.
  - lia.
Qed.

Lemma clamp_long (limit : nat) (s : string) :
  limit < String.length s ->
  Actors.clamp limit s = Js.substring0 limit s /\
  String.length (Actors.clamp limit s) = limit.
Proof.
  intros H. unfold Actors.clamp.
  destruct (Nat.ltb_spec limit (String.length s)); [| lia].
  split; [reflexivity | rewrite substring0_length; lia].
Qed.

Lemma clamp_short (limit : nat) (s : string) :
  String.length s <= limit -> Actors.clamp limit s = s.
Proof.
  intros H. unfold Actors.clamp.
  destruct (Nat.ltb_spec limit (String.length s)); [lia | reflexivity].
Qed.

(** ** actorFromRow *)

Section ActorFacts.

Variable P : Platform.

Lemma URL_inv (v : option string) (href : string) :
  Actors.URL P v = Ok href -> new_URL P (Js.interpolate v) = Some href.
Proof.
  unfold Actors.URL. destruct (new_URL P (Js.interpolate v)); intros H;
    [inversion H; reflexivity | discriminate].
Qed.

Lemma actorFromRow_inv (row : ActorRow) (a : Actor) :
  Actors.actorFromRow P row = Ok a ->
  new_URL P (row_id row) = Some (actor_id a) /\
  actor_type a = row_type row /\
  actor_mastodonId a = row_mastodon_id row /\
  actor_published a = row_cdate row /\
  inbox a = Actors.endpoint (doc_inbox (row_properties row)) (actor_id a) "/inbox" /\
  outbox a = Actors.endpoint (doc_outbox (row_properties row)) (actor_id a) "/outbox" /\
  following a = Actors.endpoint (doc_following (row_properties row)) (actor_id a) "/following" /\
  followers a = Actors.endpoint (doc_followers (row_properties row)) (actor_id a) "/followers".
Proof.
  unfold Actors.actorFromRow. intros H.
  apply res_bind_inv in H. destruct H as (icon & _ & H).
  apply res_bind_inv in H. destruct H as (image & _ & H).
  apply res_bind_inv in H. destruct H as (id & Hid & H).
  apply res_bind_inv in H. destruct H as (dom & _ & H).
  apply res_bind_inv in H. destruct H as (url & _ & H).
  inversion H; subst; clear H. simpl.
  apply URL_inv in Hid. simpl in Hid. repeat split; auto.
Qed.

(** actorFromRow does not look at the world: two rows that agree give the
    same actor. *)
Lemma actorFromRow_id (row : ActorRow) (a : Actor) :
  Actors.actorFromRow P row = Ok a -> new_URL P (row_id row) = Some (actor_id a).
Proof. intros H. apply actorFromRow_inv in H. tauto. Qed.

End ActorFacts.

(** ** The actor cache *)

Section CacheFacts.

Variable P : Platform.

Lemma has_id_true (id : string) (r : ActorRow) :
  Actors.has_id id r = true -> row_id r = id.
Proof. unfold Actors.has_id. apply String.eqb_eq. Qed.

Lemma has_id_with_mastodon_id (X : string) (m : option MastodonId) (r : ActorRow) :
  Actors.has_id X (Actors.with_mastodon_id m r) = Actors.has_id X r.
Proof. reflexivity. Qed.

Lemma filter_update_mastodon_id (X id : string) (m : MastodonId) (rows : list ActorRow) :
  filter (Actors.has_id X) (Actors.update_mastodon_id m id rows) =
  Actors.update_mastodon_id m id (filter (Actors.has_id X) rows).
Proof.
  induction rows as [| r rows IH]; simpl; [reflexivity |].
  destruct (row_id r =? id)%string eqn:E.
  - rewrite has_id_with_mastodon_id. destruct (Actors.has_id X r); simpl.
    + rewrite E, IH. reflexivity.
    + exact IH.
  - destruct (Actors.has_id X r); simpl.
    + rewrite E, IH. reflexivity.
    + exact IH.
Qed.

Lemma update_mastodon_id_other (X id : string) (m : MastodonId) (rows : list ActorRow) :
  X <> id ->
  Actors.update_mastodon_id m id (filter (Actors.has_id X) rows) =
  filter (Actors.has_id X) rows.
Proof.
  intros Hne. induction rows as [| r rows IH]; simpl; [reflexivity |].
  destruct (Actors.has_id X r) eqn:E; [| exact IH].
  simpl. apply has_id_true in E.
  destruct (String.eqb_spec (row_id r) id) as [Heq | _]; [congruence |].
  rewrite IH. reflexivity.
Qed.

Lemma update_mastodon_id_length (id : string) (m : MastodonId) (rows : list ActorRow) :
  List.length (Actors.update_mastodon_id m id rows) = List.length rows.
Proof. apply length_map. Qed.

Lemma row_with_mastodon_id_eq (row : ActorRow) (w : World) :
  Actors.row_with_mastodon_id row w = (Ok (fst (backfill row w)), snd (backfill row w)).
Proof.
  unfold Actors.row_with_mastodon_id, backfill.
  destruct (row_mastodon_id row); reflexivity.
Qed.

Lemma getActorById_eq (id : string) (w : World) :
  Actors.getActorById P id w =
  match rows_for id (db w) with
  | [] => (Ok None, w)
  | row :: _ =>
      (match Actors.actorFromRow P (fst (backfill row w)) with
       | Ok a => Ok (Some a)
       | Throw e => Throw e
       end, snd (backfill row w))
  end.
Proof.
  unfold Actors.getActorById, Actors.select_actors, rows_for, bind.
  destruct (filter (Actors.has_id id) (actors (db w))) as [| row rest]; [reflexivity |].
  rewrite row_with_mastodon_id_eq. unfold lift.
  destruct (Actors.actorFromRow P (fst (backfill row w))); reflexivity.
Qed.

Lemma backfill_outside (row : ActorRow) (w : World) :
  outside_cache_kept w (snd (backfill row w)) /\
  peers (db (snd (backfill row w))) = peers (db w) /\
  clock (snd (backfill row w)) = clock w.
Proof.
  unfold backfill, outside_cache_kept.
  destruct (row_mastodon_id row); simpl; repeat split; reflexivity.
Qed.

Lemma backfill_has_mastodon_id (row : ActorRow) (w : World) :
  row_mastodon_id (fst (backfill row w)) <> None.
Proof.
  unfold backfill. destruct (row_mastodon_id row) eqn:E; simpl; congruence.
Qed.

Lemma backfill_fixed (row : ActorRow) (w : World) :
  row_mastodon_id row <> None -> backfill row w = (row, w).
Proof.
  unfold backfill. destruct (row_mastodon_id row); [reflexivity | congruence].
Qed.

Lemma backfill_rows_none (X : string) (row : ActorRow) (w : World) :
  row_mastodon_id row = None ->
  rows_for X (db (snd (backfill row w))) =
  Actors.update_mastodon_id (row_cdate row, id_sequences (db w)) (row_id row)
    (rows_for X (db w)).
Proof.
  intros E. unfold backfill. rewrite E. simpl.
  unfold rows_for. simpl. apply filter_update_mastodon_id.
Qed.

(** After the backfill of [row], the rows of any identifier [X] are the
    ones before, those of [row]'s identifier now carrying the new number. *)
Lemma backfill_rows_for (X : string) (row : ActorRow) (w : World) :
  rows_for X (db (snd (backfill row w))) = rows_for X (db w) \/
  (row_mastodon_id row = None /\ X = row_id row /\
   rows_for X (db (snd (backfill row w))) =
   Actors.update_mastodon_id (row_cdate row, id_sequences (db w)) (row_id row)
     (rows_for X (db w))).
Proof.
  destruct (row_mastodon_id row) eqn:E.
  - left. rewrite backfill_fixed by congruence. reflexivity.
  - rewrite (backfill_rows_none X row w E).
    destruct (String.eqb_spec X (row_id row)) as [-> | Hne].
    + right. repeat split; reflexivity.
    + left. unfold rows_for. apply update_mastodon_id_other. exact Hne.
Qed.

Lemma backfill_rows_length (X : string) (row : ActorRow) (w : World) :
  List.length (rows_for X (db (snd (backfill row w)))) = List.length (rows_for X (db w)).
Proof.
  destruct (backfill_rows_for X row w) as [-> | (_ & _ & ->)];
    [reflexivity | apply update_mastodon_id_length].
Qed.

Lemma rows_for_head_id (X : string) (row : ActorRow) (rest : list ActorRow) (d : Database) :
  rows_for X d = row :: rest -> row_id row = X.
Proof.
  unfold rows_for. intros H. apply has_id_true.
  assert (Hin : In row (filter (Actors.has_id X) (actors d))) by (rewrite H; left; reflexivity).
  apply filter_In in Hin. tauto.
Qed.

(** A lookup that finds a row leaves that row resolved. *)
Lemma backfill_resolved (X : string) (row : ActorRow) (rest : list ActorRow) (w : World) :
  rows_for X (db w) = row :: rest ->
  resolved X (fst (backfill row w)) (snd (backfill row w)).
Proof.
  intros H. pose proof (rows_for_head_id _ _ _ _ H) as Hid.
  unfold resolved.
  destruct (row_mastodon_id row) eqn:E.
  - rewrite backfill_fixed by congruence. simpl. exists rest. split; [exact H | congruence].
  - rewrite (backfill_rows_none X row w E), H. simpl.
    rewrite String.eqb_refl.
    unfold backfill. rewrite E. simpl.
    eexists. split; [reflexivity | simpl; congruence].
Qed.

Lemma resolved_rows (X : string) (row : ActorRow) (w w' : World) :
  resolved X row w -> rows_for X (db w') = rows_for X (db w) -> resolved X row w'.
Proof.
  intros (rest & H & Hm) Heq. exists rest. rewrite Heq. auto.
Qed.

(** Backfilling any row keeps a resolved row resolved. *)
Lemma resolved_backfill (X : string) (row other : ActorRow) (rest : list ActorRow)
    (Y : string) (w : World) :
  resolved X row w ->
  rows_for Y (db w) = other :: rest ->
  resolved X row (snd (backfill other w)).
Proof.
  intros Hres HY.
  destruct (backfill_rows_for X other w) as [Hsame | (Hnone & HX & _)].
  - eapply resolved_rows; eauto.
  - exfalso. destruct Hres as (rest' & HrX & Hm).
    pose proof (rows_for_head_id _ _ _ _ HY) as HidY.
    assert (HYX : Y = X) by congruence.
    rewrite HYX, HrX in HY. inversion HY as [[Hrow Hrest]].
    rewrite <- Hrow in Hnone. congruence.
Qed.

End CacheFacts.

(** ** fetchActor and getAndCache *)

Section ResolveFacts.

Variable P : Platform.

Lemma bind_lift_inv {A B : Type} (r : Res A) (k : A -> M B) (w w' : World) (b : Res B) :
  bind (lift r) k w = (b, w') ->
  (exists a, r = Ok a /\ k a w = (b, w')) \/ (exists e, r = Throw e /\ b = Throw e /\ w' = w).
Proof.
  unfold bind, lift. destruct r as [a | e]; intros H.
  - left. exists a. auto.
  - right. exists e. inversion H. auto.
Qed.

(** fetchActor reads the remote server and leaves the world as it is. *)
Lemma fetchActor_world (url : string) (w w' : World) (r : Res Doc) :
  Actors.fetchActor P url w = (r, w') -> w' = w.
Proof.
  unfold Actors.fetchActor.
  destruct (fetch P url) as [res |]; [| intros H; inversion H; reflexivity].
  destruct (res_ok res); simpl; [| intros H; inversion H; reflexivity].
  destruct (res_body res) as [actor |]; [| intros H; inversion H; reflexivity].
  intros H.
  repeat (apply bind_lift_inv in H;
          destruct H as [(? & _ & H) | (? & _ & _ & H)]; [| exact H]).
  inversion H. reflexivity.
Qed.

Lemma fetchActor_ok_inv (url : string) (w w' : World) (actor' : Doc) :
  Actors.fetchActor P url w = (Ok actor', w') ->
  exists res actor href,
    fetch P url = Some res /\ res_ok res = true /\ res_body res = Some actor /\
    new_URL P (Js.interpolate (doc_id actor)) = Some href /\
    doc_id actor' = Some href /\
    doc_type actor' = doc_type actor /\
    doc_summary actor' =
      (if Js.truthy (doc_summary actor)
       then option_map (fun s => Actors.clamp 500 (sanitizeContent P s)) (doc_summary actor)
       else doc_summary actor) /\
    doc_name actor' =
      (if Js.truthy (doc_name actor)
       then option_map (fun s => Actors.clamp 30 (getTextContent P s)) (doc_name actor)
       else doc_name actor) /\
    doc_preferredUsername actor' =
      (if Js.truthy (doc_preferredUsername actor)
       then option_map (fun s => Actors.clamp 30 (getTextContent P s))
              (doc_preferredUsername actor)
       else doc_preferredUsername actor).
Proof.
  unfold Actors.fetchActor.
  destruct (fetch P url) as [res |]; [| intros H; inversion H].
  destruct (res_ok res) eqn:Hok; simpl; [| intros H; inversion H].
  destruct (res_body res) as [actor |] eqn:Hbody; [| intros H; inversion H].
  intros H.
  apply bind_lift_inv in H. destruct H as [(id & Hid & H) | (? & _ & ? & _)]; [| discriminate].
  apply bind_lift_inv in H. destruct H as [(? & _ & H) | (? & _ & ? & _)]; [| discriminate].
  apply bind_lift_inv in H. destruct H as [(? & _ & H) | (? & _ & ? & _)]; [| discriminate].
  apply bind_lift_inv in H. destruct H as [(? & _ & H) | (? & _ & ? & _)]; [| discriminate].
  apply bind_lift_inv in H. destruct H as [(? & _ & H) | (? & _ & ? & _)]; [| discriminate].
  inversion H; subst; clear H. simpl.
  exists res, actor, id. apply URL_inv in Hid. repeat split; auto.
Qed.

(** The cases in which fetchActor rejects. *)
Lemma fetchActor_not_ok (url : string) (w : World) (res : Response) :
  fetch P url = Some res -> res_ok res = false ->
  Actors.fetchActor P url w =
  (Throw (Error (url +++ " returned: " +++ Js.string_of_nat (res_status res))), w).
Proof.
  intros Hf Hok. unfold Actors.fetchActor. rewrite Hf, Hok. reflexivity.
Qed.

Lemma fetchActor_no_id (url : string) (w : World) (res : Response) (actor : Doc) :
  new_URL P "undefined" = None ->
  fetch P url = Some res -> res_ok res = true -> res_body res = Some actor ->
  doc_id actor = None ->
  Actors.fetchActor P url w = (Throw (TypeError "Invalid URL"), w).
Proof.
  intros Hu Hf Hok Hb Hid. unfold Actors.fetchActor. rewrite Hf, Hok, Hb. simpl.
  unfold Actors.URL. rewrite Hid. simpl. rewrite Hu. reflexivity.
Qed.

Lemma cache_fetched_untyped (actor : Doc) (w : World) :
  Js.truthy (doc_type actor) = false ->
  Actors.cache_fetched P actor w = (Throw (Error "missing fields on Actor"), w).
Proof.
  intros H. unfold Actors.cache_fetched. rewrite H.
  destruct (doc_id actor); reflexivity.
Qed.

Lemma rows_for_app (X : string) (d : Database) (rows : list ActorRow) (row : ActorRow) :
  filter (Actors.has_id X) (rows ++ [row]) =
  filter (Actors.has_id X) rows ++ (if Actors.has_id X row then [row] else []).
Proof. rewrite filter_app. reflexivity. Qed.

(** What the insertion part of getAndCache does: it rejects and leaves the
    [actors] table as it was, or it appends one row and returns the actor
    built from that row. *)
Lemma cache_fetched_inv (id : string) (actor : Doc) (w w' : World) (r : Res Actor) :
  doc_id actor = Some id ->
  Actors.cache_fetched P actor w = (r, w') ->
  outside_cache_kept w w' /\
  ((exists e, r = Throw e /\ actors (db w') = actors (db w) /\ peers (db w') = peers (db w)) \/
   (exists row,
      actors (db w') = actors (db w) ++ [row] /\
      row_id row = id /\ row_mastodon_id row <> None /\
      r = Actors.actorFromRow P row /\
      (actors_id_unique P = true -> rows_for id (db w) = []))).
Proof.
  intros Hid. unfold Actors.cache_fetched. rewrite Hid.
  destruct (Js.truthy (doc_type actor)); simpl.
  - unfold bind, Date_now, Actors.generateMastodonId, Actors.insert_actor. simpl.
    destruct (actors_id_unique P && existsb (Actors.has_id id) (actors (db w))) eqn:Hc.
    + intros H. inversion H; subst; clear H. split.
      * unfold outside_cache_kept. simpl. repeat split; reflexivity.
      * left. eexists. simpl. repeat split; reflexivity.
    + unfold Actors.addPeer, modify_db, lift. simpl.
      intros H. inversion H; subst; clear H. split.
      * unfold outside_cache_kept. simpl.
        destruct (existsb (String.eqb (URL_host P id)) (peers (db w))); simpl;
          repeat split; reflexivity.
      * right. eexists. split; [| split; [| split; [| split]]].
        -- destruct (existsb (String.eqb (URL_host P id)) (peers (db w))); simpl; reflexivity.
        -- reflexivity.
        -- simpl. congruence.
        -- reflexivity.
        -- intros Hu. rewrite Hu in Hc. simpl in Hc.
           unfold rows_for.
           destruct (filter (Actors.has_id id) (actors (db w))) as [| x l] eqn:Hf; [reflexivity |].
           exfalso.
           assert (Hin : In x (filter (Actors.has_id id) (actors (db w))))
             by (rewrite Hf; left; reflexivity).
           apply filter_In in Hin. destruct Hin as [Hin Hx].
           assert (Hex : existsb (Actors.has_id id) (actors (db w)) = true)
             by (apply existsb_exists; exists x; auto).
           congruence.
  - intros H. inversion H; subst; clear H. split.
    + unfold outside_cache_kept. repeat split; reflexivity.
    + left. eexists. repeat split; reflexivity.
Qed.

(** getAndCache when the lookup finds a row: the row, backfilled if need
    be, is returned, and nothing is fetched or inserted. *)
Lemma getAndCache_hit (X : string) (row : ActorRow) (rest : list ActorRow) (w : World) :
  rows_for X (db w) = row :: rest ->
  Actors.getAndCache P X w =
  (Actors.actorFromRow P (fst (backfill row w)), snd (backfill row w)).
Proof.
  intros H. unfold Actors.getAndCache, bind. rewrite getActorById_eq, H.
  destruct (Actors.actorFromRow P (fst (backfill row w))); reflexivity.
Qed.

Lemma getAndCache_resolved (X : string) (row : ActorRow) (w : World) :
  resolved X row w ->
  Actors.getAndCache P X w = (Actors.actorFromRow P row, w).
Proof.
  intros (rest & H & Hm). rewrite (getAndCache_hit _ _ _ _ H).
  rewrite backfill_fixed by exact Hm. reflexivity.
Qed.

Lemma getAndCache_miss (X : string) (w : World) :
  rows_for X (db w) = [] ->
  Actors.getAndCache P X w = bind (Actors.fetchActor P X) (Actors.cache_fetched P) w.
Proof.
  intros H. unfold Actors.getAndCache. unfold bind at 1.
  rewrite getActorById_eq, H. reflexivity.
Qed.

Lemma getActorById_resolved (X : string) (row : ActorRow) (w : World) :
  resolved X row w ->
  Actors.getActorById P X w =
  (match Actors.actorFromRow P row with
   | Ok a => Ok (Some a)
   | Throw e => Throw e
   end, w).
Proof.
  intros (rest & H & Hm). rewrite getActorById_eq, H.
  rewrite backfill_fixed by exact Hm. reflexivity.
Qed.

End ResolveFacts.

(** ** Sequential and overlapping resolutions *)

Section SequentialCalls.

Variable P : Platform.

(** One call of getAndCache on a canonical identifier. *)
Lemma getAndCache_step (X : string) (w w' : World) (r : Res Actor) :
  canonical P X ->
  Actors.getAndCache P X w = (r, w') ->
  outside_cache_kept w w' /\
  List.length (rows_for X (db w')) <= Nat.max 1 (List.length (rows_for X (db w))) /\
  List.length (rows_for X (db w)) <= List.length (rows_for X (db w')) /\
  (rows_for X (db w) <> [] ->
   List.length (actors (db w')) = List.length (actors (db w))) /\
  (forall a, r = Ok a ->
     exists row, resolved X row w' /\ Actors.actorFromRow P row = Ok a).
Proof.
  intros [HX Hdoc] H.
  destruct (rows_for X (db w)) as [| row rest] eqn:Hrows.
  - (* miss *)
    rewrite getAndCache_miss in H by exact Hrows.
    bind_cases H actor w1 Hf.
    + pose proof (fetchActor_world _ _ _ _ _ Hf) as ->.
      apply fetchActor_ok_inv in Hf.
      destruct Hf as (res & doc & href & Hfetch & Hok & Hbody & Hhref & Hid & _).
      rewrite (Hdoc _ _ Hfetch Hok Hbody) in Hhref. inversion Hhref; subst href.
      destruct (cache_fetched_inv P X actor w w' r Hid H) as [Hout [Hthrow | Hins]].
      * destruct Hthrow as (e & -> & Hact & _).
        unfold rows_for. rewrite Hact. fold (rows_for X (db w)). rewrite Hrows.
        split; [exact Hout |]. split; [simpl; lia |]. split; [simpl; lia |].
        split; [congruence | intros a Ha; discriminate].
      * destruct Hins as (row & Hact & Hrid & Hm & -> & _).
        assert (Hrows' : rows_for X (db w') = [row]).
        { unfold rows_for. rewrite Hact, filter_app.
          fold (rows_for X (db w)). rewrite Hrows. simpl.
          unfold Actors.has_id. rewrite Hrid, String.eqb_refl. reflexivity. }
        split; [exact Hout |]. split; [rewrite Hrows'; simpl; lia |].
        split; [simpl; lia |]. split; [congruence |].
        intros a Ha. exists row. split; [| exact Ha].
        exists []. split; assumption.
    + subst r. pose proof (fetchActor_world _ _ _ _ _ Hf) as ->.
      rewrite Hrows.
      split; [unfold outside_cache_kept; repeat split; reflexivity |].
      split; [simpl; lia |]. split; [simpl; lia |].
      split; [congruence | intros a Ha; discriminate].
  - (* hit *)
    rewrite (getAndCache_hit P X row rest w Hrows) in H.
    inversion H; subst; clear H.
    split; [apply backfill_outside |].
    split; [rewrite backfill_rows_length, Hrows; simpl; lia |].
    split; [rewrite backfill_rows_length, Hrows; simpl; lia |].
    split.
    + intros _. unfold backfill. destruct (row_mastodon_id row); simpl;
        [reflexivity | apply update_mastodon_id_length].
    + intros a Ha. exists (fst (backfill row w)). split; [| exact Ha].
      eapply backfill_resolved. exact Hrows.
Qed.


End SequentialCalls.

(** The step model of a single task run to completion is getAndCache. *)
Lemma overlap_single_task (P : Platform) (url : string) (w : World) :
  Overlap.run P [0; 0; 0] [Overlap.Lookup url] w =
  ([Overlap.Finished (fst (Actors.getAndCache P url w))],
   snd (Actors.getAndCache P url w)).
Proof.
  unfold Actors.getAndCache, bind. simpl.
  destruct (Actors.getActorById P url w) as [[[a |] | e] w1]; simpl; try reflexivity.
  destruct (Actors.fetchActor P url w1) as [[actor | e] w2]; simpl; try reflexivity.
  destruct (Actors.cache_fetched P actor w2) as [r w3]. reflexivity.
Qed.



(** What two overlapping calls for Alice end with, on an empty cache: with
    a unique identifier column the second call is rejected; without it
    both calls insert. *)
Lemma getAndCache_overlapping_calls_outcome :
  (exists a w',
     Overlap.run (Demo.platform true true true) [0; 1; 0; 1; 0; 1]
       [Overlap.Lookup Demo.alice; Overlap.Lookup Demo.alice] Demo.empty_world =
     ([Overlap.Finished (Ok a);
       Overlap.Finished (Throw (ConstraintError "UNIQUE constraint failed: actors.id"))], w')) /\
  (exists a b w',
     Overlap.run (Demo.platform false true true) [0; 1; 0; 1; 0; 1]
       [Overlap.Lookup Demo.alice; Overlap.Lookup Demo.alice] Demo.empty_world =
     ([Overlap.Finished (Ok a); Overlap.Finished (Ok b)], w') /\
     List.length (rows_for Demo.alice (db w')) = 2).
Proof.
  split.
  - eexists. eexists. vm_compute. reflexivity.
  - eexists. eexists. eexists. split; vm_compute; reflexivity.
Qed.


(** C5: when the lookup misses and the remote fetch answers with a
    non-success status, or the document has no type or no identifier,
    getAndCache raises and the world (actor rows, peers and everything
    else) is exactly what it was. *)
Theorem getAndCache_failure_keeps_cache (P : Platform) (url : string) (w : World) :
  new_URL P "undefined" = None ->
  rows_for url (db w) = [] ->
  resolution_fails P url ->
  exists e, Actors.getAndCache P url w = (Throw e, w).
Proof.
  intros Hlaws Hmiss (res & Hf & Hcase).
  rewrite getAndCache_miss by exact Hmiss.
  destruct Hcase as [Hok | (doc & Hb & Hdoc)].
  - eexists. apply bind_throw. apply (fetchActor_not_ok P url w res Hf Hok).
  - destruct (res_ok res) eqn:Hok.
    + destruct Hdoc as [Htype | Hid].
      * destruct (Actors.fetchActor P url w) as [[actor' | e] w1] eqn:Hfa.
        -- pose proof (fetchActor_world _ _ _ _ _ Hfa) as ->.
           destruct (fetchActor_ok_inv P url w w actor' Hfa)
             as (res' & doc' & href & Hf' & _ & Hb' & _ & _ & Hty & _).
           rewrite Hf in Hf'. inversion Hf'; subst res'.
           rewrite Hb in Hb'. inversion Hb'; subst doc'.
           eexists. unfold bind. rewrite Hfa.
           apply cache_fetched_untyped. rewrite Hty, Htype. reflexivity.
        -- pose proof (fetchActor_world _ _ _ _ _ Hfa) as ->.
           exists e. apply bind_throw. exact Hfa.
      * eexists. apply bind_throw.
        apply (fetchActor_no_id P url w res doc); assumption.
    + eexists. apply bind_throw. apply (fetchActor_not_ok P url w res Hf Hok).
Qed.

Lemma Demo_new_URL_idempotent (unique in_order pushes : bool) :
  new_URL_idempotent (Demo.platform unique in_order pushes).
Proof.
  intros s href H. simpl in *. unfold Demo.parse in *.
  destruct (String.prefix "https://" s) eqn:E; [| discriminate].
  inversion H; subst. rewrite E. reflexivity.
Defined.

(** A document without a type: the resolution is rejected and the world
    is untouched. *)
Lemma getAndCache_failure_keeps_cache_witness :
  exists e,
    Actors.getAndCache (Demo.platform true true true)
      "https://remote.example/users/carol" Demo.world = (Throw e, Demo.world).
Proof.
  apply (getAndCache_failure_keeps_cache (Demo.platform true true true)
           "https://remote.example/users/carol" Demo.world).
  - reflexivity.
  - reflexivity.
  - exists {| res_ok := true; res_status := 200; res_body := Some Demo.untyped_doc |}.
    split; [reflexivity |]. right. exists Demo.untyped_doc.
    split; [reflexivity |]. left. reflexivity.
Defined.

(** ** Sanitisation clamps *)

Lemma clamped_field (limit : nat) (f : string -> string) (v : option string) :
  clamped limit f v
    (if Js.truthy v then option_map (fun s => Actors.clamp limit (f s)) v else v).
Proof.
  unfold clamped, Js.truthy. destruct v as [s |]; [| reflexivity].
  destruct (s =? "")%string; simpl; [reflexivity |].
  exists (Actors.clamp limit (f s)). split; [reflexivity |].
  split; [apply clamp_length |].
  split; [apply clamp_long | apply clamp_short].
Qed.

(** C8: in the document fetchActor returns, the summary is the sanitised
    summary cut to 500 characters, and the name and the preferredUsername
    are the extracted texts cut to 30 characters: a longer text is replaced
    by its first 500 (30) characters, a shorter one is kept. *)
Theorem fetchActor_clamps_fields (P : Platform) (url : string) (w w' : World)
    (actor' : Doc) :
  Actors.fetchActor P url w = (Ok actor', w') ->
  exists res actor,
    fetch P url = Some res /\ res_body res = Some actor /\
    clamped 500 (sanitizeContent P) (doc_summary actor) (doc_summary actor') /\
    clamped 30 (getTextContent P) (doc_name actor) (doc_name actor') /\
    clamped 30 (getTextContent P) (doc_preferredUsername actor)
      (doc_preferredUsername actor').
Proof.
  intros H. apply fetchActor_ok_inv in H.
  destruct H as (res & actor & href & Hf & _ & Hb & _ & _ & _ & Hs & Hn & Hu).
  exists res, actor. rewrite Hs, Hn, Hu.
  repeat split; try assumption; apply clamped_field.
Qed.

(** Dave's document has a 600-character summary and a 40-character
    preferredUsername. *)
Lemma fetchActor_clamps_fields_witness :
  exists actor',
    Actors.fetchActor (Demo.platform true true true)
      "https://remote.example/users/dave" Demo.empty_world = (Ok actor', Demo.empty_world) /\
    exists res actor,
      fetch (Demo.platform true true true) "https://remote.example/users/dave" = Some res /\
      res_body res = Some actor /\
      clamped 500 (fun s => s) (doc_summary actor) (doc_summary actor') /\
      clamped 30 (fun s => s) (doc_name actor) (doc_name actor') /\
      clamped 30 (fun s => s) (doc_preferredUsername actor) (doc_preferredUsername actor').
Proof.
  eexists. split.
  - vm_compute. reflexivity.
  - apply (fetchActor_clamps_fields (Demo.platform true true true)
             "https://remote.example/users/dave" Demo.empty_world Demo.empty_world).
    vm_compute. reflexivity.
Defined.

(** The example of the specification: 600 characters become 500, 40
    become 30. *)
Lemma fetchActor_clamp_example :
  String.length Demo.long_summary = 600 /\
  String.length Demo.long_username = 40 /\
  match Actors.fetchActor (Demo.platform true true true)
          "https://remote.example/users/dave" Demo.empty_world with
  | (Ok actor', _) =>
      option_map String.length (doc_summary actor') = Some 500 /\
      option_map String.length (doc_preferredUsername actor') = Some 30
  | (Throw _, _) => False
  end.
Proof. vm_compute. repeat split; reflexivity. Qed.

(** ** Endpoints of the actors built from rows *)

Lemma getPersonByEmail_from_row (P : Platform) (email : string) (w w' : World) (a : Actor) :
  Actors.getPersonByEmail P email w = (Ok (Some a), w') ->
  exists row, Actors.actorFromRow P row = Ok a.
Proof.
  unfold Actors.getPersonByEmail, Actors.select_actors, bind.
  destruct (filter _ (actors (db w))) as [| row rest]; [intros H; inversion H |].
  rewrite row_with_mastodon_id_eq. unfold lift.
  destruct (Actors.actorFromRow P (fst (backfill row w))) as [a' | e] eqn:E;
    intros H; inversion H; subst.
  exists (fst (backfill row w)). exact E.
Qed.

Lemma getActorById_from_row (P : Platform) (id : string) (w w' : World) (a : Actor) :
  Actors.getActorById P id w = (Ok (Some a), w') ->
  exists row, Actors.actorFromRow P row = Ok a.
Proof.
  rewrite getActorById_eq.
  destruct (rows_for id (db w)) as [| row rest]; [intros H; inversion H |].
  destruct (Actors.actorFromRow P (fst (backfill row w))) as [a' | e] eqn:E;
    intros H; inversion H; subst.
  exists (fst (backfill row w)). exact E.
Qed.

Lemma getAndCache_from_row (P : Platform) (url : string) (w w' : World) (a : Actor) :
  Actors.getAndCache P url w = (Ok a, w') ->
  exists row, Actors.actorFromRow P row = Ok a.
Proof.
  intros H. destruct (rows_for url (db w)) as [| row rest] eqn:Hrows.
  - rewrite getAndCache_miss in H by exact Hrows.
    bind_cases H actor w1 Hf; [| discriminate].
    apply fetchActor_ok_inv in Hf.
    destruct Hf as (_ & _ & href & _ & _ & _ & _ & Hid & _).
    destruct (cache_fetched_inv P href actor w1 w' (Ok a) Hid H)
      as [_ [(e & He & _) | (row & _ & _ & _ & Hr & _)]]; [discriminate |].
    exists row. symmetry. exact Hr.
  - rewrite (getAndCache_hit P url row rest w Hrows) in H.
    inversion H. eexists. reflexivity.
Qed.

(** C10: every actor returned by actorFromRow, getActorById,
    getPersonByEmail or getAndCache is built from a row, its identifier is
    the row's identifier as a URL, and each of its four endpoints is the one
    stored in the row's properties or, when the properties omit it, the
    actor's identifier followed by /inbox, /outbox, /following or
    /followers. *)
Theorem returned_actor_endpoints (P : Platform) (a : Actor) :
  returned P a ->
  exists row,
    Actors.actorFromRow P row = Ok a /\
    new_URL P (row_id row) = Some (actor_id a) /\
    inbox a = match doc_inbox (row_properties row) with
              | Some e => e
              | None => actor_id a +++ "/inbox"
              end /\
    outbox a = match doc_outbox (row_properties row) with
               | Some e => e
               | None => actor_id a +++ "/outbox"
               end /\
    following a = match doc_following (row_properties row) with
                  | Some e => e
                  | None => actor_id a +++ "/following"
                  end /\
    followers a = match doc_followers (row_properties row) with
                  | Some e => e
                  | None => actor_id a +++ "/followers"
                  end.
Proof.
  intros H.
  assert (Hrow : exists row, Actors.actorFromRow P row = Ok a).
  { destruct H as [row H | id w w' H | email w w' H | url w w' H].
    - exists row. exact H.
    - eapply getActorById_from_row. exact H.
    - eapply getPersonByEmail_from_row. exact H.
    - eapply getAndCache_from_row. exact H. }
  destruct Hrow as (row & Hrow). exists row. split; [exact Hrow |].
  apply actorFromRow_inv in Hrow.
  destruct Hrow as (Hid & _ & _ & _ & Hi & Ho & Hfg & Hfs).
  unfold Actors.endpoint in *. repeat split; assumption.
Qed.

(** Alice, resolved for the first time: her document declares no endpoint. *)
Lemma returned_actor_endpoints_witness :
  exists a,
    Actors.getAndCache (Demo.platform true true true) Demo.alice Demo.empty_world =
      (Ok a, snd (Actors.getAndCache (Demo.platform true true true) Demo.alice
                    Demo.empty_world)) /\
    inbox a = Demo.alice +++ "/inbox" /\
    exists row,
      Actors.actorFromRow (Demo.platform true true true) row = Ok a /\
      new_URL (Demo.platform true true true) (row_id row) = Some (actor_id a) /\
      inbox a = match doc_inbox (row_properties row) with
                | Some e => e
                | None => actor_id a +++ "/inbox"
                end /\
      outbox a = match doc_outbox (row_properties row) with
                 | Some e => e
                 | None => actor_id a +++ "/outbox"
                 end /\
      following a = match doc_following (row_properties row) with
                    | Some e => e
                    | None => actor_id a +++ "/following"
                    end /\
      followers a = match doc_followers (row_properties row) with
                    | Some e => e
                    | None => actor_id a +++ "/followers"
                    end.
Proof.
  eexists. split; [vm_compute; reflexivity |]. split; [vm_compute; reflexivity |].
  apply (returned_actor_endpoints (Demo.platform true true true)).
  eapply (@from_getAndCache _ _ Demo.alice Demo.empty_world).
  vm_compute. reflexivity.
Defined.

(** ** handleLikeActivity *)

Section LikeFacts.

Variable P : Platform.

(** The control flow of handleLikeActivity, one case per outcome. *)
Lemma handleLikeActivity_eq (activity : Like.LikeActivity) (w : World) :
  Like.handleLikeActivity P activity w =
  match find (Like.has_object_id (Like.like_object activity)) (objects (db w)) with
  | None => console_warn "unknown object" w
  | Some obj =>
      if negb (Js.truthy (object_originalActorId obj)) then console_warn "unknown object" w
      else
        match Actors.getAndCache P (Like.like_actor activity) w with
        | (Throw e, w1) => (Throw e, w1)
        | (Ok fromActor, w1) =>
            match Actors.URL P (object_originalActorId obj) with
            | Throw e => (Throw e, w1)
            | Ok originalActorId =>
                match Actors.getActorById P originalActorId w1 with
                | (Throw e, w2) => (Throw e, w2)
                | (Ok None, w2) => console_warn "object actor not found" w2
                | (Ok (Some targetActor), w2) =>
                    notify_and_store P fromActor targetActor obj w2
                end
            end
        end
  end.
Proof.
  unfold Like.handleLikeActivity, Like.getAPId, Like.getObjectById.
  unfold bind at 1.
  destruct (find _ (objects (db w))) as [obj |]; [| reflexivity].
  destruct (negb (Js.truthy (object_originalActorId obj))); [reflexivity |].
  unfold bind at 1.
  destruct (Actors.getAndCache P (Like.like_actor activity) w) as [[fromActor | e] w1];
    [| reflexivity].
  unfold bind at 1, lift.
  destruct (Actors.URL P (object_originalActorId obj)) as [tid | e]; [| reflexivity].
  unfold bind at 1.
  destruct (Actors.getActorById P tid w1) as [[[target |] | e] w2]; reflexivity.
Qed.

(** What an applied Like writes. *)
Lemma notify_and_store_spec (fromActor targetActor : Actor) (obj : ApObject) (w : World) :
  exists w' id,
    notify_and_store P fromActor targetActor obj w = (Ok tt, w') /\
    match find (Like.is_notification "favourite" (actor_id targetActor)
                  (actor_id fromActor) (object_id obj)) (actor_notifications (db w)) with
    | Some n =>
        id = notification_id n /\
        actor_notifications (db w') = actor_notifications (db w)
    | None =>
        id = S (List.length (actor_notifications (db w))) /\
        actor_notifications (db w') =
          actor_notifications (db w) ++
          [{| notification_id := id;
              notification_type := "favourite";
              notification_actor_id := actor_id targetActor;
              notification_from_actor_id := actor_id fromActor;
              notification_object_id := object_id obj |}]
    end /\
    actor_favourites (db w') =
      (if existsb (Like.is_like (actor_id fromActor) (object_id obj)) (actor_favourites (db w))
       then actor_favourites (db w)
       else actor_favourites (db w) ++
            [{| favourite_actor_id := actor_id fromActor;
                favourite_object_id := object_id obj |}]) /\
    trace w' = trace w ++ like_effects P id (actor_id fromActor) (object_id obj) /\
    console w' = console w ++
      (if push_delivered P (actor_id targetActor) id
       then [] else ["failed to send push notification"]) /\
    actors (db w') = actors (db w) /\
    objects (db w') = objects (db w) /\
    peers (db w') = peers (db w).
Proof.
  unfold like_effects.
  destruct (find (Like.is_notification "favourite" (actor_id targetActor)
                    (actor_id fromActor) (object_id obj))
              (actor_notifications (db w))) as [n |] eqn:Hfind.
  - exists (snd (notify_and_store P fromActor targetActor obj w)), (notification_id n).
    unfold notify_and_store, Like.Promise_all2, Like.createNotification,
      Like.insertLike, Like.sendLikeNotification, bind, get_db, modify_db, emit, ret,
      console_warn.
    destruct (issue_order P); simpl;
      destruct (existsb (Like.is_like (actor_id fromActor) (object_id obj))
                  (actor_favourites (db w))) eqn:E;
      simpl; rewrite ?Hfind; simpl; rewrite ?E; simpl; rewrite ?Hfind; simpl;
      destruct (push_delivered P (actor_id targetActor) (notification_id n)); simpl;
      rewrite <- ?List.app_assoc, ?List.app_nil_r; simpl; repeat split; reflexivity.
  - exists (snd (notify_and_store P fromActor targetActor obj w)),
      (S (List.length (actor_notifications (db w)))).
    unfold notify_and_store, Like.Promise_all2, Like.createNotification,
      Like.insertLike, Like.sendLikeNotification, bind, get_db, modify_db, emit, ret,
      console_warn.
    destruct (issue_order P); simpl;
      destruct (existsb (Like.is_like (actor_id fromActor) (object_id obj))
                  (actor_favourites (db w))) eqn:E;
      simpl; rewrite ?Hfind; simpl; rewrite ?E; simpl; rewrite ?Hfind; simpl;
      destruct (push_delivered P (actor_id targetActor)
                  (S (List.length (actor_notifications (db w))))); simpl;
      rewrite <- ?List.app_assoc, ?List.app_nil_r; simpl; repeat split; reflexivity.
Qed.

(** The notifications of a tuple after createNotification: the one it
    found, or the one it inserted. *)
Lemma notifications_after_create (type a f o : string) (rows : list NotificationRow) :
  List.length (filter (Like.is_notification type a f o) rows) <= 1 ->
  match find (Like.is_notification type a f o) rows with
  | Some n => filter (Like.is_notification type a f o) rows = [n]
  | None =>
      forall id,
        filter (Like.is_notification type a f o)
          (rows ++ [{| notification_id := id; notification_type := type;
                       notification_actor_id := a; notification_from_actor_id := f;
                       notification_object_id := o |}])
        = [{| notification_id := id; notification_type := type;
              notification_actor_id := a; notification_from_actor_id := f;
              notification_object_id := o |}]
  end.
Proof.
  induction rows as [| x rows IH]; simpl.
  - intros _ id. unfold Like.is_notification. simpl. rewrite !String.eqb_refl. reflexivity.
  - destruct (Like.is_notification type a f o x) eqn:Hx; simpl.
    + intros Hle. destruct (filter _ rows); [reflexivity | simpl in Hle; lia].
    + exact IH.
Qed.

Lemma getAndCache_outside (url : string) (w w' : World) (r : Res Actor) :
  Actors.getAndCache P url w = (r, w') -> outside_cache_kept w w'.
Proof.
  intros H. destruct (rows_for url (db w)) as [| row rest] eqn:Hrows.
  - rewrite getAndCache_miss in H by exact Hrows.
    bind_cases H actor w1 Hf.
    + pose proof (fetchActor_world _ _ _ _ _ Hf) as ->.
      apply fetchActor_ok_inv in Hf.
      destruct Hf as (_ & _ & href & _ & _ & _ & _ & Hid & _).
      apply (cache_fetched_inv P href actor w w' r Hid H).
    + pose proof (fetchActor_world _ _ _ _ _ Hf) as ->.
      unfold outside_cache_kept. repeat split; reflexivity.
  - rewrite (getAndCache_hit P url row rest w Hrows) in H.
    inversion H; subst. apply backfill_outside.
Qed.

Lemma getActorById_outside (id : string) (w w' : World) (r : Res (option Actor)) :
  Actors.getActorById P id w = (r, w') -> outside_cache_kept w w'.
Proof.
  rewrite getActorById_eq. destruct (rows_for id (db w)) as [| row rest].
  - intros H. inversion H; subst. unfold outside_cache_kept. repeat split; reflexivity.
  - intros H. inversion H; subst. apply backfill_outside.
Qed.

Lemma outside_cache_kept_trans (w1 w2 w3 : World) :
  outside_cache_kept w1 w2 -> outside_cache_kept w2 w3 -> outside_cache_kept w1 w3.
Proof.
  unfold outside_cache_kept.
  intros (A1 & A2 & A3 & A4 & A5 & A6 & A7) (B1 & B2 & B3 & B4 & B5 & B6 & B7).
  repeat split; congruence.
Qed.

(** The actor a lookup returns carries the identifier that was looked up. *)
Lemma getActorById_id (s id : string) (w w' : World) (a : Actor) :
  new_URL_idempotent P ->
  new_URL P s = Some id ->
  Actors.getActorById P id w = (Ok (Some a), w') ->
  actor_id a = id.
Proof.
  intros Hlaws Hs. rewrite getActorById_eq.
  destruct (rows_for id (db w)) as [| row rest] eqn:Hrows; [intros H; inversion H |].
  destruct (Actors.actorFromRow P (fst (backfill row w))) as [a' | e] eqn:E;
    intros H; inversion H; subst a'.
  apply actorFromRow_id in E.
  assert (Hid : row_id (fst (backfill row w)) = id).
  { unfold backfill. destruct (row_mastodon_id row); simpl;
      apply (rows_for_head_id id row rest (db w) Hrows). }
  rewrite Hid in E.
  rewrite (Hlaws s id Hs) in E. inversion E. reflexivity.
Qed.

End LikeFacts.

Section LikeOutcomes.

Variable P : Platform.

(** A delivery either writes nothing to the Like and notification tables
    and performs no effect, or it is applied: object, delivering actor and
    original author were resolved and the last part ran. *)
Lemma handleLikeActivity_outcome (activity : Like.LikeActivity) (w w' : World) (r : Res unit) :
  Like.handleLikeActivity P activity w = (r, w') ->
  (actor_notifications (db w') = actor_notifications (db w) /\
   actor_favourites (db w') = actor_favourites (db w) /\
   objects (db w') = objects (db w) /\
   trace w' = trace w) \/
  (exists obj fromActor originalActorId targetActor wa wb,
     find (Like.has_object_id (Like.like_object activity)) (objects (db w)) = Some obj /\
     Js.truthy (object_originalActorId obj) = true /\
     Actors.getAndCache P (Like.like_actor activity) w = (Ok fromActor, wa) /\
     Actors.URL P (object_originalActorId obj) = Ok originalActorId /\
     Actors.getActorById P originalActorId wa = (Ok (Some targetActor), wb) /\
     notify_and_store P fromActor targetActor obj wb = (r, w')).
Proof.
  rewrite handleLikeActivity_eq.
  destruct (find _ (objects (db w))) as [obj |] eqn:Hfind.
  2: { intros H. inversion H; subst. left. simpl. repeat split; reflexivity. }
  destruct (Js.truthy (object_originalActorId obj)) eqn:Htruthy; simpl.
  2: { intros H. inversion H; subst. left. simpl. repeat split; reflexivity. }
  destruct (Actors.getAndCache P (Like.like_actor activity) w) as [[fromActor | e] wa] eqn:Hfrom.
  2: { intros H. inversion H; subst. left.
       destruct (getAndCache_outside P _ _ _ _ Hfrom) as (A1 & A2 & A3 & _ & _ & _ & A7).
       repeat split; assumption. }
  destruct (Actors.URL P (object_originalActorId obj)) as [tid | e] eqn:Hurl.
  2: { intros H. inversion H; subst. left.
       destruct (getAndCache_outside P _ _ _ _ Hfrom) as (A1 & A2 & A3 & _ & _ & _ & A7).
       repeat split; assumption. }
  destruct (Actors.getActorById P tid wa) as [[[target |] | e] wb] eqn:Htarget.
  - intros H. right. exists obj, fromActor, tid, target, wa, wb. repeat split; assumption.
  - intros H. inversion H; subst. left.
    destruct (outside_cache_kept_trans _ _ _ (getAndCache_outside P _ _ _ _ Hfrom)
                (getActorById_outside P _ _ _ _ Htarget)) as (A1 & A2 & A3 & _ & _ & _ & A7).
    simpl. repeat split; assumption.
  - intros H. inversion H; subst. left.
    destruct (outside_cache_kept_trans _ _ _ (getAndCache_outside P _ _ _ _ Hfrom)
                (getActorById_outside P _ _ _ _ Htarget)) as (A1 & A2 & A3 & _ & _ & _ & A7).
    repeat split; assumption.
Qed.

End LikeOutcomes.

(** C4: when the referenced object is not in the object cache, or is
    cached without a known original author, handleLikeActivity returns
    normally, logs the single warning and leaves the database (Like edges,
    notifications and all other tables) and the effect trace unchanged. *)
Theorem handleLikeActivity_unknown_object (P : Platform) (activity : Like.LikeActivity)
    (w : World) :
  (forall obj,
     find (Like.has_object_id (Like.getAPId (Like.like_object activity))) (objects (db w))
       = Some obj ->
     Js.truthy (object_originalActorId obj) = false) ->
  Like.handleLikeActivity P activity w =
  (Ok tt, {| db := db w; console := console w ++ ["unknown object"];
             clock := clock w; trace := trace w |}).
Proof.
  intros H. rewrite handleLikeActivity_eq. unfold Like.getAPId in H.
  destruct (find _ (objects (db w))) as [obj |]; [| reflexivity].
  rewrite (H obj eq_refl). reflexivity.
Qed.

(** A Like of an object the cache does not hold. *)
Lemma handleLikeActivity_unknown_object_witness :
  Like.handleLikeActivity (Demo.platform true true true) Demo.like_unknown Demo.world =
  (Ok tt, {| db := db Demo.world; console := console Demo.world ++ ["unknown object"];
             clock := clock Demo.world; trace := trace Demo.world |}).
Proof.
  apply (handleLikeActivity_unknown_object (Demo.platform true true true)
           Demo.like_unknown Demo.world).
  intros obj H. vm_compute in H. discriminate.
Defined.

(** C3: a Like of a cached object whose delivering actor and original
    author resolve is applied, and the notification it creates is addressed
    to the actor recorded as the object's original author, and so not to
    the actor that relayed the object when the two differ: the notification
    is in the table after the call, it names the delivering actor as origin
    and the object as subject, the push request is made for it, and it is
    the one row the call appends unless the table held it already. *)
Theorem like_notifies_original_author (P : Platform) (activity : Like.LikeActivity)
    (w wa wb : World) (obj : ApObject) (author : string) (fromActor target : Actor) :
  new_URL_idempotent P ->
  find (Like.has_object_id (Like.getAPId (Like.like_object activity))) (objects (db w))
    = Some obj ->
  Js.truthy (object_originalActorId obj) = true ->
  new_URL P (Js.interpolate (object_originalActorId obj)) = Some author ->
  object_deliveredBy obj <> author ->
  Actors.getAndCache P (Like.getAPId (Like.like_actor activity)) w = (Ok fromActor, wa) ->
  Actors.getActorById P author wa = (Ok (Some target), wb) ->
  exists w' n,
    Like.handleLikeActivity P activity w = (Ok tt, w') /\
    In n (actor_notifications (db w')) /\
    notification_type n = "favourite" /\
    notification_actor_id n = author /\
    notification_actor_id n <> object_deliveredBy obj /\
    notification_from_actor_id n = actor_id fromActor /\
    notification_object_id n = object_id obj /\
    In (PushRequested (notification_id n)) (trace w') /\
    (actor_notifications (db w') = actor_notifications (db w) \/
     actor_notifications (db w') = actor_notifications (db w) ++ [n]) /\
    (notifications_of "favourite" author (actor_id fromActor) (object_id obj) (db w) = [] ->
     actor_notifications (db w') = actor_notifications (db w) ++ [n]).
Proof.
  intros Hlaws Hfind Htruthy Hauthor Hrelay Hfrom Htarget. unfold Like.getAPId in *.
  pose proof (getActorById_id P _ _ _ _ _ Hlaws Hauthor Htarget) as Hid.
  destruct (outside_cache_kept_trans _ _ _ (getAndCache_outside P _ _ _ _ Hfrom)
              (getActorById_outside P _ _ _ _ Htarget)) as (_ & _ & A3 & _).
  destruct (notify_and_store_spec P fromActor target obj wb)
    as (w' & id & Hrun & Hnotif & _ & Htrace & _).
  assert (Hhandle : Like.handleLikeActivity P activity w = (Ok tt, w')).
  { rewrite handleLikeActivity_eq, Hfind, Htruthy. simpl. rewrite Hfrom.
    unfold Actors.URL. rewrite Hauthor, Htarget. exact Hrun. }
  assert (Hpush : In (PushRequested id) (trace w')).
  { rewrite Htrace. apply in_or_app. right. unfold like_effects.
    apply in_or_app. right. left. reflexivity. }
  rewrite Hid, A3 in Hnotif. unfold notifications_of.
  destruct (find (Like.is_notification "favourite" author (actor_id fromActor)
                    (object_id obj)) (actor_notifications (db w))) as [n |] eqn:Hf.
  - destruct Hnotif as (Hn & Hkept). subst id.
    pose proof (find_some _ _ Hf) as (Hin & Hmatch).
    unfold Like.is_notification in Hmatch.
    apply andb_prop in Hmatch. destruct Hmatch as (Hmatch & Ho).
    apply andb_prop in Hmatch. destruct Hmatch as (Hmatch & Hfr).
    apply andb_prop in Hmatch. destruct Hmatch as (Hty & Hto).
    apply String.eqb_eq in Ho, Hfr, Hty, Hto.
    exists w', n. split; [exact Hhandle |]. split; [rewrite Hkept; exact Hin |].
    split; [exact Hty |]. split; [exact Hto |]. split; [congruence |].
    split; [exact Hfr |]. split; [exact Ho |]. split; [exact Hpush |].
    split; [left; exact Hkept |].
    intros Hnone. exfalso.
    assert (Hin' : In n (filter (Like.is_notification "favourite" author
                                   (actor_id fromActor) (object_id obj))
                           (actor_notifications (db w)))).
    { apply filter_In. split; [exact Hin |]. unfold Like.is_notification.
      rewrite Hty, Hto, Hfr, Ho, !String.eqb_refl. reflexivity. }
    rewrite Hnone in Hin'. destruct Hin'.
  - destruct Hnotif as (Hn & Happ). subst id.
    eexists w', _. split; [exact Hhandle |].
    split; [rewrite Happ; apply in_or_app; right; left; reflexivity |].
    simpl. split; [reflexivity |]. split; [reflexivity |]. split; [congruence |].
    split; [reflexivity |]. split; [reflexivity |]. split; [exact Hpush |].
    split; [right; exact Happ | intros _; exact Happ].
Qed.

(** Alice likes Bob's note, which a relay delivered: the notification goes
    to Bob. *)
Lemma like_notifies_original_author_witness :
  exists fromActor wa target wb,
    Actors.getAndCache (Demo.platform true true true) Demo.alice Demo.world
      = (Ok fromActor, wa) /\
    Actors.getActorById (Demo.platform true true true) Demo.bob wa
      = (Ok (Some target), wb) /\
    actor_id fromActor = Demo.alice /\
    exists w' n,
      Like.handleLikeActivity (Demo.platform true true true) Demo.like Demo.world
        = (Ok tt, w') /\
      In n (actor_notifications (db w')) /\
      notification_type n = "favourite" /\
      notification_actor_id n = Demo.bob /\
      notification_actor_id n <> object_deliveredBy Demo.bob_note /\
      notification_from_actor_id n = actor_id fromActor /\
      notification_object_id n = object_id Demo.bob_note /\
      In (PushRequested (notification_id n)) (trace w') /\
      (actor_notifications (db w') = actor_notifications (db Demo.world) \/
       actor_notifications (db w') = actor_notifications (db Demo.world) ++ [n]) /\
      (notifications_of "favourite" Demo.bob (actor_id fromActor)
         (object_id Demo.bob_note) (db Demo.world) = [] ->
       actor_notifications (db w') = actor_notifications (db Demo.world) ++ [n]).
Proof.
  eexists. eexists. eexists. eexists.
  split; [vm_compute; reflexivity |]. split; [vm_compute; reflexivity |].
  split; [reflexivity |].
  eapply (like_notifies_original_author (Demo.platform true true true) Demo.like Demo.world
            _ _ Demo.bob_note Demo.bob).
  - apply Demo_new_URL_idempotent.
  - reflexivity.
  - reflexivity.
  - reflexivity.
  - simpl. unfold Demo.relay, Demo.bob. discriminate.
  - vm_compute. reflexivity.
  - vm_compute. reflexivity.
Defined.

(** In that run one notification is created, and its recipient is Bob. *)
Lemma like_notifies_original_author_example :
  map notification_actor_id
    (actor_notifications
       (db (snd (Like.handleLikeActivity (Demo.platform true true true) Demo.like Demo.world))))
  = [Demo.bob].
Proof. vm_compute. reflexivity. Qed.

(** ** Order of the effects of a Like *)

(** C6 (as stated) fails: createNotification is started before insertLike
    and the two are only joined by Promise.all; with statements performed in
    the order they are issued, the notification row is created before the
    Like edge is stored. *)
Lemma like_notification_before_edge :
  ~ edge_before_notification
      (trace (snd (Like.handleLikeActivity (Demo.platform true true true)
                     Demo.like Demo.world))).
Proof.
  intros H.
  assert (Ht : trace (snd (Like.handleLikeActivity (Demo.platform true true true)
                             Demo.like Demo.world)) =
               [] ++ NotificationCreated 1 ::
                 [LikeStored Demo.alice Demo.note; PushRequested 1])
    by (vm_compute; reflexivity).
  destruct (H [] 1 _ Ht) as (a & o & []).
Qed.

(** C6 (as amended): a Like either performs no effect, or it performs
    exactly three: the creation of the notification row and the storing of
    the Like edge, in the order the storage engine takes the two statements
    issued together, and after both of them the push request. *)
Theorem like_writes_precede_push (P : Platform) (activity : Like.LikeActivity) (w : World) :
  trace (snd (Like.handleLikeActivity P activity w)) = trace w \/
  exists id actorId objectId,
    trace (snd (Like.handleLikeActivity P activity w)) =
    trace w ++
    (if issue_order P
     then [NotificationCreated id; LikeStored actorId objectId]
     else [LikeStored actorId objectId; NotificationCreated id])
    ++ [PushRequested id].
Proof.
  destruct (Like.handleLikeActivity P activity w) as [r w'] eqn:H. simpl.
  destruct (handleLikeActivity_outcome P activity w w' r H)
    as [(_ & _ & _ & Ht) | (obj & fromActor & tid & target & wa & wb & _ & _ & Hfrom & _ & Htarget & Hrun)].
  - left. exact Ht.
  - right.
    destruct (notify_and_store_spec P fromActor target obj wb)
      as (w2 & nid & Hrun' & _ & _ & Htrace & _).
    rewrite Hrun in Hrun'. inversion Hrun'; subst w2.
    destruct (outside_cache_kept_trans _ _ _ (getAndCache_outside P _ _ _ _ Hfrom)
                (getActorById_outside P _ _ _ _ Htarget)) as (_ & _ & A3 & _ & _ & _ & A7).
    rewrite Htrace, A7. unfold like_effects.
    eexists. eexists. eexists. reflexivity.
Qed.

(** C7: when the push request of an applied Like fails, handleLikeActivity
    still returns normally, the notification row is in the table, and the
    failure is logged. *)
Theorem like_push_failure_not_raised (P : Platform) (activity : Like.LikeActivity)
    (w w' : World) (r : Res unit) (id : nat) :
  Like.handleLikeActivity P activity w = (r, w') ->
  In (PushRequested id) (trace w') ->
  ~ In (PushRequested id) (trace w) ->
  (forall recipient, push_delivered P recipient id = false) ->
  r = Ok tt /\
  (exists n, In n (actor_notifications (db w')) /\ notification_id n = id) /\
  In "failed to send push notification" (console w').
Proof.
  intros H Hin Hnotin Hfail.
  destruct (handleLikeActivity_outcome P activity w w' r H)
    as [(_ & _ & _ & Ht) | (obj & fromActor & tid & target & wa & wb & _ & _ & Hfrom & _ & Htarget & Hrun)].
  - rewrite Ht in Hin. contradiction.
  - destruct (notify_and_store_spec P fromActor target obj wb)
      as (w2 & nid & Hrun' & Hnotif & _ & Htrace & Hconsole & _).
    rewrite Hrun in Hrun'. inversion Hrun'; subst w2 r.
    destruct (outside_cache_kept_trans _ _ _ (getAndCache_outside P _ _ _ _ Hfrom)
                (getActorById_outside P _ _ _ _ Htarget)) as (_ & _ & A3 & _ & _ & _ & A7).
    rewrite Htrace, A7 in Hin. apply in_app_or in Hin.
    destruct Hin as [Hin | Hin]; [contradiction |].
    assert (Hid : id = nid).
    { unfold like_effects in Hin. destruct (issue_order P); simpl in Hin;
        destruct Hin as [Hin | [Hin | [Hin | []]]]; try discriminate;
        inversion Hin; reflexivity. }
    subst nid.
    split; [reflexivity |]. split.
    + destruct (find _ (actor_notifications (db wb))) as [n |] eqn:Hf.
      * destruct Hnotif as (Hn & Hkept). exists n.
        split; [rewrite Hkept; apply (find_some _ _ Hf) | symmetry; exact Hn].
      * destruct Hnotif as (Hn & Happ). eexists.
        split; [rewrite Happ; apply in_or_app; right; left; reflexivity | reflexivity].
    + rewrite Hconsole, (Hfail (actor_id target)).
      apply in_or_app. right. left. reflexivity.
Qed.

(** Alice's Like with a push transport that fails. *)
Lemma like_push_failure_not_raised_witness :
  fst (Like.handleLikeActivity (Demo.platform true true false) Demo.like Demo.world) = Ok tt /\
  (exists n,
     In n (actor_notifications
             (db (snd (Like.handleLikeActivity (Demo.platform true true false)
                         Demo.like Demo.world)))) /\
     notification_id n = 1) /\
  In "failed to send push notification"
     (console (snd (Like.handleLikeActivity (Demo.platform true true false)
                      Demo.like Demo.world))).
Proof.
  apply (like_push_failure_not_raised (Demo.platform true true false) Demo.like Demo.world
           (snd (Like.handleLikeActivity (Demo.platform true true false) Demo.like Demo.world))
           (fst (Like.handleLikeActivity (Demo.platform true true false) Demo.like Demo.world))
           1).
  - apply surjective_pairing.
  - vm_compute. right. right. left. reflexivity.
  - simpl. intros [].
  - intros recipient. reflexivity.
Defined.

(** ** Redelivery of a Like *)

Lemma existsb_filter_nil {A : Type} (f : A -> bool) (l : list A) :
  existsb f l = false <-> filter f l = [].
Proof.
  induction l as [| x l IH]; simpl; [tauto |].
  destruct (f x); simpl; [split; discriminate | exact IH].
Qed.

(** The Like edges of the pair after insertLike: one if there was none,
    the same as before otherwise. *)
Lemma likes_after_insert (a o : string) (favs : list FavouriteRow) :
  List.length (filter (Like.is_like a o) favs) <= 1 ->
  List.length (filter (Like.is_like a o)
     (if existsb (Like.is_like a o) favs then favs
      else favs ++ [{| favourite_actor_id := a; favourite_object_id := o |}])) = 1 /\
  existsb (Like.is_like a o)
     (if existsb (Like.is_like a o) favs then favs
      else favs ++ [{| favourite_actor_id := a; favourite_object_id := o |}]) = true.
Proof.
  intros Hle. destruct (existsb (Like.is_like a o) favs) eqn:E.
  - split; [| exact E].
    destruct (filter (Like.is_like a o) favs) as [| x [| y l]] eqn:F; simpl in *; try lia.
    apply existsb_filter_nil in F. congruence.
  - pose proof E as F. apply existsb_filter_nil in F.
    rewrite filter_app, existsb_app, F, E. simpl.
    unfold Like.is_like. simpl. rewrite !String.eqb_refl. simpl. split; reflexivity.
Qed.

Lemma find_filter {A : Type} (f : A -> bool) (l : list A) :
  find f l = match filter f l with x :: _ => Some x | [] => None end.
Proof.
  induction l as [| x l IH]; simpl; [reflexivity |].
  destruct (f x); [reflexivity | exact IH].
Qed.

(** C2: a Like whose delivering actor and target object both resolve is
    applied, and delivering it a second time is applied again without
    inserting anything: the Like and notification tables stay as the first
    delivery left them, with exactly one Like edge for the (actor, object)
    pair and exactly one notification of that Like for the object's
    author. *)
Theorem like_redelivery (P : Platform) (activity : Like.LikeActivity) (w wa wb : World)
    (obj : ApObject) (author : string) (fromActor target : Actor) :
  new_URL_idempotent P ->
  canonical P (Like.like_actor activity) ->
  find (Like.has_object_id (Like.getAPId (Like.like_object activity))) (objects (db w))
    = Some obj ->
  Js.truthy (object_originalActorId obj) = true ->
  new_URL P (Js.interpolate (object_originalActorId obj)) = Some author ->
  Actors.getAndCache P (Like.getAPId (Like.like_actor activity)) w = (Ok fromActor, wa) ->
  Actors.getActorById P author wa = (Ok (Some target), wb) ->
  List.length (likes_of (Like.like_actor activity) (Like.like_object activity) (db w)) <= 1 ->
  List.length (notifications_of "favourite" author (Like.like_actor activity)
                 (Like.like_object activity) (db w)) <= 1 ->
  exists w1 w2 n,
    Like.handleLikeActivity P activity w = (Ok tt, w1) /\
    Like.handleLikeActivity P activity w1 = (Ok tt, w2) /\
    actor_favourites (db w2) = actor_favourites (db w1) /\
    actor_notifications (db w2) = actor_notifications (db w1) /\
    List.length (likes_of (Like.like_actor activity) (Like.like_object activity) (db w2)) = 1 /\
    notifications_of "favourite" author (Like.like_actor activity)
      (Like.like_object activity) (db w2) = [n].
Proof.
  intros Hlaws Hcan Hfind Htruthy Hauthor Hfrom Htarget Hle Hnle.
  unfold Like.getAPId in *.
  (* the first delivery *)
  destruct (getAndCache_step P _ w wa (Ok fromActor) Hcan Hfrom)
    as (Hout1 & _ & _ & _ & Hres).
  destruct (Hres fromActor eq_refl) as (row & Hrow & Hact).
  pose proof (getActorById_outside P _ _ _ _ Htarget) as Hout2.
  pose proof (getActorById_id P _ _ _ _ _ Hlaws Hauthor Htarget) as Htarget_id.
  destruct (notify_and_store_spec P fromActor target obj wb)
    as (w1 & id1 & Hrun & Hnotif & Hfav & _ & _ & Hactors & Hobjects & _).
  assert (Hurl : Actors.URL P (object_originalActorId obj) = Ok author)
    by (unfold Actors.URL; rewrite Hauthor; reflexivity).
  assert (Hfirst : Like.handleLikeActivity P activity w = (Ok tt, w1)).
  { rewrite handleLikeActivity_eq, Hfind, Htruthy. simpl.
    rewrite Hfrom, Hurl, Htarget. exact Hrun. }
  (* the identifiers of the edge *)
  assert (Hfrom_id : actor_id fromActor = Like.like_actor activity).
  { apply actorFromRow_id in Hact. destruct Hrow as (rest & Hrows & _).
    rewrite (rows_for_head_id _ _ _ _ Hrows) in Hact.
    destruct Hcan as [HX _]. rewrite HX in Hact. inversion Hact. reflexivity. }
  assert (Hobj_id : object_id obj = Like.like_object activity).
  { apply find_some in Hfind. destruct Hfind as [_ Hfind].
    unfold Like.has_object_id in Hfind. apply String.eqb_eq. exact Hfind. }
  (* the rows found by the two lookups are resolved after the first delivery *)
  pose proof Htarget as Htarget'.
  rewrite getActorById_eq in Htarget'.
  destruct (rows_for author (db wa)) as [| other rest] eqn:Hother; [inversion Htarget' |].
  assert (Hwb : wb = snd (backfill other wa)) by (inversion Htarget'; reflexivity).
  assert (Htarget_row : Actors.actorFromRow P (fst (backfill other wa)) = Ok target).
  { destruct (Actors.actorFromRow P (fst (backfill other wa))); inversion Htarget'; reflexivity. }
  assert (Hrow1 : resolved (Like.like_actor activity) row w1).
  { apply (resolved_rows _ _ wb); [| unfold rows_for; rewrite Hactors; reflexivity].
    rewrite Hwb. apply (resolved_backfill _ _ _ _ author _ Hrow Hother). }
  assert (Hother1 : resolved author (fst (backfill other wa)) w1).
  { apply (resolved_rows _ _ wb); [| unfold rows_for; rewrite Hactors; reflexivity].
    rewrite Hwb. apply (backfill_resolved _ _ _ _ Hother). }
  assert (Hobjects1 : objects (db w1) = objects (db w)).
  { destruct Hout1 as (A1 & _). destruct Hout2 as (B1 & _). congruence. }
  (* the tables before the first delivery's writes *)
  assert (Hlikes_wb : List.length
            (filter (Like.is_like (actor_id fromActor) (object_id obj))
               (actor_favourites (db wb))) <= 1).
  { destruct Hout1 as (_ & A2 & _). destruct Hout2 as (_ & B2 & _).
    rewrite B2, A2, Hfrom_id, Hobj_id. exact Hle. }
  assert (Hnotifs_wb : List.length
            (filter (Like.is_notification "favourite" (actor_id target)
                       (actor_id fromActor) (object_id obj))
               (actor_notifications (db wb))) <= 1).
  { destruct Hout1 as (_ & _ & A3 & _). destruct Hout2 as (_ & _ & B3 & _).
    rewrite B3, A3, Htarget_id, Hfrom_id, Hobj_id. exact Hnle. }
  destruct (likes_after_insert _ _ _ Hlikes_wb) as (Hone & Hexists).
  rewrite <- Hfav in Hone, Hexists.
  (* after the first delivery the notification of the tuple is there, once *)
  assert (Hn1 : exists n,
            filter (Like.is_notification "favourite" (actor_id target)
                      (actor_id fromActor) (object_id obj))
              (actor_notifications (db w1)) = [n]).
  { pose proof (notifications_after_create _ _ _ _ _ Hnotifs_wb) as Hcreate.
    destruct (find _ (actor_notifications (db wb))) as [n |].
    - destruct Hnotif as (_ & Hkept). exists n. rewrite Hkept. exact Hcreate.
    - destruct Hnotif as (_ & Happ). eexists. rewrite Happ. apply Hcreate. }
  destruct Hn1 as (n & Hn1).
  (* the second delivery *)
  destruct (notify_and_store_spec P fromActor target obj w1)
    as (w2 & id2 & Hrun2 & Hnotif2 & Hfav2 & _).
  rewrite find_filter, Hn1 in Hnotif2. destruct Hnotif2 as (_ & Hkept2).
  rewrite Hexists in Hfav2.
  exists w1, w2, n.
  split; [exact Hfirst |].
  split.
  { rewrite handleLikeActivity_eq, Hobjects1, Hfind, Htruthy. simpl.
    rewrite (getAndCache_resolved P _ row w1 Hrow1), Hact, Hurl.
    rewrite (getActorById_resolved P author _ w1 Hother1), Htarget_row.
    exact Hrun2. }
  split; [exact Hfav2 |]. split; [exact Hkept2 |].
  split.
  { unfold likes_of. rewrite Hfav2, <- Hfrom_id, <- Hobj_id. exact Hone. }
  unfold notifications_of. rewrite Hkept2, <- Htarget_id, <- Hfrom_id, <- Hobj_id.
  exact Hn1.
Qed.

(** The first delivery of Alice's Like, then the same Like again. *)
Lemma like_redelivery_witness :
  exists w1 w2 n,
    Like.handleLikeActivity (Demo.platform true true true) Demo.like Demo.world
      = (Ok tt, w1) /\
    Like.handleLikeActivity (Demo.platform true true true) Demo.like w1 = (Ok tt, w2) /\
    actor_favourites (db w2) = actor_favourites (db w1) /\
    actor_notifications (db w2) = actor_notifications (db w1) /\
    List.length (likes_of Demo.alice Demo.note (db w2)) = 1 /\
    notifications_of "favourite" Demo.bob Demo.alice Demo.note (db w2) = [n].
Proof.
  eapply (like_redelivery (Demo.platform true true true) Demo.like Demo.world
            _ _ Demo.bob_note Demo.bob).
  - apply Demo_new_URL_idempotent.
  - split; [reflexivity |].
    intros res doc Hf Hok Hb. vm_compute in Hf. inversion Hf; subst res.
    simpl in Hb. inversion Hb; subst doc. reflexivity.
  - reflexivity.
  - reflexivity.
  - reflexivity.
  - vm_compute. reflexivity.
  - vm_compute. reflexivity.
  - simpl. lia.
  - simpl. lia.
Defined.

(** After the two deliveries there is one Like edge and one notification,
    addressed to Bob. *)
Lemma like_redelivery_example :
  let w1 := snd (Like.handleLikeActivity (Demo.platform true true true) Demo.like Demo.world) in
  let w2 := snd (Like.handleLikeActivity (Demo.platform true true true) Demo.like w1) in
  List.length (likes_of Demo.alice Demo.note (db w2)) = 1 /\
  map notification_actor_id (actor_notifications (db w1)) = [Demo.bob] /\
  map notification_actor_id (actor_notifications (db w2)) = [Demo.bob].
Proof. vm_compute. repeat split; reflexivity. Qed.

(** ** Page sizes *)

Lemma for_each_length {A B : Type} (f : A -> M B) (xs : list A) (w w' : World) (ys : list B) :
  for_each f xs w = (Ok ys, w') -> List.length ys = List.length xs.
Proof.
  revert w w' ys. induction xs as [| x xs IH]; intros w w' ys H; simpl in H.
  - inversion H. reflexivity.
  - bind_cases H y w1 Hy; [| discriminate].
    bind_cases H ys' w2 Hys; [| discriminate].
    inversion H; subst. simpl. f_equal. eapply IH. exact Hys.
Qed.

Lemma sql_limit_offset_length {A : Type} (limit offset : Z) (rows : list A) :
  (0 <= limit)%Z ->
  List.length (sql_limit_offset limit offset rows) <= Z.to_nat limit.
Proof.
  intros H. unfold sql_limit_offset.
  destruct (Z.ltb_spec limit 0); [lia |]. apply firstn_le_length.
Qed.

Lemma abs_or_positive (n : option Z) (d : Z) : (0 < d)%Z -> (0 < Js.abs_or n d)%Z.
Proof.
  intros Hd. unfold Js.abs_or. destruct n as [v |]; [| exact Hd].
  destruct (Z.eqb_spec (Z.abs v) 0); lia.
Qed.

(** *** Number.parseInt reads back the decimal form of a number up to 2^53 *)

Lemma digits_string_of_uint (d : Decimal.uint) (a : nat) :
  Js.digits 10 (NilEmpty.string_of_uint d) (Some (Z.of_nat a)) =
  Some (Z.of_nat (Nat.of_uint_acc d a)).
Proof.
  revert a.
  induction d as [| d IH | d IH | d IH | d IH | d IH | d IH | d IH | d IH | d IH | d IH];
    intros a; [reflexivity | ..];
    cbn [NilEmpty.string_of_uint Js.digits Nat.of_uint_acc];
    match goal with
    | |- context [Js.digit_value 10 ?c] =>
        let v := eval vm_compute in (Js.digit_value 10 c) in
        change (Js.digit_value 10 c) with v
    end;
    cbv iota beta; rewrite <- IH; f_equal; f_equal;
    rewrite Nat.tail_mul_spec; lia.
Qed.

Lemma to_uint_not_Nil (n : nat) : Nat.to_uint n <> Decimal.Nil.
Proof.
  rewrite <- (Unsigned.of_to n) at 1. rewrite Unsigned.to_of.
  unfold Decimal.unorm. destruct (Decimal.nzhead (Nat.to_uint n)); discriminate.
Qed.

Lemma parseInt_mathInt_string_of_uint (d : Decimal.uint) :
  d <> Decimal.Nil ->
  Js.parseInt_mathInt (NilEmpty.string_of_uint d) = Some (Z.of_nat (Nat.of_uint d)).
Proof.
  intros Hd. unfold Nat.of_uint.
  destruct d as [| d | d | d | d | d | d | d | d | d | d]; [contradiction | ..];
    destruct d as [| d | d | d | d | d | d | d | d | d | d];
    try reflexivity;
    unfold Js.parseInt_mathInt;
    cbn [NilEmpty.string_of_uint Js.skip_whitespace];
    (match goal with
     | |- context [Js.is_whitespace ?c] =>
         let v := eval vm_compute in (Js.is_whitespace c) in
         change (Js.is_whitespace c) with v
     end);
    cbv iota beta;
    cbn [Js.digits];
    repeat (match goal with
            | |- context [Js.digit_value 10 ?c] =>
                let v := eval vm_compute in (Js.digit_value 10 c) in
                change (Js.digit_value 10 c) with v
            end);
    cbv iota beta;
    cbn [Nat.of_uint_acc];
    rewrite <- digits_string_of_uint;
    match goal with
    | |- match Js.digits 10 ?s (Some ?z) with _ => _ end =
         Js.digits 10 ?s (Some (Z.of_nat ?k)) =>
        replace z with (Z.of_nat k) by (rewrite ?Nat.tail_mul_spec; lia);
        destruct (Js.digits 10 s (Some (Z.of_nat k))); reflexivity
    end.
Qed.

Lemma parseInt_mathInt_string_of_nat (n : nat) :
  Js.parseInt_mathInt (Js.string_of_nat n) = Some (Z.of_nat n).
Proof.
  unfold Js.string_of_nat.
  rewrite parseInt_mathInt_string_of_uint by apply to_uint_not_Nil.
  rewrite Unsigned.of_to. reflexivity.
Qed.

(** An integer of magnitude up to 2^53 is a Number as it is. *)
Lemma to_double_safe (z : Z) : (Z.abs z <= 2 ^ 53)%Z -> Js.to_double z = z.
Proof.
  intros Hz. unfold Js.to_double.
  destruct (Z.leb_spec (Z.log2 (Z.abs z) - 52) 0) as [_ | Hbig]; [reflexivity |].
  assert (Hpos : (0 < Z.abs z)%Z).
  { destruct (Z.eq_dec (Z.abs z) 0) as [E |]; [rewrite E in Hbig; simpl in Hbig|]; lia. }
  pose proof (Z.log2_spec _ Hpos) as [Hlow _].
  assert (Hpow : (2 ^ 53 <= 2 ^ Z.log2 (Z.abs z))%Z) by (apply Z.pow_le_mono_r; lia).
  assert (Hcase : z = (2 ^ 53)%Z \/ z = (- 2 ^ 53)%Z) by lia.
  destruct Hcase as [-> | ->]; vm_compute; reflexivity.
Qed.

Lemma parseInt_string_of_nat (n : nat) :
  (Z.of_nat n <= 2 ^ 53)%Z ->
  Js.parseInt (Js.string_of_nat n) = Some (Z.of_nat n).
Proof.
  intros Hn. unfold Js.parseInt. rewrite parseInt_mathInt_string_of_nat. simpl.
  rewrite to_double_safe by lia. reflexivity.
Qed.

(** Beyond 2^53 the Number read is not always the integer written:
    9007199254740993 reads as 9007199254740992. *)
Lemma parseInt_rounds :
  Js.parseInt "9007199254740993" = Some 9007199254740992%Z /\
  Js.parseInt "9007199254740995" = Some 9007199254740996%Z /\
  Js.parseInt "9007199254740992" = Some 9007199254740992%Z.
Proof. vm_compute. repeat split; reflexivity. Qed.


Section PageSizes.

Variable P : Platform.

(** The types and functions of the repository the two endpoints use and
    that are not among the sources. *)
Variable MastodonAccount : Type.
Variable loadLocalMastodonAccount : Actor -> M MastodonAccount.
Variable loadExternalMastodonAccount : Actor -> Handle -> M MastodonAccount.
Variable actorToHandle : Actor -> Handle.
Variable isLocalAccount : string -> Handle -> bool.
Variable getActorByMastodonId : string -> M (option Actor).
Variable getFollowers : Actor -> Z -> M (list string).
Variable loadActors : list string -> M (list Actor).
Variable parseHandle : string -> Handle.
Variable adjustLocalHostDomain : string -> string.
Variable MastodonStatus : Type.
Variable toMastodonStatusFromRow : string -> Statuses.StatusRow -> M (option MastodonStatus).
Variable toMastodonStatusFromObject : ApObject -> string -> M (option MastodonStatus).
Variable queryAcctLink : string -> string -> M (option string).
Variable outbox_get : Actor -> Z -> M (list Statuses.Activity).
Variable cacheObject : string -> ApObject -> string -> string -> M (option ApObject).
Variable objects_get : string -> M ApObject.
Variable loadExternalAccount : string -> Actor -> M MastodonAccount.

(** C9 (as amended): the followers endpoint validates the page size and
    does not clamp it: absent it is 40, an integer from 1 to 80 is used as
    it is (it is the limit getFollowerIds is asked with, and the response has
    one account for each identifier that call returns), and any other
    value, a larger one included, makes the request fail with
    'failed to read params'.  The statuses endpoint takes the absolute value
    of the parsed limit, or 20 when it is absent, zero or not a number, and
    has no maximum: a positive page size up to 2^53 is used as it is, and
    for a remote account it is the page size the outbox is fetched with. *)
Theorem page_size_validated_not_clamped (id : string) (frequest : Followers.Request)
    (srequest : Statuses.Request) (w : World) :
  Followers.onRequestGet P loadLocalMastodonAccount loadExternalMastodonAccount
    actorToHandle isLocalAccount getActorByMastodonId
    getFollowers loadActors (Some id) frequest w =
    match Followers.request_limit frequest with
    | Followers.Absent =>
        Followers.handleRequest P loadLocalMastodonAccount loadExternalMastodonAccount
          actorToHandle isLocalAccount getActorByMastodonId
          getFollowers loadActors (Followers.request_hostname frequest) id 40%Z w
    | Followers.Integer z =>
        if (1 <=? z)%Z && (z <=? 80)%Z then
          Followers.handleRequest P loadLocalMastodonAccount loadExternalMastodonAccount
            actorToHandle isLocalAccount getActorByMastodonId
            getFollowers loadActors (Followers.request_hostname frequest) id z w
        else (Throw (Error "failed to read params"), w)
    | Followers.Invalid => (Throw (Error "failed to read params"), w)
    end /\
  (forall domain actor limit accounts w',
     isLocalAccount domain (actorToHandle actor) = true ->
     Followers.get P loadLocalMastodonAccount loadExternalMastodonAccount
       actorToHandle isLocalAccount getFollowers loadActors domain actor limit w
       = (Ok (Followers.JsonResponse accounts), w') ->
     exists ids,
       fst (Followers.getFollowerIds actor (Some limit) w) = Ok ids /\
       List.length accounts = List.length ids) /\
  Statuses.request_limit srequest =
    match Js.parseInt (match Statuses.searchParams_get srequest "limit" with
                       | Some s => s
                       | None => "0"
                       end) with
    | Some n => if (n =? 0)%Z then 20%Z else Z.abs n
    | None => 20%Z
    end /\
  (forall n,
     0 < n -> (Z.of_nat n <= 2 ^ 53)%Z ->
     Statuses.searchParams_get srequest "limit" = Some (Js.string_of_nat n) ->
     Statuses.request_limit srequest = Z.of_nat n) /\
  (forall domain,
     handle_domain (parseHandle id) = Some domain ->
     domain <> Statuses.request_hostname srequest ->
     Statuses.handleRequest P parseHandle adjustLocalHostDomain toMastodonStatusFromRow
       toMastodonStatusFromObject queryAcctLink outbox_get cacheObject objects_get
       loadExternalAccount srequest id w =
     Statuses.getRemoteStatuses P toMastodonStatusFromObject queryAcctLink outbox_get
       cacheObject objects_get loadExternalAccount srequest
       (handle_localPart (parseHandle id)) domain (Statuses.request_limit srequest) w) /\
  (forall localPart domain limit link actor w1 w2,
     Statuses.searchParams_get srequest "pinned" <> Some "true" ->
     queryAcctLink domain (localPart +++ "@" +++ domain) w = (Ok (Some link), w1) ->
     Actors.getAndCache P link w1 = (Ok actor, w2) ->
     Statuses.getRemoteStatuses P toMastodonStatusFromObject queryAcctLink outbox_get
       cacheObject objects_get loadExternalAccount srequest localPart domain limit w =
     (activities <- outbox_get actor limit ;;
      loadExternalAccount (localPart +++ "@" +++ domain) actor ;;;
      statuses <- for_each
                    (Statuses.status_of_activity toMastodonStatusFromObject cacheObject
                       objects_get (Statuses.request_hostname srequest)) activities ;;
      ret (Statuses.Json
             (flat_map (fun s => match s with Some x => [x] | None => [] end) statuses)))
       w2).
Proof.
  split; [| split; [| split; [| split; [| split]]]].
  - unfold Followers.onRequestGet, Followers.readParams, Followers.schema.
    destruct (Followers.request_limit frequest) as [| z |]; try reflexivity.
    destruct ((1 <=? z)%Z && (z <=? 80)%Z); reflexivity.
  - intros domain actor limit accounts w' Hlocal. unfold Followers.get. rewrite Hlocal.
    intros H. bind_cases H ids w1 Hids; [| discriminate].
    bind_cases H promises w2 Hp; [| discriminate].
    bind_cases H accounts' w3 Ha; [| discriminate].
    inversion H; subst. exists ids. split; [rewrite Hids; reflexivity |].
    unfold Followers.Promise_all in Ha.
    rewrite (for_each_length _ _ _ _ _ Ha), (for_each_length _ _ _ _ _ Hp). reflexivity.
  - unfold Statuses.request_limit, Js.abs_or, Statuses.DEFAULT_LIMIT.
    destruct (Js.parseInt _) as [n |]; [| reflexivity].
    destruct (Z.eqb_spec (Z.abs n) 0), (Z.eqb_spec n 0); try reflexivity; lia.
  - intros n Hn Hsafe Hparam. unfold Statuses.request_limit, Js.abs_or.
    rewrite Hparam, parseInt_string_of_nat by exact Hsafe.
    destruct (Z.eqb_spec (Z.abs (Z.of_nat n)) 0); lia.
  - intros domain Hdomain Hremote. unfold Statuses.handleRequest. rewrite Hdomain.
    destruct (String.eqb_spec domain (Statuses.request_hostname srequest));
      [contradiction | reflexivity].
  - intros localPart domain limit link actor w1 w2 Hpinned Hlink Hactor.
    unfold Statuses.getRemoteStatuses.
    assert (Hp : match Statuses.searchParams_get srequest "pinned" with
                 | Some v => (v =? "true")%string
                 | None => false
                 end = false).
    { destruct (Statuses.searchParams_get srequest "pinned") as [v |]; [| reflexivity].
      destruct (String.eqb_spec v "true"); [subst; congruence | reflexivity]. }
    rewrite Hp. unfold bind at 1. rewrite Hlink.
    unfold bind at 1. rewrite Hactor. reflexivity.
Qed.

End PageSizes.

(** C9 (as stated) fails: a followers request with page size 100 is not
    served with 80 accounts, it is rejected. *)
Lemma followers_page_size_100_rejected :
  Demo.followers_onRequestGet (Followers.Integer 100) Demo.world =
  (Throw (Error "failed to read params"), Demo.world).
Proof. reflexivity. Qed.

(** On the statuses endpoint a page size of 81 is used as it is: the
    outbox of a remote account is fetched with it, and when that outbox
    holds as many activities as it is asked for, 81 statuses are served. *)
Lemma statuses_page_size_81_served :
  Statuses.request_limit (Demo.statuses_request "81") = 81%Z /\
  match fst (Cases.remote_statuses_handleRequest [("limit", "81")] Demo.world) with
  | Ok (Statuses.Json items) => List.length items = 81
  | _ => False
  end.
Proof. vm_compute. split; reflexivity. Qed.

(* ================================================================== *)
(** * Further properties of the code *)

(** ** Lookups in the actor cache *)

Lemma update_mastodon_id_columns (m : MastodonId) (id : string) (rows : list ActorRow) :
  map (Actors.with_mastodon_id None) (Actors.update_mastodon_id m id rows) =
  map (Actors.with_mastodon_id None) rows.
Proof.
  unfold Actors.update_mastodon_id. rewrite map_map. apply map_ext.
  intros r. destruct (row_id r =? id)%string; reflexivity.
Qed.

(** X1: a lookup by identifier is a repair that needs doing once: whatever
    getActorById returned, calling it again on the resulting world returns
    the same result and changes nothing; an actor that was found carries a
    sequential identifier, and so does its row in the table. *)
Theorem getActorById_repeat (P : Platform) (id : string) (w w1 : World)
    (r : Res (option Actor)) :
  Actors.getActorById P id w = (r, w1) ->
  Actors.getActorById P id w1 = (r, w1) /\
  (forall a, r = Ok (Some a) ->
     actor_mastodonId a <> None /\
     exists row rest,
       rows_for id (db w1) = row :: rest /\
       row_mastodon_id row = actor_mastodonId a).
Proof.
  rewrite getActorById_eq.
  destruct (rows_for id (db w)) as [| row rest] eqn:Hrows.
  - intros H. inversion H; subst. split.
    + rewrite getActorById_eq, Hrows. reflexivity.
    + intros a Ha. discriminate.
  - intros H. inversion H; subst; clear H.
    pose proof (backfill_resolved id row rest w Hrows) as Hres.
    split.
    + apply (getActorById_resolved P id _ _ Hres).
    + intros a Ha.
      destruct (Actors.actorFromRow P (fst (backfill row w))) as [a' | e] eqn:E;
        inversion Ha; subst a'.
      apply actorFromRow_inv in E. destruct E as (_ & _ & Hm & _).
      destruct Hres as (rest' & Hrows' & Hsome).
      split; [rewrite Hm; exact Hsome |].
      exists (fst (backfill row w)), rest'. split; [exact Hrows' | symmetry; exact Hm].
Qed.

(** Carol's row has no sequential identifier before the first lookup. *)
Lemma getActorById_repeat_witness :
  Actors.getActorById (Cases.platform true) Cases.carol
    (snd (Actors.getActorById (Cases.platform true) Cases.carol Cases.legacy_world)) =
  (fst (Actors.getActorById (Cases.platform true) Cases.carol Cases.legacy_world),
   snd (Actors.getActorById (Cases.platform true) Cases.carol Cases.legacy_world)) /\
  (forall a,
     fst (Actors.getActorById (Cases.platform true) Cases.carol Cases.legacy_world)
       = Ok (Some a) ->
     actor_mastodonId a <> None /\
     exists row rest,
       rows_for Cases.carol
         (db (snd (Actors.getActorById (Cases.platform true) Cases.carol Cases.legacy_world)))
         = row :: rest /\
       row_mastodon_id row = actor_mastodonId a).
Proof.
  apply (getActorById_repeat (Cases.platform true) Cases.carol Cases.legacy_world).
  apply surjective_pairing.
Defined.

(** X2: a lookup never inserts, deletes or re-keys a row and writes no
    column but [mastodon_id]; it leaves the objects, Like, notification,
    follow, outbox and peer tables, the console, the clock and the trace as
    they were.  The identifier sequence advances by one exactly when the
    row found had no sequential identifier, and stays as it was otherwise;
    a lookup that finds nothing changes nothing at all. *)
Theorem getActorById_only_backfills (P : Platform) (id : string) (w : World) :
  map (Actors.with_mastodon_id None)
      (actors (db (snd (Actors.getActorById P id w)))) =
    map (Actors.with_mastodon_id None) (actors (db w)) /\
  outside_cache_kept w (snd (Actors.getActorById P id w)) /\
  peers (db (snd (Actors.getActorById P id w))) = peers (db w) /\
  clock (snd (Actors.getActorById P id w)) = clock w /\
  id_sequences (db (snd (Actors.getActorById P id w))) =
    match rows_for id (db w) with
    | row :: _ =>
        if Js.defined (row_mastodon_id row) then id_sequences (db w)
        else S (id_sequences (db w))
    | [] => id_sequences (db w)
    end /\
  (fst (Actors.getActorById P id w) = Ok None -> snd (Actors.getActorById P id w) = w).
Proof.
  rewrite getActorById_eq.
  destruct (rows_for id (db w)) as [| row rest] eqn:Hrows; simpl.
  - repeat split.
  - destruct (backfill_outside row w) as (Hout & Hpeers & Hclock).
    split; [| split; [exact Hout | split; [exact Hpeers | split; [exact Hclock | split]]]].
    + unfold backfill. destruct (row_mastodon_id row); simpl; [reflexivity |].
      apply update_mastodon_id_columns.
    + unfold backfill. destruct (row_mastodon_id row); reflexivity.
    + destruct (Actors.actorFromRow P (fst (backfill row w))); discriminate.
Qed.

(** Carol's row has no sequential identifier: looking her up uses the next
    value of the sequence; looking Bob up uses none. *)
Lemma getActorById_only_backfills_example :
  id_sequences (db Cases.legacy_world) = 1 /\
  id_sequences (db (snd (Actors.getActorById (Cases.platform true) Cases.carol
                           Cases.legacy_world))) = 2 /\
  id_sequences (db (snd (Actors.getActorById (Cases.platform true) Demo.bob
                           Cases.legacy_world))) = 1.
Proof. vm_compute. repeat split; reflexivity. Qed.

(** ** First resolution of a remote actor *)

Section FirstResolution.

Variable P : Platform.

(** The row getAndCache inserts for a fetched document. *)
Lemma cache_fetched_inserts (id : string) (actor : Doc) (w : World) :
  doc_id actor = Some id ->
  Js.truthy (doc_type actor) = true ->
  actors_id_unique P && existsb (Actors.has_id id) (actors (db w)) = false ->
  exists w',
    Actors.cache_fetched P actor w =
      (Actors.actorFromRow P
         {| row_id := id; row_type := Js.interpolate (doc_type actor); row_email := None;
            row_pubkey := None; row_cdate := clock w; row_properties := actor;
            row_is_admin := None;
            row_mastodon_id := Some (clock w, id_sequences (db w));
            row_original_actor_id := None |}, w') /\
    actors (db w') =
      actors (db w) ++
      [{| row_id := id; row_type := Js.interpolate (doc_type actor); row_email := None;
          row_pubkey := None; row_cdate := clock w; row_properties := actor;
          row_is_admin := None;
          row_mastodon_id := Some (clock w, id_sequences (db w));
          row_original_actor_id := None |}] /\
    In (URL_host P id) (peers (db w')) /\
    incl (peers (db w)) (peers (db w')) /\
    clock w' = S (clock w) /\
    id_sequences (db w') = S (id_sequences (db w)).
Proof.
  intros Hid Htype Hfree. unfold Actors.cache_fetched. rewrite Hid, Htype. simpl.
  unfold bind, Date_now, Actors.generateMastodonId, Actors.insert_actor. simpl.
  rewrite Hfree. unfold Actors.addPeer, modify_db, lift. simpl.
  eexists. split; [reflexivity |]. simpl.
  destruct (existsb (String.eqb (URL_host P id)) (peers (db w))) eqn:E; simpl.
  - repeat split; try reflexivity.
    + apply existsb_exists in E. destruct E as (x & Hin & Hx).
      apply String.eqb_eq in Hx. subst x. exact Hin.
    + apply incl_refl.
  - repeat split; try reflexivity.
    + apply in_or_app. right. left. reflexivity.
    + apply incl_appl. apply incl_refl.
Qed.

(** The INSERT of getAndCache rejected by the storage engine. *)
Lemma cache_fetched_conflict (id : string) (actor : Doc) (w : World) :
  doc_id actor = Some id ->
  Js.truthy (doc_type actor) = true ->
  actors_id_unique P && existsb (Actors.has_id id) (actors (db w)) = true ->
  exists w',
    Actors.cache_fetched P actor w =
      (Throw (ConstraintError "UNIQUE constraint failed: actors.id"), w') /\
    actors (db w') = actors (db w) /\
    peers (db w') = peers (db w) /\
    outside_cache_kept w w'.
Proof.
  intros Hid Htype Hc. unfold Actors.cache_fetched. rewrite Hid, Htype. simpl.
  unfold bind, Date_now, Actors.generateMastodonId, Actors.insert_actor. simpl.
  rewrite Hc. eexists. split; [reflexivity |]. simpl.
  unfold outside_cache_kept. simpl. repeat split; reflexivity.
Qed.

(** What fetchActor returns does not depend on the world. *)
Lemma fetchActor_any_world (url : string) (w w0 : World) :
  Actors.fetchActor P url w = (fst (Actors.fetchActor P url w0), w).
Proof.
  unfold Actors.fetchActor.
  destruct (fetch P url) as [res |]; [| reflexivity].
  destruct (res_ok res); simpl; [| reflexivity].
  destruct (res_body res) as [actor |]; [| reflexivity].
  unfold bind, lift.
  destruct (Actors.URL P (doc_id actor)); [| reflexivity].
  destruct (Actors.URL_if_defined P (doc_inbox actor)); [| reflexivity].
  destruct (Actors.URL_if_defined P (doc_following actor)); [| reflexivity].
  destruct (Actors.URL_if_defined P (doc_followers actor)); [| reflexivity].
  destruct (Actors.URL_if_defined P (doc_outbox actor)); reflexivity.
Qed.

(** A successful resolution that had to fetch: the document that was
    fetched and the identifier it declares. *)
Lemma getAndCache_miss_inv (url : string) (w w' : World) (a : Actor) :
  rows_for url (db w) = [] ->
  Actors.getAndCache P url w = (Ok a, w') ->
  exists actor id,
    Actors.fetchActor P url w = (Ok actor, w) /\
    doc_id actor = Some id /\
    Js.truthy (doc_type actor) = true /\
    actors_id_unique P && existsb (Actors.has_id id) (actors (db w)) = false /\
    Actors.cache_fetched P actor w = (Ok a, w').
Proof.
  intros Hmiss H. rewrite getAndCache_miss in H by exact Hmiss.
  bind_cases H actor w1 Hf; [| discriminate].
  pose proof (fetchActor_world _ _ _ _ _ Hf) as ->.
  destruct (fetchActor_ok_inv P url w w actor Hf)
    as (_ & _ & id & _ & _ & _ & _ & Hid & _).
  exists actor, id. split; [exact Hf |]. split; [exact Hid |].
  destruct (Js.truthy (doc_type actor)) eqn:Htype.
  2: { rewrite cache_fetched_untyped in H by exact Htype. discriminate. }
  split; [reflexivity |].
  destruct (actors_id_unique P && existsb (Actors.has_id id) (actors (db w))) eqn:Hc.
  - destruct (cache_fetched_conflict id actor w Hid Htype Hc) as (w2 & Hcf & _).
    rewrite Hcf in H. discriminate.
  - split; [reflexivity | exact H].
Qed.

End FirstResolution.

(** X3: when getAndCache has to fetch and succeeds, the table gains exactly
    one row, appended after the others: it is keyed by the identifier the
    fetched document declares (not by the address that was asked for),
    holds the sanitised document as its properties, has no e-mail, no
    public key and no admin flag, is dated with the clock and numbered with
    the next sequence number; the host of that identifier is a known peer
    afterwards and no peer is forgotten. *)
Theorem getAndCache_miss_stores_document (P : Platform) (url : string) (w w' : World)
    (a : Actor) :
  rows_for url (db w) = [] ->
  Actors.getAndCache P url w = (Ok a, w') ->
  exists actor id,
    Actors.fetchActor P url w = (Ok actor, w) /\
    doc_id actor = Some id /\
    actors (db w') =
      actors (db w) ++
      [{| row_id := id; row_type := Js.interpolate (doc_type actor); row_email := None;
          row_pubkey := None; row_cdate := clock w; row_properties := actor;
          row_is_admin := None;
          row_mastodon_id := Some (clock w, id_sequences (db w));
          row_original_actor_id := None |}] /\
    In (URL_host P id) (peers (db w')) /\
    incl (peers (db w)) (peers (db w')).
Proof.
  intros Hmiss H.
  destruct (getAndCache_miss_inv P url w w' a Hmiss H)
    as (actor & id & Hf & Hid & Htype & Hfree & Hcf).
  destruct (cache_fetched_inserts P id actor w Hid Htype Hfree)
    as (w2 & Hcf' & Hact & Hpeer & Hincl & _).
  rewrite Hcf in Hcf'. inversion Hcf'; subst w2.
  exists actor, id. repeat split; assumption.
Qed.

(** Alice is resolved for the first time. *)
Lemma getAndCache_miss_stores_document_witness :
  exists actor id,
    Actors.fetchActor (Demo.platform true true true) Demo.alice Demo.world
      = (Ok actor, Demo.world) /\
    doc_id actor = Some id /\
    actors (db (snd (Actors.getAndCache (Demo.platform true true true) Demo.alice Demo.world))) =
      actors (db Demo.world) ++
      [{| row_id := id; row_type := Js.interpolate (doc_type actor); row_email := None;
          row_pubkey := None; row_cdate := clock Demo.world; row_properties := actor;
          row_is_admin := None;
          row_mastodon_id := Some (clock Demo.world, id_sequences (db Demo.world));
          row_original_actor_id := None |}] /\
    In (URL_host (Demo.platform true true true) id)
       (peers (db (snd (Actors.getAndCache (Demo.platform true true true) Demo.alice
                          Demo.world)))) /\
    incl (peers (db Demo.world))
         (peers (db (snd (Actors.getAndCache (Demo.platform true true true) Demo.alice
                            Demo.world)))).
Proof.
  eapply (getAndCache_miss_stores_document (Demo.platform true true true) Demo.alice
            Demo.world).
  - reflexivity.
  - vm_compute. reflexivity.
Defined.

(** X4: the cache is filled under the identifier the document declares
    and looked up under the address asked for.  When the two differ, a
    second resolution of the same address is not served from the cache: it
    fetches again and its INSERT meets the row of the first one, so that,
    with a unique identifier column, the second call is rejected and the
    table stays as the first call left it. *)
Theorem getAndCache_other_address_not_cached (P : Platform) (url : string)
    (w w1 : World) (a : Actor) (actor : Doc) :
  actors_id_unique P = true ->
  rows_for url (db w) = [] ->
  Actors.fetchActor P url w = (Ok actor, w) ->
  doc_id actor <> Some url ->
  Actors.getAndCache P url w = (Ok a, w1) ->
  exists w2,
    Actors.getAndCache P url w1 =
      (Throw (ConstraintError "UNIQUE constraint failed: actors.id"), w2) /\
    actors (db w2) = actors (db w1) /\
    peers (db w2) = peers (db w1).
Proof.
  intros Hunique Hmiss Hf Hother H.
  destruct (getAndCache_miss_inv P url w w1 a Hmiss H)
    as (actor' & id & Hf' & Hid & Htype & Hfree & Hcf).
  rewrite Hf in Hf'. inversion Hf'; subst actor'. clear Hf'.
  destruct (cache_fetched_inserts P id actor w Hid Htype Hfree)
    as (w1' & Hcf' & Hact & _).
  rewrite Hcf in Hcf'. inversion Hcf'; subst w1'. clear Hcf'.
  assert (Hne : id <> url) by congruence.
  assert (Hmiss1 : rows_for url (db w1) = []).
  { unfold rows_for. rewrite Hact, filter_app. fold (rows_for url (db w)).
    rewrite Hmiss. simpl. unfold Actors.has_id. simpl.
    destruct (String.eqb_spec id url); [contradiction | reflexivity]. }
  assert (Hc : actors_id_unique P && existsb (Actors.has_id id) (actors (db w1)) = true).
  { rewrite Hunique. simpl. apply existsb_exists. eexists. split.
    - rewrite Hact. apply in_or_app. right. left. reflexivity.
    - unfold Actors.has_id. simpl. apply String.eqb_refl. }
  destruct (cache_fetched_conflict P id actor w1 Hid Htype Hc) as (w2 & Hcf2 & Hact2 & Hp2 & _).
  exists w2. split; [| split; assumption].
  rewrite getAndCache_miss by exact Hmiss1. unfold bind.
  rewrite (fetchActor_any_world P url w1 w), Hf. simpl. exact Hcf2.
Qed.

(** Erin's server answers under a second address with the document that
    declares her first address. *)
Lemma getAndCache_other_address_not_cached_witness :
  exists w2,
    Actors.getAndCache (Cases.platform true) Cases.erin_alias
      (snd (Actors.getAndCache (Cases.platform true) Cases.erin_alias Demo.world)) =
      (Throw (ConstraintError "UNIQUE constraint failed: actors.id"), w2) /\
    actors (db w2) =
      actors (db (snd (Actors.getAndCache (Cases.platform true) Cases.erin_alias Demo.world))) /\
    peers (db w2) =
      peers (db (snd (Actors.getAndCache (Cases.platform true) Cases.erin_alias Demo.world))).
Proof.
  eapply (getAndCache_other_address_not_cached (Cases.platform true) Cases.erin_alias
            Demo.world).
  - reflexivity.
  - reflexivity.
  - vm_compute. reflexivity.
  - vm_compute. discriminate.
  - vm_compute. reflexivity.
Defined.

(** ** The actor built from a row *)

Lemma actorFromRow_fields (P : Platform) (row : ActorRow) (a : Actor) :
  Actors.actorFromRow P row = Ok a ->
  actor_name a = Js.nullish (doc_name (row_properties row))
                   (doc_preferredUsername (row_properties row)) /\
  actor_preferredUsername a = doc_preferredUsername (row_properties row) /\
  actor_summary a = doc_summary (row_properties row) /\
  actor_alsoKnownAs a = doc_alsoKnownAs (row_properties row) /\
  actor_discoverable a = true /\
  actor_publicKey a =
    match row_pubkey row with
    | Some pem => Some {| publicKey_id := row_id row +++ "#main-key"; publicKeyPem := pem |}
    | None => None
    end /\
  actor_isAdmin a = match row_is_admin row with Some 1%Z => true | _ => false end.
Proof.
  unfold Actors.actorFromRow. intros H.
  apply res_bind_inv in H. destruct H as (icon & _ & H).
  apply res_bind_inv in H. destruct H as (image & _ & H).
  apply res_bind_inv in H. destruct H as (id & Hid & H).
  apply res_bind_inv in H. destruct H as (dom & Hdom & H).
  apply res_bind_inv in H. destruct H as (url & Hurl & H).
  inversion H; subst; clear H. simpl. repeat split.
Qed.

(** X5: the actor getAndCache returns for a freshly fetched document has
    no public key and is not an administrator; its type and summary are
    the document's, its identifier is the document's identifier, it is
    published at the time of the call and it carries the sequence number
    the call allocated. *)
Theorem getAndCache_fresh_actor (P : Platform) (url : string) (w w' : World) (a : Actor) :
  rows_for url (db w) = [] ->
  Actors.getAndCache P url w = (Ok a, w') ->
  actor_publicKey a = None /\
  actor_isAdmin a = false /\
  actor_published a = clock w /\
  actor_mastodonId a = Some (clock w, id_sequences (db w)) /\
  exists actor id,
    Actors.fetchActor P url w = (Ok actor, w) /\
    doc_type actor = Some (actor_type a) /\
    doc_id actor = Some id /\
    new_URL P id = Some (actor_id a) /\
    actor_summary a = doc_summary actor.
Proof.
  intros Hmiss H.
  destruct (getAndCache_miss_inv P url w w' a Hmiss H)
    as (actor & id & Hf & Hid & Htype & Hfree & Hcf).
  destruct (cache_fetched_inserts P id actor w Hid Htype Hfree) as (w2 & Hcf' & _).
  rewrite Hcf in Hcf'. inversion Hcf' as [[Hrow Hw]]. symmetry in Hrow.
  pose proof (actorFromRow_fields P _ a Hrow) as (_ & _ & Hsum & _ & _ & Hkey & Hadm).
  pose proof (actorFromRow_inv P _ a Hrow) as (Haid & Hty & Hm & Hpub & _).
  simpl in *.
  repeat split; try assumption.
  exists actor, id. split; [exact Hf |].
  split; [| split; [exact Hid | split; [exact Haid | exact Hsum]]].
  rewrite Hty. unfold Js.truthy in Htype.
  destruct (doc_type actor); [reflexivity | discriminate].
Qed.

(** Alice's first resolution. *)
Lemma getAndCache_fresh_actor_witness :
  exists a,
    Actors.getAndCache (Demo.platform true true true) Demo.alice Demo.world =
      (Ok a, snd (Actors.getAndCache (Demo.platform true true true) Demo.alice Demo.world)) /\
    actor_publicKey a = None /\
    actor_isAdmin a = false /\
    actor_published a = clock Demo.world /\
    actor_mastodonId a = Some (clock Demo.world, id_sequences (db Demo.world)) /\
    exists actor id,
      Actors.fetchActor (Demo.platform true true true) Demo.alice Demo.world
        = (Ok actor, Demo.world) /\
      doc_type actor = Some (actor_type a) /\
      doc_id actor = Some id /\
      new_URL (Demo.platform true true true) id = Some (actor_id a) /\
      actor_summary a = doc_summary actor.
Proof.
  eexists. split; [vm_compute; reflexivity |].
  eapply (getAndCache_fresh_actor (Demo.platform true true true) Demo.alice Demo.world).
  - reflexivity.
  - vm_compute. reflexivity.
Defined.

(** X6: insert, then look up.  With a unique identifier column and
    idempotent URL parsing, the actor getAndCache returns for an address in
    serialised form is the one getActorById finds under that actor's
    identifier right afterwards, and that lookup changes nothing. *)
Theorem getAndCache_then_getActorById (P : Platform) (url : string) (w w' : World)
    (a : Actor) :
  new_URL_idempotent P ->
  new_URL P url = Some url ->
  actors_id_unique P = true ->
  Actors.getAndCache P url w = (Ok a, w') ->
  Actors.getActorById P (actor_id a) w' = (Ok (Some a), w').
Proof.
  intros Hidem Hurl Hunique H.
  destruct (rows_for url (db w)) as [| row rest] eqn:Hrows.
  - destruct (getAndCache_miss_inv P url w w' a Hrows H)
      as (actor & id & Hf & Hid & Htype & Hfree & Hcf).
    destruct (cache_fetched_inserts P id actor w Hid Htype Hfree)
      as (w2 & Hcf' & Hact & _).
    rewrite Hcf in Hcf'. inversion Hcf' as [[Hrow Hw]]. subst w2. symmetry in Hrow.
    destruct (fetchActor_ok_inv P url w w actor Hf)
      as (_ & doc & href & _ & _ & _ & Hhref & Hid' & _).
    rewrite Hid in Hid'. inversion Hid'; subst href.
    pose proof (actorFromRow_id P _ a Hrow) as Haid. simpl in Haid.
    rewrite (Hidem _ _ Hhref) in Haid. inversion Haid as [Heq].
    rewrite Hunique in Hfree. simpl in Hfree. apply existsb_filter_nil in Hfree.
    rewrite <- Heq.
    match type of Hrow with
    | Actors.actorFromRow _ ?row = _ => assert (Hres : resolved id row w')
    end.
    { exists []. split; [| simpl; congruence].
      unfold rows_for. rewrite Hact, filter_app, Hfree. simpl.
      unfold Actors.has_id. simpl. rewrite String.eqb_refl. reflexivity. }
    rewrite (getActorById_resolved P id _ w' Hres), Hrow. reflexivity.
  - rewrite (getAndCache_hit P url row rest w Hrows) in H.
    inversion H as [[Hrow Hw]].
    pose proof (actorFromRow_id P _ a Hrow) as Haid.
    assert (Hrid : row_id (fst (backfill row w)) = url).
    { unfold backfill. destruct (row_mastodon_id row); simpl;
        apply (rows_for_head_id url row rest (db w) Hrows). }
    rewrite Hrid, Hurl in Haid. inversion Haid as [Heq].
    rewrite <- Heq.
    rewrite (getActorById_resolved P url (fst (backfill row w)) _
               (backfill_resolved url row rest w Hrows)).
    rewrite Hrow. reflexivity.
Qed.

(** Alice, fetched and then looked up. *)
Lemma getAndCache_then_getActorById_witness :
  exists a,
    Actors.getAndCache (Demo.platform true true true) Demo.alice Demo.world =
      (Ok a, snd (Actors.getAndCache (Demo.platform true true true) Demo.alice Demo.world)) /\
    Actors.getActorById (Demo.platform true true true) (actor_id a)
      (snd (Actors.getAndCache (Demo.platform true true true) Demo.alice Demo.world)) =
    (Ok (Some a),
     snd (Actors.getAndCache (Demo.platform true true true) Demo.alice Demo.world)).
Proof.
  eexists. split; [vm_compute; reflexivity |].
  apply (getAndCache_then_getActorById (Demo.platform true true true) Demo.alice Demo.world).
  - apply Demo_new_URL_idempotent.
  - reflexivity.
  - reflexivity.
  - vm_compute. reflexivity.
Defined.

(** ** The fetched document *)

Lemma URL_if_defined_inv (P : Platform) (v r : option string) :
  Actors.URL_if_defined P v = Ok r ->
  match v with
  | Some s => exists href, new_URL P s = Some href /\ r = Some href
  | None => r = None
  end.
Proof.
  unfold Actors.URL_if_defined. destruct v as [s |]; simpl.
  - unfold Actors.URL. simpl. destruct (new_URL P s) as [href |]; simpl; intros H;
      inversion H. exists href. auto.
  - intros H. inversion H. reflexivity.
Qed.

Lemma fetchActor_endpoints_inv (P : Platform) (url : string) (w w' : World) (actor' : Doc) :
  Actors.fetchActor P url w = (Ok actor', w') ->
  exists res actor,
    fetch P url = Some res /\ res_body res = Some actor /\
    Actors.URL P (doc_id actor) = Ok (Js.interpolate (doc_id actor')) /\
    doc_id actor' <> None /\
    Actors.URL_if_defined P (doc_inbox actor) = Ok (doc_inbox actor') /\
    Actors.URL_if_defined P (doc_outbox actor) = Ok (doc_outbox actor') /\
    Actors.URL_if_defined P (doc_following actor) = Ok (doc_following actor') /\
    Actors.URL_if_defined P (doc_followers actor) = Ok (doc_followers actor') /\
    doc_icon actor' = doc_icon actor /\
    doc_image actor' = doc_image actor /\
    doc_alsoKnownAs actor' = doc_alsoKnownAs actor.
Proof.
  unfold Actors.fetchActor.
  destruct (fetch P url) as [res |]; [| intros H; inversion H].
  destruct (res_ok res) eqn:Hok; simpl; [| intros H; inversion H].
  destruct (res_body res) as [actor |] eqn:Hbody; [| intros H; inversion H].
  intros H.
  apply bind_lift_inv in H. destruct H as [(id & Hid & H) | (? & _ & ? & _)]; [| discriminate].
  apply bind_lift_inv in H. destruct H as [(i & Hi & H) | (? & _ & ? & _)]; [| discriminate].
  apply bind_lift_inv in H. destruct H as [(fg & Hfg & H) | (? & _ & ? & _)]; [| discriminate].
  apply bind_lift_inv in H. destruct H as [(fs & Hfs & H) | (? & _ & ? & _)]; [| discriminate].
  apply bind_lift_inv in H. destruct H as [(o & Ho & H) | (? & _ & ? & _)]; [| discriminate].
  inversion H; subst; clear H. simpl.
  exists res, actor. repeat split; try assumption. discriminate.
Qed.

(** X7: every address in the document fetchActor returns is in serialised
    form (it parses to itself): the identifier, which is always there, and
    each of inbox, outbox, following and followers that the remote document
    has; an endpoint the remote document omits stays omitted; the world is
    not touched. *)
Theorem fetchActor_addresses_serialised (P : Platform) (url : string) (w w' : World)
    (actor' : Doc) :
  new_URL_idempotent P ->
  Actors.fetchActor P url w = (Ok actor', w') ->
  w' = w /\
  (exists id, doc_id actor' = Some id /\ new_URL P id = Some id) /\
  (forall e, doc_inbox actor' = Some e -> new_URL P e = Some e) /\
  (forall e, doc_outbox actor' = Some e -> new_URL P e = Some e) /\
  (forall e, doc_following actor' = Some e -> new_URL P e = Some e) /\
  (forall e, doc_followers actor' = Some e -> new_URL P e = Some e) /\
  exists res actor,
    fetch P url = Some res /\ res_body res = Some actor /\
    (doc_inbox actor = None <-> doc_inbox actor' = None) /\
    (doc_outbox actor = None <-> doc_outbox actor' = None) /\
    (doc_following actor = None <-> doc_following actor' = None) /\
    (doc_followers actor = None <-> doc_followers actor' = None).
Proof.
  intros Hidem H.
  pose proof (fetchActor_world P _ _ _ _ H) as Hw.
  destruct (fetchActor_endpoints_inv P url w w' actor' H)
    as (res & actor & Hf & Hb & Hid & Hsome & Hi & Ho & Hfg & Hfs & _).
  assert (Hend : forall v r, Actors.URL_if_defined P v = Ok r ->
            (forall e, r = Some e -> new_URL P e = Some e) /\ (v = None <-> r = None)).
  { intros v r Hr. apply URL_if_defined_inv in Hr. destruct v as [s |].
    - destruct Hr as (href & Hs & ->). split.
      + intros e He. inversion He; subst e. apply (Hidem _ _ Hs).
      + split; discriminate.
    - subst r. split; [discriminate | tauto]. }
  split; [exact Hw |]. split.
  - destruct (doc_id actor') as [id |]; [| congruence].
    exists id. split; [reflexivity |]. apply URL_inv in Hid. simpl in Hid.
    apply (Hidem _ _ Hid).
  - destruct (Hend _ _ Hi) as [Hi1 Hi2]. destruct (Hend _ _ Ho) as [Ho1 Ho2].
    destruct (Hend _ _ Hfg) as [Hfg1 Hfg2]. destruct (Hend _ _ Hfs) as [Hfs1 Hfs2].
    repeat split; try assumption.
    exists res, actor. repeat split; try assumption; tauto.
Qed.

(** Erin's document has an inbox and no other endpoint. *)
Lemma fetchActor_addresses_serialised_witness :
  exists actor',
    Actors.fetchActor (Cases.platform true) Cases.erin Demo.world = (Ok actor', Demo.world) /\
    doc_inbox actor' = Some "https://remote.example/users/erin/inbox" /\
    (exists id, doc_id actor' = Some id /\ new_URL (Cases.platform true) id = Some id) /\
    (forall e, doc_inbox actor' = Some e -> new_URL (Cases.platform true) e = Some e).
Proof.
  eexists. split; [vm_compute; reflexivity |]. split; [reflexivity |].
  destruct (fetchActor_addresses_serialised (Cases.platform true) Cases.erin Demo.world
              Demo.world _ (Demo_new_URL_idempotent true true true) eq_refl)
    as (_ & Hid & Hinbox & _).
  split; [exact Hid | exact Hinbox].
Defined.

(** ** What the actors built from rows look like *)

Lemma returned_from_row (P : Platform) (a : Actor) :
  returned P a -> exists row, Actors.actorFromRow P row = Ok a.
Proof.
  intros [row H | id w w' H | email w w' H | url w w' H].
  - exists row. exact H.
  - eapply getActorById_from_row. exact H.
  - eapply getPersonByEmail_from_row. exact H.
  - eapply getAndCache_from_row. exact H.
Qed.

(** X8: for every actor returned by actorFromRow, getActorById,
    getPersonByEmail or getAndCache there is a row such that: the display
    name is the stored name or, without one, the preferredUsername; the
    public key is present exactly when the row has a [pubkey], and is then
    named by the row's identifier followed by #main-key; the actor is an
    administrator exactly when [is_admin] is 1; it is always discoverable;
    and its type, creation time and sequential identifier are the row's. *)
Theorem returned_actor_identity (P : Platform) (a : Actor) :
  returned P a ->
  exists row,
    Actors.actorFromRow P row = Ok a /\
    actor_name a = match doc_name (row_properties row) with
                   | Some n => Some n
                   | None => doc_preferredUsername (row_properties row)
                   end /\
    (actor_publicKey a = None <-> row_pubkey row = None) /\
    (forall pem, row_pubkey row = Some pem ->
       actor_publicKey a =
         Some {| publicKey_id := row_id row +++ "#main-key"; publicKeyPem := pem |}) /\
    (actor_isAdmin a = true <-> row_is_admin row = Some 1%Z) /\
    actor_discoverable a = true /\
    actor_type a = row_type row /\
    actor_published a = row_cdate row /\
    actor_mastodonId a = row_mastodon_id row.
Proof.
  intros H. destruct (returned_from_row P a H) as (row & Hrow).
  exists row. split; [exact Hrow |].
  pose proof (actorFromRow_fields P row a Hrow) as (Hname & _ & _ & _ & Hdisc & Hkey & Hadm).
  pose proof (actorFromRow_inv P row a Hrow) as (_ & Hty & Hm & Hpub & _).
  split; [exact Hname |].
  split; [rewrite Hkey; destruct (row_pubkey row); split; congruence |].
  split; [intros pem Hpem; rewrite Hkey, Hpem; reflexivity |].
  split.
  { rewrite Hadm. destruct (row_is_admin row) as [[| [p | p |] | p] |];
      split; congruence. }
  repeat split; assumption.
Qed.

(** Carol, an administrator with a key and no display name. *)
Lemma returned_actor_identity_witness :
  exists a,
    fst (Actors.getActorById (Cases.platform true) Cases.carol Cases.legacy_world)
      = Ok (Some a) /\
    actor_name a = Some "carol" /\
    actor_isAdmin a = true /\
    exists row,
      Actors.actorFromRow (Cases.platform true) row = Ok a /\
      actor_name a = match doc_name (row_properties row) with
                     | Some n => Some n
                     | None => doc_preferredUsername (row_properties row)
                     end /\
      (actor_publicKey a = None <-> row_pubkey row = None) /\
      (forall pem, row_pubkey row = Some pem ->
         actor_publicKey a =
           Some {| publicKey_id := row_id row +++ "#main-key"; publicKeyPem := pem |}) /\
      (actor_isAdmin a = true <-> row_is_admin row = Some 1%Z) /\
      actor_discoverable a = true /\
      actor_type a = row_type row /\
      actor_published a = row_cdate row /\
      actor_mastodonId a = row_mastodon_id row.
Proof.
  eexists. split; [vm_compute; reflexivity |].
  split; [reflexivity |]. split; [reflexivity |].
  apply (returned_actor_identity (Cases.platform true)).
  eapply (@from_getActorById _ _ Cases.carol Cases.legacy_world).
  vm_compute. reflexivity.
Defined.

(** ** Likes that are not applied *)

Section LikeRejections.

Variable P : Platform.

(** getAndCache on a miss whose resolution fails. *)
Lemma getAndCache_rejects (url : string) (w : World) :
  new_URL P "undefined" = None ->
  rows_for url (db w) = [] ->
  resolution_fails P url ->
  exists e, Actors.getAndCache P url w = (Throw e, w).
Proof.
  intros Hundef Hmiss (res & Hf & Hcase).
  rewrite getAndCache_miss by exact Hmiss.
  destruct (res_ok res) eqn:Hok.
  2: { eexists. apply bind_throw. apply (fetchActor_not_ok P url w res Hf Hok). }
  destruct Hcase as [Hno | (doc & Hb & [Htype | Hid])]; [congruence | |].
  - destruct (Actors.fetchActor P url w) as [[actor' | e] w1] eqn:Hfa.
    + pose proof (fetchActor_world _ _ _ _ _ Hfa) as ->.
      destruct (fetchActor_ok_inv P url w w actor' Hfa)
        as (res' & doc' & href & Hf' & _ & Hb' & _ & _ & Hty & _).
      rewrite Hf in Hf'. inversion Hf'; subst res'.
      rewrite Hb in Hb'. inversion Hb'; subst doc'.
      eexists. unfold bind. rewrite Hfa.
      apply cache_fetched_untyped. rewrite Hty, Htype. reflexivity.
    + pose proof (fetchActor_world _ _ _ _ _ Hfa) as ->.
      exists e. apply bind_throw. exact Hfa.
  - eexists. apply bind_throw.
    apply (fetchActor_no_id P url w res doc); assumption.
Qed.

End LikeRejections.

(** X9: a Like of a known object whose delivering actor is not cached and
    cannot be resolved makes handleLikeActivity raise the resolution error
    to its caller; nothing is logged and nothing is written. *)
Theorem handleLikeActivity_actor_unresolved (P : Platform) (activity : Like.LikeActivity)
    (w : World) (obj : ApObject) :
  new_URL P "undefined" = None ->
  find (Like.has_object_id (Like.getAPId (Like.like_object activity))) (objects (db w))
    = Some obj ->
  Js.truthy (object_originalActorId obj) = true ->
  rows_for (Like.getAPId (Like.like_actor activity)) (db w) = [] ->
  resolution_fails P (Like.getAPId (Like.like_actor activity)) ->
  exists e, Like.handleLikeActivity P activity w = (Throw e, w).
Proof.
  intros Hundef Hfind Htruthy Hmiss Hfails. unfold Like.getAPId in *.
  destruct (getAndCache_rejects P _ w Hundef Hmiss Hfails) as (e & He).
  exists e. rewrite handleLikeActivity_eq, Hfind, Htruthy, He. reflexivity.
Qed.

(** The server of the delivering actor answers 404. *)
Lemma handleLikeActivity_actor_unresolved_witness :
  exists e,
    Like.handleLikeActivity (Demo.platform true true true) Cases.like_by_unknown Demo.world
      = (Throw e, Demo.world).
Proof.
  apply (handleLikeActivity_actor_unresolved (Demo.platform true true true)
           Cases.like_by_unknown Demo.world Demo.bob_note).
  - reflexivity.
  - reflexivity.
  - reflexivity.
  - reflexivity.
  - exists {| res_ok := false; res_status := 404; res_body := None |}.
    split; [reflexivity | left; reflexivity].
Defined.

(** X10: when the object's original author is not in the actor cache,
    handleLikeActivity logs 'object actor not found' and returns normally
    without any Like edge, notification or push request; the delivering
    actor it resolved before stays cached. *)
Theorem handleLikeActivity_author_not_cached (P : Platform) (activity : Like.LikeActivity)
    (w wa : World) (obj : ApObject) (fromActor : Actor) (author : string) :
  find (Like.has_object_id (Like.getAPId (Like.like_object activity))) (objects (db w))
    = Some obj ->
  Js.truthy (object_originalActorId obj) = true ->
  Actors.getAndCache P (Like.getAPId (Like.like_actor activity)) w = (Ok fromActor, wa) ->
  new_URL P (Js.interpolate (object_originalActorId obj)) = Some author ->
  rows_for author (db wa) = [] ->
  Like.handleLikeActivity P activity w =
    (Ok tt, {| db := db wa; console := console w ++ ["object actor not found"];
               clock := clock wa; trace := trace w |}) /\
  actor_favourites (db wa) = actor_favourites (db w) /\
  actor_notifications (db wa) = actor_notifications (db w) /\
  exists row, In row (actors (db wa)) /\ Actors.actorFromRow P row = Ok fromActor.
Proof.
  intros Hfind Htruthy Hfrom Hauthor Hmiss. unfold Like.getAPId in *.
  destruct (getAndCache_outside P _ _ _ _ Hfrom) as (_ & Hfav & Hnot & _ & _ & Hcon & Htr).
  split; [| split; [exact Hfav | split; [exact Hnot |]]].
  - rewrite handleLikeActivity_eq, Hfind, Htruthy, Hfrom. simpl.
    unfold Actors.URL. rewrite Hauthor.
    rewrite getActorById_eq, Hmiss. unfold console_warn. rewrite Hcon, Htr. reflexivity.
  - destruct (rows_for (Like.like_actor activity) (db w)) as [| row rest] eqn:Hrows.
    + destruct (getAndCache_miss_inv P _ w wa fromActor Hrows Hfrom)
        as (actor & id & Hf & Hid & Htype & Hfree & Hcf).
      destruct (cache_fetched_inserts P id actor w Hid Htype Hfree)
        as (w2 & Hcf' & Hact & _).
      rewrite Hcf in Hcf'. inversion Hcf' as [[Hrow Hw]]. subst w2.
      eexists. split; [| symmetry; exact Hrow].
      rewrite Hact. apply in_or_app. right. left. reflexivity.
    + rewrite (getAndCache_hit P _ row rest w Hrows) in Hfrom.
      injection Hfrom as Hrow Hw. subst wa.
      exists (fst (backfill row w)). split; [| exact Hrow].
      destruct (backfill_resolved _ row rest w Hrows) as (rest' & Hr & _).
      assert (Hin : In (fst (backfill row w))
                      (rows_for (Like.like_actor activity) (db (snd (backfill row w)))))
        by (rewrite Hr; left; reflexivity).
      unfold rows_for in Hin. apply filter_In in Hin. tauto.
Qed.

(** Alice likes Frank's note; Frank is not cached. *)
Lemma handleLikeActivity_author_not_cached_witness :
  exists fromActor wa,
    Like.handleLikeActivity (Demo.platform true true true) Cases.like_frank_note
      Cases.world_with_frank_note =
      (Ok tt, {| db := db wa;
                 console := console Cases.world_with_frank_note ++ ["object actor not found"];
                 clock := clock wa; trace := trace Cases.world_with_frank_note |}) /\
    actor_favourites (db wa) = actor_favourites (db Cases.world_with_frank_note) /\
    actor_notifications (db wa) = actor_notifications (db Cases.world_with_frank_note) /\
    exists row,
      In row (actors (db wa)) /\
      Actors.actorFromRow (Demo.platform true true true) row = Ok fromActor.
Proof.
  eexists. eexists.
  eapply (handleLikeActivity_author_not_cached (Demo.platform true true true)
            Cases.like_frank_note Cases.world_with_frank_note _ Cases.frank_note _
            Cases.frank).
  - reflexivity.
  - reflexivity.
  - vm_compute. reflexivity.
  - reflexivity.
  - reflexivity.
Defined.

(** ** The followers page of a local account *)

Section FollowerResolution.

Variable P : Platform.

Variable MastodonAccount : Type.
Variable loadLocalMastodonAccount : Actor -> M MastodonAccount.
Variable loadExternalMastodonAccount : Actor -> Handle -> M MastodonAccount.
Variable actorToHandle : Actor -> Handle.
Variable isLocalAccount : string -> Handle -> bool.
Variable getFollowers : Actor -> Z -> M (list string).
Variable loadActors : list string -> M (list Actor).

(** X11: in the followers page of a local account, a first follower whose
    identifier is not a URL, or who is not cached and cannot be resolved,
    makes the whole request reject with that error: the failure is logged
    with the follower's identifier and its message, no partial list is
    served, and nothing is written. *)
Theorem followers_get_unresolved_follower (domain : string) (actor : Actor) (limit : Z)
    (w : World) (id : string) (rest : list string) :
  isLocalAccount domain (actorToHandle actor) = true ->
  fst (Followers.getFollowerIds actor (Some limit) w) = Ok (id :: rest) ->
  new_URL P "undefined" = None ->
  (new_URL P id = None \/
   exists url, new_URL P id = Some url /\ rows_for url (db w) = [] /\
               resolution_fails P url) ->
  exists e,
    Followers.get P loadLocalMastodonAccount loadExternalMastodonAccount
      actorToHandle isLocalAccount getFollowers loadActors domain actor limit w
    = (Throw e,
       {| db := db w;
          console := console w ++ ["failed to retrieve follower (" +++ id +++ "): "
                                   +++ Followers.exn_message e];
          clock := clock w; trace := trace w |}).
Proof.
  intros Hlocal Hids Hundef Hcase.
  unfold Followers.get. rewrite Hlocal.
  unfold Followers.getFollowerIds in *. simpl in Hids. injection Hids as Hids.
  unfold bind at 1. rewrite Hids. cbn [for_each].
  destruct Hcase as [Hbad | (url & Hurl & Hmiss & Hfails)].
  - eexists. unfold bind at 1. unfold bind at 1. unfold try_catch at 1.
    unfold bind at 1. unfold Actors.URL, lift. simpl Js.interpolate. rewrite Hbad.
    unfold console_warn, throw. reflexivity.
  - destruct (getAndCache_rejects P url w Hundef Hmiss Hfails) as (e & He).
    exists e. unfold bind at 1. unfold bind at 1. unfold try_catch at 1.
    unfold bind at 1. unfold Actors.URL, lift. simpl Js.interpolate. rewrite Hurl.
    unfold bind at 1. rewrite He.
    unfold console_warn, throw. reflexivity.
Qed.

End FollowerResolution.

(** Bob's only follower lives on a server that answers 404. *)
Lemma followers_get_unresolved_follower_witness :
  exists actor,
    Actors.getActorById (Demo.platform true true true) Demo.bob Cases.world_with_follower
      = (Ok (Some actor), Cases.world_with_follower) /\
    exists e,
      Followers.get (Demo.platform true true true)
        (fun a => ret (actor_id a)) (fun a _ => ret (actor_id a))
        Demo.actorToHandle Demo.isLocalAccount (fun _ _ => ret []) (fun _ => ret [])
        "social.example" actor 40 Cases.world_with_follower
      = (Throw e,
         {| db := db Cases.world_with_follower;
            console := console Cases.world_with_follower
                       ++ ["failed to retrieve follower (https://gone.example/users/zed): "
                           +++ Followers.exn_message e];
            clock := clock Cases.world_with_follower;
            trace := trace Cases.world_with_follower |}).
Proof.
  eexists. split; [vm_compute; reflexivity |].
  apply (followers_get_unresolved_follower (Demo.platform true true true) string
           (fun a => ret (actor_id a)) (fun a _ => ret (actor_id a))
           Demo.actorToHandle Demo.isLocalAccount (fun _ _ => ret []) (fun _ => ret [])
           "social.example" _ 40%Z Cases.world_with_follower
           "https://gone.example/users/zed" []).
  - vm_compute. reflexivity.
  - vm_compute. reflexivity.
  - reflexivity.
  - right. exists "https://gone.example/users/zed".
    split; [reflexivity |]. split; [reflexivity |].
    exists {| res_ok := false; res_status := 404; res_body := None |}.
    split; [reflexivity | left; reflexivity].
Defined.

(** ** The statuses page *)

Lemma In_insert_by_date (r x : Statuses.StatusRow) (l : list Statuses.StatusRow) :
  In x (Statuses.insert_by_date r l) <-> x = r \/ In x l.
Proof.
  induction l as [| s rest IH]; simpl.
  - split; intros [H | H]; auto.
  - destruct (_ <? _); simpl; [split; intros [H | H]; auto |].
    rewrite IH. tauto.
Qed.

Lemma In_order_by_published_date_desc (x : Statuses.StatusRow) (l : list Statuses.StatusRow) :
  In x (Statuses.order_by_published_date_desc l) <-> In x l.
Proof.
  unfold Statuses.order_by_published_date_desc.
  induction l as [| r rest IH]; simpl; [tauto |].
  rewrite In_insert_by_date, IH. split; intros [H | H]; auto.
Qed.

Lemma insert_by_date_sorted (r : Statuses.StatusRow) (l : list Statuses.StatusRow) :
  StronglySorted not_newer l -> StronglySorted not_newer (Statuses.insert_by_date r l).
Proof.
  induction 1 as [| s rest Hs IH Hall]; simpl.
  - constructor; constructor.
  - destruct (Nat.ltb_spec (outbox_published_date (Statuses.status_outbox s))
                           (outbox_published_date (Statuses.status_outbox r))) as [Hlt | Hge].
    + constructor; [constructor; assumption |].
      constructor; [unfold not_newer; lia |].
      rewrite Forall_forall in *. intros x Hx. specialize (Hall x Hx).
      unfold not_newer in *. lia.
    + constructor; [exact IH |].
      rewrite Forall_forall in *. intros x Hx.
      apply In_insert_by_date in Hx. destruct Hx as [-> | Hx]; [exact Hge | auto].
Qed.

Lemma order_by_published_date_desc_sorted (l : list Statuses.StatusRow) :
  StronglySorted not_newer (Statuses.order_by_published_date_desc l).
Proof.
  unfold Statuses.order_by_published_date_desc.
  induction l as [| r rest IH]; simpl; [constructor | apply insert_by_date_sorted, IH].
Qed.

Lemma StronglySorted_skipn {A : Type} (R : A -> A -> Prop) (n : nat) (l : list A) :
  StronglySorted R l -> StronglySorted R (skipn n l).
Proof.
  revert l. induction n as [| n IH]; intros l H; [exact H |].
  destruct l as [| a l]; [exact H |]. simpl. apply IH.
  inversion H; assumption.
Qed.

Lemma In_firstn_incl {A : Type} (n : nat) (l : list A) (x : A) :
  In x (firstn n l) -> In x l.
Proof.
  revert l. induction n as [| n IH]; intros [| a l]; simpl; try tauto.
  intros [H | H]; auto.
Qed.

Lemma In_skipn_incl {A : Type} (n : nat) (l : list A) (x : A) :
  In x (skipn n l) -> In x l.
Proof.
  revert l. induction n as [| n IH]; intros [| a l]; simpl; try tauto.
  intros H. right. apply IH, H.
Qed.

Lemma StronglySorted_firstn {A : Type} (R : A -> A -> Prop) (n : nat) (l : list A) :
  StronglySorted R l -> StronglySorted R (firstn n l).
Proof.
  revert l. induction n as [| n IH]; intros l H; [constructor |].
  destruct l as [| a l]; [constructor |]. simpl.
  inversion H as [| ? ? Hs Hall]; subst. constructor; [apply IH, Hs |].
  rewrite Forall_forall in *. intros x Hx. apply Hall. eapply In_firstn_incl, Hx.
Qed.

Lemma sql_limit_offset_sorted {A : Type} (R : A -> A -> Prop) (limit offset : Z)
    (rows : list A) :
  StronglySorted R rows -> StronglySorted R (sql_limit_offset limit offset rows).
Proof.
  intros H. unfold sql_limit_offset.
  destruct (limit <? 0)%Z; [| apply StronglySorted_firstn];
    apply StronglySorted_skipn, H.
Qed.

Lemma sql_limit_offset_incl {A : Type} (limit offset : Z) (rows : list A) (x : A) :
  In x (sql_limit_offset limit offset rows) -> In x rows.
Proof.
  unfold sql_limit_offset. destruct (limit <? 0)%Z; intros H.
  - eapply In_skipn_incl, H.
  - eapply In_skipn_incl, In_firstn_incl, H.
Qed.

(** X12: the page size of the statuses endpoint is never below one: an
    absent, unreadable or zero [limit] gives the default of 20, and a
    negative one gives its absolute value. *)
Theorem statuses_request_limit_positive (request : Statuses.Request) :
  (1 <= Statuses.request_limit request)%Z /\
  (forall s n, Statuses.searchParams_get request "limit" = Some s ->
               Js.parseInt s = Some n -> n <> 0%Z ->
               Statuses.request_limit request = Z.abs n) /\
  (forall s, Statuses.searchParams_get request "limit" = Some s ->
             Js.parseInt s = None \/ Js.parseInt s = Some 0%Z ->
             Statuses.request_limit request = Statuses.DEFAULT_LIMIT) /\
  (Statuses.searchParams_get request "limit" = None ->
   Statuses.request_limit request = Statuses.DEFAULT_LIMIT).
Proof.
  unfold Statuses.request_limit. split; [| split; [| split]].
  - assert (0 < Js.abs_or
                  (Js.parseInt match Statuses.searchParams_get request "limit" with
                               | Some s => s
                               | None => "0"
                               end) Statuses.DEFAULT_LIMIT)%Z
      by (apply abs_or_positive; reflexivity).
    lia.
  - intros s n -> -> Hn. unfold Js.abs_or.
    destruct (Z.eqb_spec (Z.abs n) 0); [lia | reflexivity].
  - intros s -> [-> | ->]; reflexivity.
  - intros ->. reflexivity.
Qed.

(** X13: the rows QUERY selects, before LIMIT and OFFSET, are exactly the
    joins of a public outbox entry of the requested actor, newer than the
    cursor, with a Note of that identifier and an actor row of that actor;
    replies are among them only when asked for. *)
Theorem statuses_rows_selected (d : Database) (withReplies : bool) (actorId : string)
    (afterCdate : nat) (row : Statuses.StatusRow) :
  In row (Statuses.statuses_rows d withReplies actorId afterCdate) <->
  In (Statuses.status_outbox row) (outbox_objects d) /\
  In (Statuses.status_object row) (objects d) /\
  In (Statuses.status_actor row) (actors d) /\
  outbox_target (Statuses.status_outbox row) = Statuses.PUBLIC_GROUP /\
  outbox_actor_id (Statuses.status_outbox row) = actorId /\
  afterCdate < outbox_cdate (Statuses.status_outbox row) /\
  object_id (Statuses.status_object row) = outbox_object_id (Statuses.status_outbox row) /\
  object_type (Statuses.status_object row) = "Note" /\
  (withReplies = false -> object_inReplyTo (Statuses.status_object row) = None) /\
  row_id (Statuses.status_actor row) = actorId.
Proof.
  unfold Statuses.statuses_rows. rewrite In_order_by_published_date_desc.
  rewrite in_flat_map. split.
  - intros (o & Ho & H). apply filter_In in Ho. destruct Ho as (Ho & Hc).
    apply andb_prop in Hc. destruct Hc as (Hc & Hcd).
    apply andb_prop in Hc. destruct Hc as (Htg & Hac).
    apply String.eqb_eq in Htg, Hac. apply Nat.ltb_lt in Hcd.
    apply in_flat_map in H. destruct H as (obj & Hobj & H).
    apply filter_In in Hobj. destruct Hobj as (Hobj & Hc).
    apply andb_prop in Hc. destruct Hc as (Hc & Hre).
    apply andb_prop in Hc. destruct Hc as (Hid & Hty).
    apply String.eqb_eq in Hid, Hty.
    apply in_map_iff in H. destruct H as (a & <- & Ha).
    apply filter_In in Ha. destruct Ha as (Ha & Haid).
    unfold Actors.has_id in Haid. apply String.eqb_eq in Haid. simpl.
    repeat split; try assumption.
    + intros ->. simpl in Hre. destruct (object_inReplyTo obj); [discriminate | reflexivity].
    + congruence.
  - intros (Ho & Hobj & Ha & Htg & Hac & Hcd & Hid & Hty & Hre & Haid).
    destruct row as [obj a o]. simpl in *.
    exists o. split.
    + apply filter_In. split; [exact Ho |].
      rewrite Htg, Hac, !String.eqb_refl. simpl. apply Nat.ltb_lt, Hcd.
    + apply in_flat_map. exists obj. split.
      * apply filter_In. split; [exact Hobj |].
        rewrite Hid, Hty, String.eqb_refl. simpl.
        destruct withReplies; [reflexivity |]. rewrite Hre; reflexivity.
      * apply in_map_iff. exists a. split; [reflexivity |].
        apply filter_In. split; [exact Ha |].
        unfold Actors.has_id. rewrite Haid, Hac. apply String.eqb_refl.
Qed.

(** X14: with an integer offset QUERY succeeds without writing; its rows
    are among the selected ones, newest publication first, and no more
    than a non-negative LIMIT. *)
Theorem statuses_query_newest_first (withReplies : bool) (actorId : string)
    (afterCdate : nat) (limit offset : Z) (w : World) :
  exists rows,
    Statuses.run_query withReplies actorId afterCdate limit (Some offset) w = (Ok rows, w) /\
    StronglySorted not_newer rows /\
    (forall row, In row rows ->
                 In row (Statuses.statuses_rows (db w) withReplies actorId afterCdate)) /\
    ((0 <= limit)%Z -> List.length rows <= Z.to_nat limit).
Proof.
  eexists. split; [reflexivity |]. split; [| split].
  - apply sql_limit_offset_sorted, order_by_published_date_desc_sorted.
  - intros row. apply sql_limit_offset_incl.
  - apply sql_limit_offset_length.
Qed.

Section StatusesFacts.

Variable P : Platform.
Variable MastodonStatus : Type.
Variable parseHandle : string -> Handle.
Variable adjustLocalHostDomain : string -> string.
Variable toMastodonStatusFromRow : string -> Statuses.StatusRow -> M (option MastodonStatus).
Variable toMastodonStatusFromObject : ApObject -> string -> M (option MastodonStatus).
Variable queryAcctLink : string -> string -> M (option string).
Variable outbox_get : Actor -> Z -> M (list Statuses.Activity).
Variable cacheObject : string -> ApObject -> string -> string -> M (option ApObject).
Variable objects_get : string -> M ApObject.
Variable MastodonAccount : Type.
Variable loadExternalMastodonAccount : string -> Actor -> M MastodonAccount.

(** X15: the statuses of a local account are never served.
    getLocalStatuses hands the string [handle.localPart] to actorURL, whose
    [in] test throws on a string: every call rejects with a TypeError
    before the pinned check, the [max_id] lookup and the query, having read
    and written nothing, and handleRequest rejects in the same way for
    every handle without a domain or with the domain of the request. *)
Theorem getLocalStatuses_rejects (request : Statuses.Request) (handle : Handle)
    (offset : option Z) (withReplies : bool) (limit : Z) (w : World) :
  (exists msg,
     Statuses.getLocalStatuses P adjustLocalHostDomain toMastodonStatusFromRow
       request handle offset withReplies limit w = (Throw (TypeError msg), w)) /\
  (forall id,
     handle_domain (parseHandle id) = None \/
     handle_domain (parseHandle id) = Some (Statuses.request_hostname request) ->
     exists msg,
       Statuses.handleRequest P parseHandle adjustLocalHostDomain toMastodonStatusFromRow
         toMastodonStatusFromObject queryAcctLink outbox_get cacheObject objects_get
         loadExternalMastodonAccount request id w = (Throw (TypeError msg), w)).
Proof.
  split.
  - eexists. reflexivity.
  - intros id [Hnone | Hsame]; unfold Statuses.handleRequest.
    + rewrite Hnone. eexists. reflexivity.
    + rewrite Hsame, String.eqb_refl. eexists. reflexivity.
Qed.

(** X17: in the page of a remote account, a boosted object that is not
    cached and whose download fails is dropped from the page with a
    warning naming the object and the error, whereas a Create activity
    whose object cannot be cached rejects the request; an activity that is
    neither is dropped with a warning naming its type. *)
Theorem status_of_activity_dropped (domain : string) (activity : Statuses.Activity)
    (w : World) :
  (forall e w1,
     Statuses.activity_type activity = "Announce" ->
     (forall obj, In obj (objects (db w)) ->
                  object_id obj <> object_id (Statuses.activity_object activity)) ->
     objects_get (object_id (Statuses.activity_object activity)) w = (Throw e, w1) ->
     Statuses.status_of_activity toMastodonStatusFromObject cacheObject objects_get
       domain activity w =
       (Ok None,
        {| db := db w1;
           console := console w1
                      ++ ["failed to retrieve object "
                          +++ object_id (Statuses.activity_object activity)
                          +++ ": " +++ Followers.exn_message e];
           clock := clock w1; trace := trace w1 |})) /\
  (forall w1,
     Statuses.activity_type activity = "Create" ->
     cacheObject domain (Statuses.activity_object activity)
       (Statuses.activity_actor activity)
       (object_id (Statuses.activity_object activity)) w = (Ok None, w1) ->
     exists e,
       Statuses.status_of_activity toMastodonStatusFromObject cacheObject objects_get
         domain activity w = (Throw e, w1)) /\
  (Statuses.activity_type activity <> "Create" ->
   Statuses.activity_type activity <> "Announce" ->
   Statuses.status_of_activity toMastodonStatusFromObject cacheObject objects_get
     domain activity w =
     (Ok None, {| db := db w;
                  console := console w ++ ["unsupported activity type: "
                                           +++ Statuses.activity_type activity];
                  clock := clock w; trace := trace w |})).
Proof.
  unfold Statuses.status_of_activity, Like.getAPId. split; [| split].
  - intros e w1 Hty Hmiss Hget. rewrite Hty. simpl.
    unfold Like.getObjectById.
    assert (Hfind : find (Like.has_object_id (object_id (Statuses.activity_object activity)))
                      (objects (db w)) = None).
    { destruct (find _ _) as [obj |] eqn:Hf; [| reflexivity].
      apply find_some in Hf. destruct Hf as (Hin & Heq).
      unfold Like.has_object_id in Heq. apply String.eqb_eq in Heq.
      elim (Hmiss obj Hin Heq). }
    unfold bind at 1. rewrite Hfind.
    unfold bind at 1, try_catch. unfold bind at 1. rewrite Hget.
    reflexivity.
  - intros w1 Hty Hcache. rewrite Hty. simpl. unfold bind at 1. rewrite Hcache.
    eexists. reflexivity.
  - intros Hc Ha.
    destruct (String.eqb_spec (Statuses.activity_type activity) "Create"); [contradiction |].
    destruct (String.eqb_spec (Statuses.activity_type activity) "Announce");
      [contradiction |].
    reflexivity.
Qed.

End StatusesFacts.

(** Bob's three notes are not served, with or without parameters. *)
Lemma getLocalStatuses_rejects_example :
  Demo.statuses_handleRequest "2" (Demo.world_with_notes 3) =
    (Throw (TypeError "Cannot use 'in' operator to search for 'perferredUsername' in bob"),
     Demo.world_with_notes 3) /\
  Cases.statuses_handleRequest [("pinned", "true")] (Demo.world_with_notes 3) =
    (Throw (TypeError "Cannot use 'in' operator to search for 'perferredUsername' in bob"),
     Demo.world_with_notes 3).
Proof. vm_compute. split; reflexivity. Qed.

(** ** Creating a local user *)

Section PersonFacts.

Variable P : Platform.
Variable generateUserKey : string -> Res Person.UserKeyPair.

(** What a successful createPerson has done. *)
Lemma createPerson_ok_inv (domain userKEK email : string) (properties : Doc) (admin : bool)
    (s s' : Person.Store) (person : Actor) :
  Person.createPerson P generateUserKey domain userKEK email properties admin s
    = (Ok person, s') ->
  exists keys id,
    generateUserKey userKEK = Ok keys /\
    Actors.actorURL P domain (Actors.WithUsername (person_username properties email)) = Ok id /\
    actors_id_unique P
      && existsb (Actors.has_id id) (actors (db (Person.store_world s))) = false /\
    Actors.actorFromRow P
      (person_row keys id email properties admin (Person.store_world s)) = Ok person /\
    actors (db (Person.store_world s')) =
      actors (db (Person.store_world s))
        ++ [person_row keys id email properties admin (Person.store_world s)] /\
    Person.actor_keys s' =
      Person.actor_keys s ++
        [{| Person.key_actor_id := id;
            Person.key_privkey := Person.wrappedPrivKey keys;
            Person.key_privkey_salt := Person.salt keys |}] /\
    Person.actor_preferences s' = Person.actor_preferences s ++ [id] /\
    id_sequences (db (Person.store_world s')) = S (id_sequences (db (Person.store_world s))) /\
    clock (Person.store_world s') = S (clock (Person.store_world s)) /\
    peers (db (Person.store_world s')) = peers (db (Person.store_world s)) /\
    outside_cache_kept (Person.store_world s) (Person.store_world s').
Proof.
  unfold Person.createPerson, person_username.
  unfold Person.st_bind at 1. unfold Person.st_lift at 1.
  destruct (generateUserKey userKEK) as [keys | e]; [| discriminate].
  unfold Person.st_bind at 1. unfold Person.st_lift at 1.
  destruct (Actors.actorURL P domain _) as [id | e]; [| discriminate].
  unfold Person.st_bind at 1. unfold Person.in_world at 1. unfold Date_now at 1.
  unfold Person.st_bind at 1. unfold Person.in_world at 1.
  unfold Actors.generateMastodonId at 1. cbn [Person.store_world db clock set_db].
  unfold Person.st_bind at 1. unfold Person.insert_person at 1.
  cbn [Person.store_world Person.actor_keys Person.actor_preferences db clock set_db
       set_id_sequences actors row_id].
  destruct (actors_id_unique P && existsb (Actors.has_id id) _) eqn:Hdup; [discriminate |].
  unfold Person.st_bind at 1. unfold Person.insert_preferences at 1.
  unfold Person.st_lift.
  intros H. injection H as Hrow Hs. subst s'.
  exists keys, id. unfold person_row, person_username.
  repeat (split; [first [reflexivity | assumption] |]).
  repeat split.
Qed.

(** X18: the actor createPerson returns.  Its identifier is the actor URL
    of its username on the domain, the username being the one asked for or
    else the part of the email address before the first [@]; each endpoint
    is the one asked for or else the identifier with the endpoint's name
    appended; it is a Person, an administrator exactly when asked for, with
    the generated public key under [#main-key] and a sequential
    identifier. *)
Theorem createPerson_actor (domain userKEK email : string) (properties : Doc) (admin : bool)
    (s s' : Person.Store) (person : Actor) :
  new_URL_base_serialised P ->
  Person.createPerson P generateUserKey domain userKEK email properties admin s
    = (Ok person, s') ->
  exists keys,
    generateUserKey userKEK = Ok keys /\
    Actors.actorURL P domain (Actors.WithUsername (person_username properties email))
      = Ok (actor_id person) /\
    actor_type person = Actors.PERSON /\
    actor_preferredUsername person = Some (person_username properties email) /\
    inbox person = Actors.endpoint (doc_inbox properties) (actor_id person) "/inbox" /\
    outbox person = Actors.endpoint (doc_outbox properties) (actor_id person) "/outbox" /\
    following person
      = Actors.endpoint (doc_following properties) (actor_id person) "/following" /\
    followers person
      = Actors.endpoint (doc_followers properties) (actor_id person) "/followers" /\
    actor_isAdmin person = admin /\
    actor_publicKey person =
      Some {| publicKey_id := actor_id person +++ "#main-key";
              publicKeyPem := Person.pubKey keys |} /\
    actor_mastodonId person <> None /\
    actor_published person = clock (Person.store_world s).
Proof.
  intros Hser H.
  destruct (createPerson_ok_inv _ _ _ _ _ _ _ _ H)
    as (keys & id & Hkeys & Hid & _ & Hrow & _).
  exists keys. split; [exact Hkeys |].
  assert (Heq : actor_id person = id).
  { pose proof (actorFromRow_id P _ _ Hrow) as Hp. simpl in Hp.
    unfold Actors.actorURL, Actors.URL_with_base in Hid.
    destruct (new_URL_base P _ _) as [href |] eqn:Hb; [| discriminate].
    injection Hid as ->. rewrite (Hser _ _ _ Hb) in Hp. congruence. }
  destruct (actorFromRow_inv P _ _ Hrow)
    as (_ & Hty & Hmid & Hpub & Hin & Hout & Hfing & Hfers).
  destruct (actorFromRow_fields P _ _ Hrow) as (_ & Huser & _ & _ & _ & Hkey & Hadm).
  simpl in *. rewrite Heq in *.
  split; [exact Hid |]. split; [exact Hty |]. split; [exact Huser |].
  split; [exact Hin |]. split; [exact Hout |]. split; [exact Hfing |].
  split; [exact Hfers |].
  split; [rewrite Hadm; destruct admin; reflexivity |].
  split; [exact Hkey |]. split; [rewrite Hmid; discriminate | exact Hpub].
Qed.

(** X19: a person just created is found again, as the same actor, by
    email address and by identifier, provided no other stored actor has
    that address or that identifier; neither lookup writes. *)
Theorem createPerson_then_lookup (domain userKEK email : string) (properties : Doc)
    (admin : bool) (s s' : Person.Store) (person : Actor) :
  new_URL_base_serialised P ->
  Person.createPerson P generateUserKey domain userKEK email properties admin s
    = (Ok person, s') ->
  email_unused email (db (Person.store_world s)) ->
  rows_for (actor_id person) (db (Person.store_world s)) = [] ->
  Actors.getPersonByEmail P email (Person.store_world s')
    = (Ok (Some person), Person.store_world s') /\
  Actors.getActorById P (actor_id person) (Person.store_world s')
    = (Ok (Some person), Person.store_world s').
Proof.
  intros Hser H Hemail Hfree.
  destruct (createPerson_ok_inv _ _ _ _ _ _ _ _ H)
    as (keys & id & Hkeys & Hid & _ & Hrow & Hact & _).
  assert (Heq : actor_id person = id).
  { pose proof (actorFromRow_id P _ _ Hrow) as Hp. simpl in Hp.
    unfold Actors.actorURL, Actors.URL_with_base in Hid.
    destruct (new_URL_base P _ _) as [href |] eqn:Hb; [| discriminate].
    injection Hid as ->. rewrite (Hser _ _ _ Hb) in Hp. congruence. }
  split.
  - unfold Actors.getPersonByEmail, Actors.select_actors. unfold bind at 1.
    rewrite Hact, filter_app.
    assert (Hnone : filter (fun r => match row_email r with
                                     | Some e => (e =? email)%string
                                                 && (row_type r =? Actors.PERSON)%string
                                     | None => false
                                     end) (actors (db (Person.store_world s))) = []).
    { apply existsb_filter_nil. apply not_true_is_false. intros Hex.
      apply existsb_exists in Hex. destruct Hex as (r & Hin & Hr).
      destruct (row_email r) as [e |] eqn:He; [| discriminate].
      apply andb_prop in Hr. destruct Hr as (Hr & _). apply String.eqb_eq in Hr.
      subst e. exact (Hemail r Hin He). }
    rewrite Hnone. simpl. rewrite String.eqb_refl. simpl.
    unfold bind at 1. unfold Actors.row_with_mastodon_id. simpl.
    unfold ret at 1. unfold bind at 1, lift. rewrite Hrow. reflexivity.
  - rewrite getActorById_eq. unfold rows_for in *. rewrite Hact, filter_app, Hfree.
    simpl. unfold Actors.has_id. simpl. rewrite Heq, String.eqb_refl.
    unfold backfill. simpl. rewrite Hrow. reflexivity.
Qed.

(** X20: what createPerson stores.  It appends one actor row, whose
    properties hold the username and all four endpoints of the returned
    actor, so that reading the row back never needs the defaults; the
    wrapped private key and its salt; and one preferences row.  The other
    tables are left as they were. *)
Theorem createPerson_stored (domain userKEK email : string) (properties : Doc)
    (admin : bool) (s s' : Person.Store) (person : Actor) :
  Person.createPerson P generateUserKey domain userKEK email properties admin s
    = (Ok person, s') ->
  exists row keys,
    generateUserKey userKEK = Ok keys /\
    actors (db (Person.store_world s')) = actors (db (Person.store_world s)) ++ [row] /\
    Actors.actorFromRow P row = Ok person /\
    row_email row = Some email /\
    doc_preferredUsername (row_properties row) = actor_preferredUsername person /\
    doc_inbox (row_properties row) = Some (inbox person) /\
    doc_outbox (row_properties row) = Some (outbox person) /\
    doc_following (row_properties row) = Some (following person) /\
    doc_followers (row_properties row) = Some (followers person) /\
    Person.actor_keys s' =
      Person.actor_keys s ++
        [{| Person.key_actor_id := row_id row;
            Person.key_privkey := Person.wrappedPrivKey keys;
            Person.key_privkey_salt := Person.salt keys |}] /\
    Person.actor_preferences s' = Person.actor_preferences s ++ [row_id row] /\
    peers (db (Person.store_world s')) = peers (db (Person.store_world s)) /\
    outside_cache_kept (Person.store_world s) (Person.store_world s').
Proof.
  intros H.
  destruct (createPerson_ok_inv _ _ _ _ _ _ _ _ H)
    as (keys & id & Hkeys & Hid & _ & Hrow & Hact & Hk & Hp & _ & _ & Hpeers & Hout).
  exists (person_row keys id email properties admin (Person.store_world s)), keys.
  destruct (actorFromRow_inv P _ _ Hrow)
    as (_ & _ & _ & _ & Hin & Hout' & Hfing & Hfers).
  destruct (actorFromRow_fields P _ _ Hrow) as (_ & Huser & _).
  simpl in *.
  split; [exact Hkeys |]. split; [exact Hact |]. split; [exact Hrow |].
  split; [reflexivity |]. split; [symmetry; exact Huser |].
  split; [rewrite Hin; reflexivity |]. split; [rewrite Hout'; reflexivity |].
  split; [rewrite Hfing; reflexivity |]. split; [rewrite Hfers; reflexivity |].
  split; [exact Hk |]. split; [exact Hp |]. split; [exact Hpeers | exact Hout].
Qed.

(** X21: where actor identifiers are unique, createPerson for a username
    whose actor URL is already stored is rejected by the storage engine:
    no row, key or preference is stored. *)
Theorem createPerson_duplicate (domain userKEK email : string) (properties : Doc)
    (admin : bool) (s : Person.Store) (keys : Person.UserKeyPair) (id : string) :
  actors_id_unique P = true ->
  generateUserKey userKEK = Ok keys ->
  Actors.actorURL P domain (Actors.WithUsername (person_username properties email)) = Ok id ->
  rows_for id (db (Person.store_world s)) <> [] ->
  exists e s',
    Person.createPerson P generateUserKey domain userKEK email properties admin s
      = (Throw (ConstraintError e), s') /\
    actors (db (Person.store_world s')) = actors (db (Person.store_world s)) /\
    Person.actor_keys s' = Person.actor_keys s /\
    Person.actor_preferences s' = Person.actor_preferences s.
Proof.
  intros Huniq Hkeys Hid Hrows.
  assert (Hex : existsb (Actors.has_id id) (actors (db (Person.store_world s))) = true).
  { destruct (existsb _ _) eqn:Hex; [reflexivity |].
    elim Hrows. apply existsb_filter_nil, Hex. }
  unfold Person.createPerson. fold (person_username properties email).
  unfold Person.st_bind at 1. unfold Person.st_lift at 1. rewrite Hkeys.
  unfold Person.st_bind at 1. unfold Person.st_lift at 1. rewrite Hid.
  unfold Person.st_bind at 1. unfold Person.in_world at 1. unfold Date_now at 1.
  unfold Person.st_bind at 1. unfold Person.in_world at 1.
  unfold Actors.generateMastodonId at 1. cbn [Person.store_world db clock set_db].
  unfold Person.st_bind at 1. unfold Person.insert_person at 1.
  cbn [Person.store_world Person.actor_keys Person.actor_preferences db clock set_db
       set_id_sequences actors row_id].
  rewrite Huniq, Hex. simpl.
  eexists. eexists. split; [reflexivity |]. repeat split.
Qed.

End PersonFacts.

Lemma Demo_new_URL_base_serialised (unique in_order pushes : bool) :
  new_URL_base_serialised (Demo.platform unique in_order pushes).
Proof.
  intros input base href H. simpl in *. unfold Demo.parse in *.
  destruct (String.prefix "https://" _) eqn:E; [| discriminate].
  inversion H; subst. rewrite E. reflexivity.
Defined.

(** Dan is created as an administrator from his email address alone. *)
Lemma createPerson_actor_witness :
  exists person s',
    Cases.createPerson "dan@mail.example" true Cases.store = (Ok person, s') /\
    actor_id person = "https://social.example/ap/users/dan" /\
    exists keys,
      Cases.generateUserKey "kek" = Ok keys /\
      Actors.actorURL (Demo.platform true true true) "social.example"
        (Actors.WithUsername (person_username Cases.no_properties "dan@mail.example"))
        = Ok (actor_id person) /\
      actor_type person = Actors.PERSON /\
      actor_preferredUsername person
        = Some (person_username Cases.no_properties "dan@mail.example") /\
      inbox person
        = Actors.endpoint (doc_inbox Cases.no_properties) (actor_id person) "/inbox" /\
      outbox person
        = Actors.endpoint (doc_outbox Cases.no_properties) (actor_id person) "/outbox" /\
      following person
        = Actors.endpoint (doc_following Cases.no_properties) (actor_id person) "/following" /\
      followers person
        = Actors.endpoint (doc_followers Cases.no_properties) (actor_id person) "/followers" /\
      actor_isAdmin person = true /\
      actor_publicKey person =
        Some {| publicKey_id := actor_id person +++ "#main-key";
                publicKeyPem := Person.pubKey keys |} /\
      actor_mastodonId person <> None /\
      actor_published person = clock (Person.store_world Cases.store).
Proof.
  eexists. eexists. split; [vm_compute; reflexivity |]. split; [reflexivity |].
  eapply (createPerson_actor (Demo.platform true true true) Cases.generateUserKey
           "social.example" "kek" "dan@mail.example" Cases.no_properties true Cases.store).
  - apply Demo_new_URL_base_serialised.
  - vm_compute. reflexivity.
Defined.

Lemma createPerson_then_lookup_witness :
  exists person s',
    Cases.createPerson "dan@mail.example" false Cases.store = (Ok person, s') /\
    Actors.getPersonByEmail (Demo.platform true true true) "dan@mail.example"
      (Person.store_world s') = (Ok (Some person), Person.store_world s') /\
    Actors.getActorById (Demo.platform true true true) (actor_id person)
      (Person.store_world s') = (Ok (Some person), Person.store_world s').
Proof.
  eexists. eexists. split; [vm_compute; reflexivity |].
  eapply (createPerson_then_lookup (Demo.platform true true true) Cases.generateUserKey
           "social.example" "kek" "dan@mail.example" Cases.no_properties false Cases.store).
  - apply Demo_new_URL_base_serialised.
  - vm_compute. reflexivity.
  - intros r [<- | []]. discriminate.
  - reflexivity.
Defined.

Lemma createPerson_stored_witness :
  exists person s',
    Cases.createPerson "dan@mail.example" false Cases.store = (Ok person, s') /\
    exists row keys,
      Cases.generateUserKey "kek" = Ok keys /\
      actors (db (Person.store_world s'))
        = actors (db (Person.store_world Cases.store)) ++ [row] /\
      Actors.actorFromRow (Demo.platform true true true) row = Ok person /\
      row_email row = Some "dan@mail.example" /\
      doc_preferredUsername (row_properties row) = actor_preferredUsername person /\
      doc_inbox (row_properties row) = Some (inbox person) /\
      doc_outbox (row_properties row) = Some (outbox person) /\
      doc_following (row_properties row) = Some (following person) /\
      doc_followers (row_properties row) = Some (followers person) /\
      Person.actor_keys s' =
        Person.actor_keys Cases.store ++
          [{| Person.key_actor_id := row_id row;
              Person.key_privkey := Person.wrappedPrivKey keys;
              Person.key_privkey_salt := Person.salt keys |}] /\
      Person.actor_preferences s' = Person.actor_preferences Cases.store ++ [row_id row] /\
      peers (db (Person.store_world s')) = peers (db (Person.store_world Cases.store)) /\
      outside_cache_kept (Person.store_world Cases.store) (Person.store_world s').
Proof.
  eexists. eexists. split; [vm_compute; reflexivity |].
  eapply (createPerson_stored (Demo.platform true true true) Cases.generateUserKey
            "social.example" "kek" "dan@mail.example" Cases.no_properties false Cases.store).
  vm_compute. reflexivity.
Defined.

(** Bob exists already. *)
Lemma createPerson_duplicate_witness :
  exists e s',
    Cases.createPerson "bob@elsewhere.example" false Cases.store
      = (Throw (ConstraintError e), s') /\
    actors (db (Person.store_world s')) = actors (db (Person.store_world Cases.store)) /\
    Person.actor_keys s' = Person.actor_keys Cases.store /\
    Person.actor_preferences s' = Person.actor_preferences Cases.store.
Proof.
  apply (createPerson_duplicate (Demo.platform true true true) Cases.generateUserKey
           "social.example" "kek" "bob@elsewhere.example" Cases.no_properties false
           Cases.store Cases.keys Demo.bob).
  - reflexivity.
  - reflexivity.
  - reflexivity.
  - discriminate.
Defined.

(** ** The followers collection page *)

Section FollowersPageFacts.

Variable P : Platform.
Variable parseHandle : string -> Handle.
Variable isLocalHandle : Handle -> bool.

(** X22: the answers of the followers collection page.  403 is given
    exactly for a handle that is not local and 404 exactly for a local
    handle whose actor URL has no row, both without writing.  A page is
    part of the followers collection of the actor stored under the
    handle's actor URL: its id is that collection's address followed by
    [/page], and its items are all the follower identifiers, without a
    page size. *)
Theorem followers_page_outcomes (domain id : string) (w w' : World)
    (response : FollowersPage.Response) :
  FollowersPage.handleRequest P parseHandle isLocalHandle domain id w = (Ok response, w') ->
  match response with
  | FollowersPage.Empty status =>
      w' = w /\
      (status = 403 /\ isLocalHandle (parseHandle id) = false \/
       status = 404 /\ isLocalHandle (parseHandle id) = true /\
       exists actorId,
         Actors.actorURL P domain (Actors.WithLocalPart (handle_localPart (parseHandle id)))
           = Ok actorId /\
         rows_for actorId (db w) = [])
  | FollowersPage.Json page =>
      isLocalHandle (parseHandle id) = true /\
      exists actorId actor,
        Actors.actorURL P domain (Actors.WithLocalPart (handle_localPart (parseHandle id)))
          = Ok actorId /\
        Actors.getActorById P actorId w = (Ok (Some actor), w') /\
        FollowersPage.page_partOf page = followers actor /\
        new_URL P (followers actor +++ "/page") = Some (FollowersPage.page_id page) /\
        FollowersPage.page_orderedItems page =
          map follow_actor_id
            (filter (Followers.follows (actor_id actor)) (actor_following (db w))) /\
        FollowersPage.page_type page = "OrderedCollectionPage"
  end.
Proof.
  unfold FollowersPage.handleRequest.
  destruct (isLocalHandle (parseHandle id)) eqn:Hlocal; simpl.
  2: { intros H. inversion H; subst. split; [reflexivity | left; split; reflexivity]. }
  intros H. apply bind_lift_inv in H.
  destruct H as [(actorId & Hid & H) | (e & _ & He & _)]; [| discriminate].
  bind_cases H actor w1 Hactor; [| discriminate].
  destruct actor as [actor |].
  - bind_cases H ids w2 Hids; [| discriminate].
    unfold Followers.getFollowerIds in Hids. inversion Hids; subst ids w2. clear Hids.
    apply bind_lift_inv in H.
    destruct H as [(href & Hhref & H) | (e & _ & He & _)]; [| discriminate].
    inversion H; subst. clear H. simpl.
    split; [reflexivity |]. exists actorId, actor.
    split; [exact Hid |]. split; [exact Hactor |]. split; [reflexivity |].
    split; [apply (URL_inv P _ _ Hhref) |]. split; [| reflexivity].
    destruct (getActorById_outside P _ _ _ _ Hactor) as (_ & _ & _ & Hfol & _).
    rewrite Hfol. reflexivity.
  - inversion H; subst. clear H.
    rewrite getActorById_eq in Hactor.
    destruct (rows_for actorId (db w)) as [| row rest] eqn:Hrows.
    + inversion Hactor; subst. split; [reflexivity |]. right.
      split; [reflexivity |]. split; [reflexivity |]. exists actorId. auto.
    + destruct (Actors.actorFromRow P _); inversion Hactor.
Qed.

End FollowersPageFacts.

(** Bob's followers page. *)
Lemma followers_page_outcomes_witness :
  exists page w',
    FollowersPage.handleRequest (Demo.platform true true true) Cases.parseHandle
      Cases.isLocalHandle "social.example" "bob" Cases.world_with_follower
      = (Ok (FollowersPage.Json page), w') /\
    FollowersPage.page_id page = "https://social.example/ap/users/bob/followers/page" /\
    Cases.isLocalHandle (Cases.parseHandle "bob") = true /\
    exists actorId actor,
      Actors.actorURL (Demo.platform true true true) "social.example"
        (Actors.WithLocalPart (handle_localPart (Cases.parseHandle "bob"))) = Ok actorId /\
      Actors.getActorById (Demo.platform true true true) actorId Cases.world_with_follower
        = (Ok (Some actor), w') /\
      FollowersPage.page_partOf page = followers actor /\
      new_URL (Demo.platform true true true) (followers actor +++ "/page")
        = Some (FollowersPage.page_id page) /\
      FollowersPage.page_orderedItems page =
        map follow_actor_id
          (filter (Followers.follows (actor_id actor))
             (actor_following (db Cases.world_with_follower))) /\
      FollowersPage.page_type page = "OrderedCollectionPage".
Proof.
  eexists. eexists. split; [vm_compute; reflexivity |]. split; [reflexivity |].
  apply (followers_page_outcomes (Demo.platform true true true) Cases.parseHandle
           Cases.isLocalHandle "social.example" "bob" Cases.world_with_follower _
           (FollowersPage.Json _)).
  vm_compute. reflexivity.
Defined.

(** ** Looking a person up by email address *)

(** X23: getPersonByEmail answers with an actor built from a stored row
    of type Person that has the email address asked for, carrying a
    sequential identifier; it answers null, without writing, exactly when
    no Person row has that address. *)
Theorem getPersonByEmail_person (P : Platform) (email : string) (w w' : World)
    (r : option Actor) :
  Actors.getPersonByEmail P email w = (Ok r, w') ->
  match r with
  | Some a =>
      actor_type a = Actors.PERSON /\
      actor_mastodonId a <> None /\
      exists row,
        In row (actors (db w)) /\ row_email row = Some email /\
        row_type row = Actors.PERSON /\
        new_URL P (row_id row) = Some (actor_id a)
  | None =>
      w' = w /\
      forall row, In row (actors (db w)) -> row_email row = Some email ->
                  row_type row <> Actors.PERSON
  end.
Proof.
  unfold Actors.getPersonByEmail, Actors.select_actors. unfold bind at 1.
  destruct (filter _ (actors (db w))) as [| row rest] eqn:Hrows.
  - intros H. inversion H; subst. split; [reflexivity |].
    intros row Hin Hemail Hty.
    assert (Hin' : In row []).
    { rewrite <- Hrows. apply filter_In. split; [exact Hin |].
      rewrite Hemail, Hty, !String.eqb_refl. reflexivity. }
    destruct Hin'.
  - assert (Hin : In row (row :: rest)) by (left; reflexivity).
    rewrite <- Hrows in Hin. apply filter_In in Hin. destruct Hin as (Hin & Hc).
    destruct (row_email row) as [e |] eqn:Hemail; [| discriminate].
    apply andb_prop in Hc. destruct Hc as (He & Hty).
    apply String.eqb_eq in He, Hty. subst e.
    intros H. bind_cases H row' w1 Hrow; [| discriminate].
    rewrite row_with_mastodon_id_eq in Hrow. inversion Hrow; subst row' w1. clear Hrow.
    apply bind_lift_inv in H.
    destruct H as [(a & Ha & H) | (e & _ & He & _)]; [| discriminate].
    inversion H; subst. clear H.
    destruct (actorFromRow_inv P _ _ Ha) as (Hid & Hty' & Hmid & _).
    assert (Hb : row_id (fst (backfill row w)) = row_id row /\
                 row_type (fst (backfill row w)) = row_type row /\
                 row_mastodon_id (fst (backfill row w)) <> None).
    { unfold backfill. destruct (row_mastodon_id row) eqn:Hm; simpl.
      - rewrite Hm. repeat split. discriminate.
      - repeat split. discriminate. }
    destruct Hb as (Hbid & Hbty & Hbm).
    split; [congruence |]. split; [congruence |].
    exists row. rewrite <- Hbid. auto.
Qed.

(** Carol, an old local actor, looked up by her address. *)
Lemma getPersonByEmail_person_witness :
  exists a w',
    Actors.getPersonByEmail (Cases.platform true) "carol@social.example" Cases.legacy_world
      = (Ok (Some a), w') /\
    actor_type a = Actors.PERSON /\
    actor_mastodonId a <> None /\
    exists row,
      In row (actors (db Cases.legacy_world)) /\
      row_email row = Some "carol@social.example" /\
      row_type row = Actors.PERSON /\
      new_URL (Cases.platform true) (row_id row) = Some (actor_id a).
Proof.
  eexists. eexists. split; [vm_compute; reflexivity |].
  eapply (getPersonByEmail_person (Cases.platform true) "carol@social.example"
            Cases.legacy_world _ (Some _)).
  vm_compute. reflexivity.
Defined.
